(** * Debug-ID upload pipeline of the bundler plugin core

    A shallow embedding of
    [packages/bundler-plugin-core/src/debug-id-upload.ts] and the
    properties of its matching and staging pipeline.

    Conventions.
    - A JavaScript string is a [string]: the bytes of its UTF-8 text.  The
      regular expressions of the module only name ASCII characters, so they
      read the same on bytes; [.] is the one atom that looks at non-ASCII
      text (it stops at U+2028 and U+2029), and it is modelled on the three
      bytes of their encodings.
    - An asynchronous function is a computation over the world (file
      system, staged removals) that also returns the events it emitted, in
      program order, and either a value or the reason of its rejection.
    - The platform (Node's [path], [process.cwd], [os.tmpdir], [JSON]) is a
      record the functions are parametrised by. *)

From stdpp Require Import gmap strings list pretty.
From Stdlib Require Import Ascii String.

Local Open Scope char_scope.
Local Open Scope stdpp_scope.
Local Arguments String.append !_ _ / : simpl nomatch.

(** ** Regular expressions

    The fragment of ECMAScript regular expressions the module uses:
    sequences of atoms, one capture group, greedy stars with backtracking,
    no flags.  [search] is [RegExp.prototype.exec] from index 0: the first
    start index at which the pattern matches wins. *)

Module Re.

Definition in_range (lo hi c : ascii) : bool :=
  (N_of_ascii lo <=? N_of_ascii c)%N && (N_of_ascii c <=? N_of_ascii hi)%N.

Definition digit (c : ascii) : bool := in_range "0" "9" c.
Definition lower (c : ascii) : bool := in_range "a" "z" c.
Definition upper (c : ascii) : bool := in_range "A" "Z" c.
(** [[a-zA-Z]] *)
Definition alpha (c : ascii) : bool := lower c || upper c.
(** [[0-9a-fA-F]] *)
Definition hex (c : ascii) : bool :=
  digit c || in_range "a" "f" c || in_range "A" "F" c.
(** [[a-zA-Z0-9+\-.]] *)
Definition scheme_char (c : ascii) : bool :=
  alpha c || digit c || Ascii.eqb c "+" || Ascii.eqb c "-" || Ascii.eqb c ".".
(** [\w], the characters [\b] tells apart from the others. *)
Definition word (c : ascii) : bool :=
  alpha c || digit c || Ascii.eqb c "_".

(** Does the text start with a line terminator: LF, CR, U+2028, U+2029
    (the last two as E2 80 A8 and E2 80 A9). *)
Definition line_terminator_at (s : string) : bool :=
  match s with
  | String "010" _ => true
  | String "013" _ => true
  | String "226" (String "128" (String "168" _)) => true
  | String "226" (String "128" (String "169" _)) => true
  | _ => false
  end.

Inductive atom :=
| Bol                                   (* ^ *)
| Eol                                   (* $ *)
| WordB                                 (* \b *)
| Lit (l : string)                      (* literal text *)
| Rep (cls : ascii → bool) (n : nat)    (* [cls]{n} *)
| Star (cls : ascii → bool)             (* [cls]* *)
| AnyStar                               (* .* *)
| Open                                  (* ( *)
| Close.                                (* ) *)

(** What the matcher knows besides the text still to read: the character
    just before the position ([None] at index 0), the text of the group
    that is open, and the text of the group once closed. *)
Record ctx := Ctx {
  before : option ascii;
  grp : option string;
  cap1 : option string;
}.

Definition start_ctx (b : option ascii) : ctx :=
  {| before := b; grp := None; cap1 := None |}.

Definition eat (c : ascii) (cx : ctx) : ctx :=
  {| before := Some c;
     grp := (λ g, g +:+ String c "") <$> grp cx;
     cap1 := cap1 cx |}.

Definition is_word_opt (o : option ascii) : bool :=
  match o with Some c => word c | None => false end.

Definition next_char (s : string) : option ascii :=
  match s with String c _ => Some c | "" => None end.

Definition at_word_boundary (cx : ctx) (s : string) : bool :=
  xorb (is_word_opt (before cx)) (is_word_opt (next_char s)).

Fixpoint lit (l : string) (cx : ctx) (s : string) : option (ctx * string) :=
  match l with
  | "" => Some (cx, s)
  | String a l' =>
      match s with
      | String c s' => if Ascii.eqb a c then lit l' (eat c cx) s' else None
      | "" => None
      end
  end.

Fixpoint rep (cls : ascii → bool) (n : nat) (cx : ctx) (s : string)
  : option (ctx * string) :=
  match n with
  | 0 => Some (cx, s)
  | S n' =>
      match s with
      | String c s' => if cls c then rep cls n' (eat c cx) s' else None
      | "" => None
      end
  end.

(** Greedy star: take one more character when the class allows it and the
    rest of the pattern then matches; otherwise go on from here. *)
Fixpoint star (p : ascii → string → bool)
    (k : ctx → string → option (ctx * string))
    (cx : ctx) (s : string) : option (ctx * string) :=
  match s with
  | String c s' =>
      if p c s' then
        match star p k (eat c cx) s' with
        | Some m => Some m
        | None => k cx s
        end
      else k cx s
  | "" => k cx s
  end.

Fixpoint exec (r : list atom) (cx : ctx) (s : string) {struct r}
  : option (ctx * string) :=
  match r with
  | [] => Some (cx, s)
  | a :: r' =>
      match a with
      | Bol => match before cx with None => exec r' cx s | Some _ => None end
      | Eol => match s with "" => exec r' cx s | String _ _ => None end
      | WordB => if at_word_boundary cx s then exec r' cx s else None
      | Lit l =>
          match lit l cx s with
          | Some (cx', s') => exec r' cx' s'
          | None => None
          end
      | Rep cls n =>
          match rep cls n cx s with
          | Some (cx', s') => exec r' cx' s'
          | None => None
          end
      | Star cls => star (λ c _, cls c) (exec r') cx s
      | AnyStar =>
          star (λ c s', negb (line_terminator_at (String c s'))) (exec r') cx s
      | Open =>
          exec r' {| before := before cx; grp := Some ""; cap1 := cap1 cx |} s
      | Close =>
          exec r' {| before := before cx; grp := None; cap1 := grp cx |} s
      end
  end.

(** The result of a successful match: the text before it, the text of
    group 1, the text after it. *)
Record result := Result {
  m_pre : string;
  m_cap1 : option string;
  m_post : string;
}.

Fixpoint search_from (r : list atom) (b : option ascii) (s : string)
  : option result :=
  match exec r (start_ctx b) s with
  | Some (cx, s') => Some {| m_pre := ""; m_cap1 := cap1 cx; m_post := s' |}
  | None =>
      match s with
      | String c s' =>
          match search_from r (Some c) s' with
          | Some m =>
              Some {| m_pre := String c (m_pre m);
                      m_cap1 := m_cap1 m; m_post := m_post m |}
          | None => None
          end
      | "" => None
      end
  end.

(** [s.match(r)] for a pattern without the [g] flag. *)
Definition search (r : list atom) (s : string) : option result :=
  search_from r None s.

(** [s.replace(r, by)]: the first match is replaced. *)
Definition replace (r : list atom) (by_ : string) (s : string) : string :=
  match search r s with
  | Some m => m_pre m +:+ by_ +:+ m_post m
  | None => s
  end.

End Re.

(** ** Identifier extractor (lines 209-219) *)

(** [/sentry-dbid-([0-9a-fA-F]{8}\b-[0-9a-fA-F]{4}\b-[0-9a-fA-F]{4}\b-[0-9a-fA-F]{4}\b-[0-9a-fA-F]{12})/] *)
Definition DEBUG_ID_REGEX : list Re.atom :=
  [ Re.Lit "sentry-dbid-"; Re.Open;
    Re.Rep Re.hex 8; Re.WordB; Re.Lit "-";
    Re.Rep Re.hex 4; Re.WordB; Re.Lit "-";
    Re.Rep Re.hex 4; Re.WordB; Re.Lit "-";
    Re.Rep Re.hex 4; Re.WordB; Re.Lit "-";
    Re.Rep Re.hex 12; Re.Close ].

Definition determineDebugIdFromBundleSource (code : string) : option string :=
  match Re.search DEBUG_ID_REGEX code with
  | Some m => Re.m_cap1 m
  | None => None
  end.


(** ** JSON documents

    The value [JSON.parse] returns.  An object keeps its fields in insertion
    order, which is the order [JSON.stringify] writes them in; a number is
    carried as its literal. *)

#[warnings="-register-all"]
Inductive Json :=
| JNull
| JBool (b : bool)
| JNumber (lit : string)
| JString (s : string)
| JArray (items : list Json)
| JObject (fields : list (string * Json)).

Fixpoint fields_get (k : string) (fs : list (string * Json)) : option Json :=
  match fs with
  | [] => None
  | (k', v) :: fs' => if String.eqb k k' then Some v else fields_get k fs'
  end.

(** Assigning to a field that exists keeps its place; a new field goes last. *)
Fixpoint fields_set (k : string) (v : Json) (fs : list (string * Json))
  : list (string * Json) :=
  match fs with
  | [] => [(k, v)]
  | (k', v') :: fs' =>
      if String.eqb k k' then (k, v) :: fs' else (k', v') :: fields_set k v fs'
  end.

(** [map[k]] for a key that is neither an index nor a built-in property. *)
Definition get_prop (k : string) (j : Json) : option Json :=
  match j with
  | JObject fs => fields_get k fs
  | _ => None
  end.

(** ** Errors, outcomes, events *)

Inductive Error :=
| EReadFile (path : string)
| EAccess (path : string)
| EWriteFile (path : string)
| ERm (path : string)
| EMkdtemp (prefix : string)
| EGlob
| EUpload
| EFlush
| ESyntaxError
| ETypeError
| ECallback (e : Error).

Inductive Outcome (A : Type) :=
| Ok (a : A)
| Throw (e : Error).
Arguments Ok {A} a.
Arguments Throw {A} e.

(** [map[k] = v] in strict mode (the module is an ES module): a field of an
    object is written; on an array the assignment makes a property that is
    not an element, which serialisation never shows; [null] and the
    primitives throw a [TypeError]. *)
Definition set_prop (k : string) (v : Json) (j : Json) : Outcome Json :=
  match j with
  | JObject fs => Ok (JObject (fields_set k v fs))
  | JArray items => Ok (JArray items)
  | JNull | JBool _ | JNumber _ | JString _ => Throw ETypeError
  end.

Inductive Level := Debug | Warn | Err.

(** [string | string[]] *)
Inductive Patterns :=
| Pattern (s : string)
| PatternList (l : list string).

Inductive Event :=
| EvLog (lvl : Level) (msg : string)
| EvReadFile (path : string)
| EvAccess (path : string)
| EvWriteFile (path content : string)
| EvMkdtemp (prefix : string)
| EvGlob (patterns : Patterns) (ignore : option Patterns)
| EvUpload (release : string) (paths : list string) (dist : option string)
| EvRm (path : string)
| EvRmDetached (path : string)
| EvCaptureException (msg : string)
| EvFlush
| EvHandleRecoverableError (e : Error).

(** ** The world

    [files] are the readable regular files with their text, [dirs] the
    directories; [detached] lists the removals that were started with
    [void], whose completion nothing waits for: their effect is not part of
    the world the caller sees when the operation settles. *)

Record World := {
  files : gmap string string;
  dirs : gset string;
  detached : list string;
}.

(** What the environment answers during one run.  [glob_matches] is the
    outcome of a [glob] call ([None]: it rejects), [mkdtemp_creates] the
    directory [mkdtemp] makes for a prefix ([None]: it rejects). *)
Record Env := {
  mkdtemp_creates : string → option string;
  glob_matches : Patterns → option Patterns → option (list string);
  write_succeeds : string → bool;
  rm_succeeds : string → bool;
  upload_succeeds : bool;
  flush_succeeds : bool;
}.

(** Node's [path], [process], [os] and [JSON]. *)
Record Platform := {
  path_normalize : string → string;
  path_isAbsolute : string → bool;
  path_join : string → string → string;
  path_dirname : string → string;
  path_relative : string → string → string;
  process_cwd : string;
  os_tmpdir : string;
  JSON_parse : string → option Json;
  JSON_stringify : Json → string;
}.

(** [(source: string, map: any): string]; the type of [source] is not
    checked at run time, and a hook may throw. *)
Definition RewriteSourcesHook := Json → Json → Outcome string.

Record DebugIdUploadPluginOptions := {
  assets : option Patterns;
  ignore : option Patterns;
  releaseName : option string;
  dist : option string;
  rewriteSourcesHook : option RewriteSourcesHook;
  (** [None]: the callback returns; [Some e]: it throws [e]. *)
  handleRecoverableError : Error → option Error;
  deleteFilesAfterUpload : option Patterns;
}.

(** ** Asynchronous computations *)

Definition M (A : Type) : Type := World → Outcome A * World * list Event.

Global Instance M_ret : MRet M := λ A a w, (Ok a, w, []).

Global Instance M_bind : MBind M := λ A B f m w,
  match m w with
  | (Ok a, w1, ev1) =>
      match f a w1 with
      | (r, w2, ev2) => (r, w2, ev1 ++ ev2)
      end
  | (Throw e, w1, ev1) => (Throw e, w1, ev1)
  end.

Definition throw {A} (e : Error) : M A := λ w, (Throw e, w, []).
Definition emit (ev : Event) : M unit := λ w, (Ok (), w, [ev]).
Definition lift_outcome {A} (r : Outcome A) : M A := λ w, (r, w, []).

(** Runs [m] and hands its outcome over as a value: [try { await m }
    catch (e) {...}] is [attempt m] followed by a match. *)
Definition attempt {A} (m : M A) : M (Outcome A) := λ w,
  match m w with
  | (r, w1, ev1) => (Ok r, w1, ev1)
  end.

Definition try_catch_finally {A} (body : M A) (handler : Error → M A)
    (final : M unit) : M A := λ w,
  match body w with
  | (r1, w1, ev1) =>
      match (match r1 with
             | Ok a => (Ok a, w1, [])
             | Throw e => handler e w1
             end) with
      | (r2, w2, ev2) =>
          match final w2 with
          | (Ok _, w3, ev3) => (r2, w3, ev1 ++ ev2 ++ ev3)
          | (Throw e, w3, ev3) => (Throw e, w3, ev1 ++ ev2 ++ ev3)
          end
      end
  end.

(** The first rejection of a list of outcomes, or all the values. *)
Fixpoint join_outcomes {A} (rs : list (Outcome A)) : Outcome (list A) :=
  match rs with
  | [] => Ok []
  | Ok a :: rs' =>
      match join_outcomes rs' with
      | Ok l => Ok (a :: l)
      | Throw e => Throw e
      end
  | Throw e :: _ => Throw e
  end.

(** Every task runs to its end, in the order of the list. *)
Fixpoint all_settled {A} (ms : list (M A)) : M (list (Outcome A)) :=
  match ms with
  | [] => mret []
  | m :: ms' =>
      r ← attempt m;
      rs ← all_settled ms';
      mret (r :: rs)
  end.

(** [Promise.all], under one schedule: the tasks are run one after the
    other, each to its end, and the operation then rejects when one of them
    did, with the rejection of the first in the list.  The source's
    [Promise.all] rejects at the first rejection in time, with the other
    tasks still in flight: which rejection comes first, what has happened
    by then and the order of the events of different tasks are not
    represented.  Of a run with a rejecting task the numbered properties
    below state only what holds under every schedule: which events occur, which files
    can change, and how the run settles where that does not depend on the
    rejection that came first. *)
Definition Promise_all {A} (ms : list (M A)) : M (list A) :=
  rs ← all_settled ms;
  lift_outcome (join_outcomes rs).

(** [Array.prototype.forEach] with a callback that awaits nothing. *)
Fixpoint forEach {A} (f : A → M unit) (l : list A) : M unit :=
  match l with
  | [] => mret ()
  | x :: l' => f x;; forEach f l'
  end.

Definition LF : string := String "010" "".
Definition DQUOTE : string := String "034" "".

(** A string in a condition: the empty string is falsy. *)
Definition truthy (s : string) : bool := negb (String.eqb s "").

(** [if (patterns)] for an optional [string | string[]]: an array is
    truthy, also when it is empty. *)
Definition patterns_truthy (o : option Patterns) : bool :=
  match o with
  | None => false
  | Some (Pattern s) => truthy s
  | Some (PatternList _) => true
  end.

Definition endsWith (s suffix : string) : bool :=
  String.prefix (String.rev suffix) (String.rev s).

Section Pipeline.

Context (P : Platform) (env : Env).

(** *** File system and collaborators *)

Definition logger (lvl : Level) (msg : string) : M unit := emit (EvLog lvl msg).

Definition fs_readFile (path : string) : M string := λ w,
  match files w !! path with
  | Some content => (Ok content, w, [EvReadFile path])
  | None => (Throw (EReadFile path), w, [EvReadFile path])
  end.

Definition fs_access (path : string) : M unit := λ w,
  if bool_decide (is_Some (files w !! path)) || bool_decide (path ∈ dirs w)
  then (Ok (), w, [EvAccess path])
  else (Throw (EAccess path), w, [EvAccess path]).

Definition fs_writeFile (path content : string) : M unit := λ w,
  if write_succeeds env path
  then (Ok (),
        {| files := <[path := content]> (files w);
           dirs := dirs w; detached := detached w |},
        [EvWriteFile path content])
  else (Throw (EWriteFile path), w, [EvWriteFile path content]).

Definition fs_mkdtemp (prefix : string) : M string := λ w,
  match mkdtemp_creates env prefix with
  | Some d =>
      (Ok d,
       {| files := files w; dirs := {[d]} ∪ dirs w; detached := detached w |},
       [EvMkdtemp prefix])
  | None => (Throw (EMkdtemp prefix), w, [EvMkdtemp prefix])
  end.

(** [fs.promises.rm(path, { force: true })], awaited: a missing file is
    not an error. *)
Definition fs_rm_force (path : string) : M unit := λ w,
  if rm_succeeds env path
  then (Ok (),
        {| files := delete path (files w);
           dirs := dirs w; detached := detached w |},
        [EvRm path])
  else (Throw (ERm path), w, [EvRm path]).

(** [void fs.promises.rm(path, { recursive: true, force: true })]: the
    removal is started and left on its own. *)
Definition fs_rm_detached (path : string) : M unit := λ w,
  (Ok (),
   {| files := files w; dirs := dirs w; detached := detached w ++ [path] |},
   [EvRmDetached path]).

Definition glob (patterns : Patterns) (ign : option Patterns)
  : M (list string) := λ w,
  match glob_matches env patterns ign with
  | Some l => (Ok l, w, [EvGlob patterns ign])
  | None => (Throw EGlob, w, [EvGlob patterns ign])
  end.

Definition uploadSourceMaps (release : string) (paths : list string)
    (d : option string) : M unit := λ w,
  if upload_succeeds env
  then (Ok (), w, [EvUpload release paths d])
  else (Throw EUpload, w, [EvUpload release paths d]).

Definition sentryHub_captureException (msg : string) : M unit :=
  emit (EvCaptureException msg).

Definition sentryClient_flush : M unit := λ w,
  if flush_succeeds env then (Ok (), w, [EvFlush])
  else (Throw EFlush, w, [EvFlush]).

Definition call_handleRecoverableError
    (opts : DebugIdUploadPluginOptions) (e : Error) : M unit := λ w,
  match handleRecoverableError opts e with
  | None => (Ok (), w, [EvHandleRecoverableError e])
  | Some e' => (Throw (ECallback e'), w, [EvHandleRecoverableError e])
  end.

(** *** Default rewrite hook (lines 303-310) *)

(** [/^[a-zA-Z][a-zA-Z0-9+\-.]*:\/\//] *)
Definition PROTOCOL_REGEX : list Re.atom :=
  [ Re.Bol; Re.Rep Re.alpha 1; Re.Star Re.scheme_char; Re.Lit "://" ].

Definition defaultRewriteSourcesHook (source : string) : string :=
  match Re.search PROTOCOL_REGEX source with
  | Some _ => Re.replace PROTOCOL_REGEX "" source
  | None => path_relative P (process_cwd P) (path_normalize P source)
  end.

(** The default hook as it is called: on an entry that is not a string,
    [source.match] is not a function. *)
Definition defaultHook : RewriteSourcesHook := λ source _,
  match source with
  | JString s => Ok (defaultRewriteSourcesHook s)
  | _ => Throw ETypeError
  end.

(** *** Source-map transformer (lines 261-301) *)

(** Lines 280-283: parse, then write both identifier fields. *)
Definition parse_and_inject (sourceMapFileContent debugId : string)
  : Outcome Json :=
  match JSON_parse P sourceMapFileContent with
  | None => Throw ESyntaxError
  | Some map =>
      match set_prop "debug_id" (JString debugId) map with
      | Throw e => Throw e
      | Ok map => set_prop "debugId" (JString debugId) map
      end
  end.

(** [sources.map(source => hook(source, map))]: the calls in order, up to
    the first that throws. *)
Fixpoint array_map (hook : RewriteSourcesHook) (map : Json)
    (sources : list Json) : Outcome (list string) :=
  match sources with
  | [] => Ok []
  | source :: rest =>
      match hook source map with
      | Throw e => Throw e
      | Ok s =>
          match array_map hook map rest with
          | Throw e => Throw e
          | Ok l => Ok (s :: l)
          end
      end
  end.

Definition prepareSourceMapForDebugIdUpload
    (sourceMapPath targetPath debugId : string)
    (hook : RewriteSourcesHook) : M unit :=
  r ← attempt (fs_readFile sourceMapPath);
  match r with
  | Throw _ =>
      logger Err
        ("Failed to read source map for debug ID upload: " +:+ sourceMapPath)
  | Ok sourceMapFileContent =>
      match parse_and_inject sourceMapFileContent debugId with
      | Throw _ =>
          logger Err
            ("Failed to parse source map for debug ID upload: "
             +:+ sourceMapPath)
      | Ok map =>
          (* lines 289-291: the array [map] returns is dropped *)
          match get_prop "sources" map with
          | Some (JArray sources) =>
              _ ← lift_outcome (array_map hook map sources); mret ()
          | _ => mret ()
          end;;
          w ← attempt (fs_writeFile targetPath (JSON_stringify P map));
          match w with
          | Throw _ =>
              logger Err
                ("Failed to prepare source map for debug ID upload: "
                 +:+ sourceMapPath)
          | Ok _ => mret ()
          end
      end
  end.

(** *** Source-map locator (lines 226-256) *)

(** [/^\/\/# sourceMappingURL=( .* )$/], without the spaces. *)
Definition SOURCE_MAPPING_URL_REGEX : list Re.atom :=
  [ Re.Bol; Re.Lit "//# sourceMappingURL=";
    Re.Open; Re.AnyStar; Re.Close; Re.Eol ].

Definition determineSourceMapPathFromBundle
    (bundlePath bundleSource : string) : M (option string) :=
  match Re.search SOURCE_MAPPING_URL_REGEX bundleSource with
  | Some sourceMappingUrlMatch =>
      let sourceMappingUrl :=
        path_normalize P (default "" (Re.m_cap1 sourceMappingUrlMatch)) in
      if path_isAbsolute P sourceMappingUrl
      then mret (Some sourceMappingUrl)
      else mret (Some (path_join P (path_dirname P bundlePath) sourceMappingUrl))
  | None =>
      let adjacentSourceMapFilePath := bundlePath +:+ ".map" in
      r ← attempt (fs_access adjacentSourceMapFilePath);
      match r with
      | Ok _ => mret (Some adjacentSourceMapFilePath)
      | Throw _ =>
          logger Debug
            ("Could not determine source map path for bundle: " +:+ bundlePath
             +:+ " - Did you turn on source map generation in your bundler?");;
          mret None
      end
  end.

(** *** Bundle preparer (lines 149-201) *)

Definition uniqueUploadName (debugId : string) (chunkIndex : nat) : string :=
  debugId +:+ "-" +:+ pretty chunkIndex.

Definition stamp (bundleContent debugId : string) : string :=
  bundleContent +:+ LF +:+ "//# debugId=" +:+ debugId.

Definition prepareBundleForDebugIdUpload
    (bundleFilePath uploadFolder : string) (chunkIndex : nat)
    (hook : RewriteSourcesHook) : M unit :=
  r ← attempt (fs_readFile bundleFilePath);
  match r with
  | Throw _ =>
      logger Err
        ("Could not read bundle to determine debug ID and source map: "
         +:+ bundleFilePath)
  | Ok bundleContent =>
      match determineDebugIdFromBundleSource bundleContent with
      | None =>
          logger Debug
            ("Could not determine debug ID from bundle. This can happen if you did not clean your output folder before installing the Sentry plugin. File will not be source mapped: "
             +:+ bundleFilePath)
      | Some debugId =>
          let name := uniqueUploadName debugId chunkIndex in
          let bundleContent := stamp bundleContent debugId in
          let writeSourceFilePromise :=
            fs_writeFile (path_join P uploadFolder (name +:+ ".js"))
              bundleContent in
          let writeSourceMapFilePromise :=
            sourceMapPath ←
              determineSourceMapPathFromBundle bundleFilePath bundleContent;
            match sourceMapPath with
            | Some sourceMapPath =>
                if truthy sourceMapPath then
                  prepareSourceMapForDebugIdUpload sourceMapPath
                    (path_join P uploadFolder (name +:+ ".js.map"))
                    debugId hook
                else mret ()
            | None => mret ()
            end in
          _ ← Promise_all [writeSourceFilePromise; writeSourceMapFilePromise];
          mret ()
      end
  end.

(** *** Batch orchestrator (lines 37-147) *)

Definition is_script (debugIdChunkFilePath : string) : bool :=
  endsWith debugIdChunkFilePath ".js"
  || endsWith debugIdChunkFilePath ".mjs"
  || endsWith debugIdChunkFilePath ".cjs".

(** Lines 62-119, with the staging directory made. *)
Definition stage_and_upload (opts : DebugIdUploadPluginOptions)
    (buildArtifactPaths : list string) (tmpUploadFolder : string) : M unit :=
  globAssets ←
    (if patterns_truthy (assets opts)
     then mret (default (PatternList []) (assets opts))
     else
       logger Debug
         "No `sourcemaps.assets` option provided, falling back to uploading detected build artifacts.";;
       mret (PatternList buildArtifactPaths));
  found ← glob globAssets (ignore opts);
  let debugIdChunkFilePaths := filter (λ p, is_script p = true) found in
  match assets opts, debugIdChunkFilePaths with
  | Some (PatternList []), _ =>
      logger Debug
        "Empty `sourcemaps.assets` option provided. Will not upload sourcemaps with debug ID."
  | _, [] =>
      logger Warn
        "Didn't find any matching sources for debug ID upload. Please check the `sourcemaps.assets` option."
  | _, _ =>
      _ ← Promise_all
            (imap (λ chunkIndex chunkFilePath,
                     prepareBundleForDebugIdUpload chunkFilePath
                       tmpUploadFolder chunkIndex
                       (default defaultHook (rewriteSourcesHook opts)))
                  debugIdChunkFilePaths);
      uploadSourceMaps (default "undefined" (releaseName opts))
        [tmpUploadFolder] (dist opts)
  end.

(** Lines 121-136. *)
Definition delete_files_after_upload (opts : DebugIdUploadPluginOptions)
  : M unit :=
  if patterns_truthy (deleteFilesAfterUpload opts) then
    filePathsToDelete ←
      glob (default (PatternList []) (deleteFilesAfterUpload opts)) None;
    forEach
      (λ filePathToDelete,
         logger Debug ("Deleting asset after upload: " +:+ filePathToDelete))
      filePathsToDelete;;
    _ ← Promise_all (fs_rm_force <$> filePathsToDelete);
    mret ()
  else mret ().

(** The function [createDebugIdUploadFunction] returns.  [folderToCleanUp]
    is assigned right after [mkdtemp] has resolved and nowhere else, so
    the [finally] block sees the folder exactly when the body got past
    [mkdtemp]: [cleanup] is given [Some folder] then and [None] before. *)
Definition cleanup (folderToCleanUp : option string) : M unit :=
  match folderToCleanUp with
  | Some folder => if truthy folder then fs_rm_detached folder else mret ()
  | None => mret ()
  end.

Definition on_error (opts : DebugIdUploadPluginOptions) (e : Error) : M unit :=
  sentryHub_captureException
    ("Error in " +:+ DQUOTE +:+ "debugIdUploadPlugin" +:+ DQUOTE
     +:+ " writeBundle hook");;
  sentryClient_flush;;
  call_handleRecoverableError opts e.

Definition createDebugIdUploadFunction (opts : DebugIdUploadPluginOptions)
    (buildArtifactPaths : list string) : M unit :=
  created ← attempt
    (fs_mkdtemp (path_join P (os_tmpdir P) "sentry-bundler-plugin-upload-"));
  match created with
  | Throw e => try_catch_finally (throw e) (on_error opts) (cleanup None)
  | Ok tmpUploadFolder =>
      try_catch_finally
        (stage_and_upload opts buildArtifactPaths tmpUploadFolder;;
         delete_files_after_upload opts)
        (on_error opts)
        (cleanup (Some tmpUploadFolder))
  end.

End Pipeline.

(** ** A platform to run the functions on

    Node's [path.posix], by segments, and a [JSON] that knows a finite table
    of documents.  The theorems below hold for every platform; this one
    serves the examples. *)

Module Posix.

Fixpoint segments_go (acc : string) (s : string) : list string :=
  match s with
  | "" => [String.rev acc]
  | String c s' =>
      if Ascii.eqb c "/" then String.rev acc :: segments_go "" s'
      else segments_go (String c acc) s'
  end.

(** [path.split("/")] *)
Definition segments (s : string) : list string := segments_go "" s.

Fixpoint join_with (sep : string) (l : list string) : string :=
  match l with
  | [] => ""
  | [x] => x
  | x :: l' => x +:+ sep +:+ join_with sep l'
  end.

(** One segment of [normalizeString]; the stack has the last segment
    first. *)
Definition step (allowAboveRoot : bool) (stack : list string) (seg : string)
  : list string :=
  if String.eqb seg "" || String.eqb seg "." then stack
  else if String.eqb seg ".." then
    match stack with
    | top :: below =>
        if String.eqb top ".."
        then (if allowAboveRoot then ".." :: stack else stack)
        else below
    | [] => if allowAboveRoot then [".."] else []
    end
  else seg :: stack.

Definition normalizeString (path : string) (allowAboveRoot : bool) : string :=
  join_with "/" (rev (foldl (step allowAboveRoot) [] (segments path))).

Definition isAbsolute (path : string) : bool := String.prefix "/" path.

Definition normalize (path : string) : string :=
  if String.eqb path "" then "."
  else
    let isAbs := isAbsolute path in
    let trailingSeparator := endsWith path "/" in
    let p := normalizeString path (negb isAbs) in
    if String.eqb p "" then
      (if isAbs then "/" else if trailingSeparator then "./" else ".")
    else
      let p := if trailingSeparator then p +:+ "/" else p in
      if isAbs then "/" +:+ p else p.

Definition join (a b : string) : string :=
  match truthy a, truthy b with
  | true, true => normalize (a +:+ "/" +:+ b)
  | true, false => normalize a
  | false, true => normalize b
  | false, false => "."
  end.

Fixpoint drop_while (p : ascii → bool) (s : string) : string :=
  match s with
  | String c s' => if p c then drop_while p s' else s
  | "" => ""
  end.

Definition is_slash (c : ascii) : bool := Ascii.eqb c "/".

Definition dirname (path : string) : string :=
  match path with
  | "" => "."
  | String c0 body =>
      let hasRoot := is_slash c0 in
      (* from the end: the trailing slashes, then the last segment *)
      let r := drop_while (λ c, negb (is_slash c))
                 (drop_while is_slash (String.rev body)) in
      match r with
      | "" => if hasRoot then "/" else "."
      | String _ r' =>
          if hasRoot && String.eqb r' "" then "//"
          else String c0 (String.rev r')
      end
  end.

Definition resolve (cwd path : string) : string :=
  let full := if isAbsolute path then path else cwd +:+ "/" +:+ path in
  "/" +:+ normalizeString full false.

Fixpoint strip_common (a b : list string) : list string * list string :=
  match a, b with
  | x :: a', y :: b' => if String.eqb x y then strip_common a' b' else (a, b)
  | _, _ => (a, b)
  end.

Definition relative (cwd from to : string) : string :=
  if String.eqb from to then ""
  else
    let from := resolve cwd from in
    let to := resolve cwd to in
    if String.eqb from to then ""
    else
      let non_empty := filter (λ x, truthy x = true) in
      match strip_common (non_empty (segments from)) (non_empty (segments to)) with
      | (up, down) => join_with "/" (((λ _, "..") <$> up) ++ down)
      end.

End Posix.

Module Fixture.

Definition quote (s : string) : string := DQUOTE +:+ s +:+ DQUOTE.

(** A serialiser for documents whose strings need no escape. *)
Fixpoint stringify (j : Json) : string :=
  match j with
  | JNull => "null"
  | JBool true => "true"
  | JBool false => "false"
  | JNumber lit => lit
  | JString s => quote s
  | JArray items =>
      "[" +:+
      (fix go (l : list Json) : string :=
         match l with
         | [] => ""
         | [x] => stringify x
         | x :: l' => stringify x +:+ "," +:+ go l'
         end) items +:+ "]"
  | JObject fs =>
      "{" +:+
      (fix go (l : list (string * Json)) : string :=
         match l with
         | [] => ""
         | [(k, v)] => quote k +:+ ":" +:+ stringify v
         | (k, v) :: l' => quote k +:+ ":" +:+ stringify v +:+ "," +:+ go l'
         end) fs +:+ "}"
  end.

(** The parser of a world whose JSON texts are the serialisations of
    [known]; every other text is a syntax error. *)
Definition parse (known : list Json) (text : string) : option Json :=
  List.find (λ d, String.eqb (stringify d) text) known.

Definition platform (cwd : string) (known : list Json) : Platform :=
  {| path_normalize := Posix.normalize;
     path_isAbsolute := Posix.isAbsolute;
     path_join := Posix.join;
     path_dirname := Posix.dirname;
     path_relative := Posix.relative cwd;
     process_cwd := cwd;
     os_tmpdir := "/tmp";
     JSON_parse := parse known;
     JSON_stringify := stringify |}.

(** An environment in which nothing fails, [mkdtemp] appends [suffix] and
    [glob] answers from a table. *)
Definition calm (suffix : string)
    (globs : Patterns → option Patterns → option (list string)) : Env :=
  {| mkdtemp_creates := λ prefix, Some (prefix +:+ suffix);
     glob_matches := globs;
     write_succeeds := λ _, true;
     rm_succeeds := λ _, true;
     upload_succeeds := true;
     flush_succeeds := true |}.

Definition empty_world : World :=
  {| files := ∅; dirs := ∅; detached := [] |}.

End Fixture.

(** ** Vocabulary of the statements *)

Fixpoint all_chars (p : ascii → bool) (s : string) : bool :=
  match s with
  | "" => true
  | String c s' => p c && all_chars p s'
  end.

(** [n] hexadecimal digits, of either case. *)
Definition hex_group (n : nat) (g : string) : Prop :=
  String.length g = n ∧ all_chars Re.hex g = true.

(** A uuid: hexadecimal groups of 8, 4, 4, 4 and 12 digits with dashes
    between them. *)
Definition is_uuid (u : string) : Prop :=
  ∃ g1 g2 g3 g4 g5,
    u = g1 +:+ "-" +:+ g2 +:+ "-" +:+ g3 +:+ "-" +:+ g4 +:+ "-" +:+ g5
    ∧ hex_group 8 g1 ∧ hex_group 4 g2 ∧ hex_group 4 g3
    ∧ hex_group 4 g4 ∧ hex_group 12 g5.

(** The text [s] has a marker with uuid [u] right after [pre]. *)
Definition marker_at (s pre u post : string) : Prop :=
  s = pre +:+ "sentry-dbid-" +:+ u +:+ post ∧ is_uuid u.

(** A URI scheme: a letter, then letters, digits, [+], [-] and [.]. *)
Definition is_scheme (scheme : string) : Prop :=
  ∃ c t, scheme = String c t ∧ Re.alpha c = true
         ∧ all_chars Re.scheme_char t = true.

Definition has_scheme_prefix (source : string) : Prop :=
  ∃ scheme rest, is_scheme scheme ∧ source = scheme +:+ "://" +:+ rest.

(** The matcher's context after it has read [t]. *)
Fixpoint eat_all (t : string) (cx : Re.ctx) : Re.ctx :=
  match t with
  | "" => cx
  | String c t' => eat_all t' (Re.eat c cx)
  end.

(** Is there a line feed in the text. *)
Fixpoint has_lf (s : string) : bool :=
  match s with
  | "" => false
  | String c s' => Ascii.eqb c "010" || has_lf s'
  end.

Definition is_work (ev : Event) : bool :=
  match ev with
  | EvReadFile _ | EvAccess _ | EvWriteFile _ _ | EvUpload _ _ _ => true
  | _ => false
  end.

Definition is_warn_log (ev : Event) : bool :=
  match ev with EvLog Warn _ => true | _ => false end.

Definition is_err_log (ev : Event) : bool :=
  match ev with EvLog Err _ => true | _ => false end.

(** [m] obeys [I] and [Q]: from every world it ends in a world related to
    it by [I], and each event it emits satisfies [Q]. *)
Definition obeys {A} (I : relation World) (Q : Event → Prop) (m : M A) : Prop :=
  ∀ w, I w (m w).1.2 ∧ Forall Q (m w).2.

(** A relation between worlds that does not look at the regular files. *)
Class FilesBlind (I : relation World) : Prop :=
  files_blind : ∀ w f,
    I w {| files := f; dirs := dirs w; detached := detached w |}.

(** The directories and the detached removals are the same. *)
Definition same_dirs (w w' : World) : Prop :=
  dirs w' = dirs w ∧ detached w' = detached w.

Definition any_world (w w' : World) : Prop := True.

Definition is_rm_detached (ev : Event) : bool :=
  match ev with EvRmDetached _ => true | _ => false end.

(** Both identifier fields written into the fields of a document. *)
Definition injected (debugId : string) (fs : list (string * Json))
  : list (string * Json) :=
  fields_set "debugId" (JString debugId)
    (fields_set "debug_id" (JString debugId) fs).

(** The patterns the discovery step hands to [glob] (lines 62-70). *)
Definition globAssets_of (opts : DebugIdUploadPluginOptions)
    (buildArtifactPaths : list string) : Patterns :=
  if patterns_truthy (assets opts)
  then default (PatternList []) (assets opts)
  else PatternList buildArtifactPaths.

Definition staging_prefix (P : Platform) : string :=
  path_join P (os_tmpdir P) "sentry-bundler-plugin-upload-".

Definition is_capture (ev : Event) : bool :=
  match ev with EvCaptureException _ => true | _ => false end.

Definition is_upload (ev : Event) : bool :=
  match ev with EvUpload _ _ _ => true | _ => false end.

(** ** A build to run the pipeline on

    Two bundles with their maps next to them.  The first bundle ends with a
    [sourceMappingURL] comment that names another map by an absolute path. *)

Module Example.

Definition id1 : string := "01234567-89ab-CDEF-0123-456789abcdef".
Definition id2 : string := "aaaaaaaa-bbbb-cccc-dddd-eeeeeeeeeeee".

Definition doc1 : Json :=
  JObject [ ("version", JNumber "3");
            ("sources", JArray [JString "https://cdn.example.com/app.js"]) ].
Definition doc2 : Json :=
  JObject [ ("version", JNumber "3");
            ("sources", JArray [JString "/home/u/proj/src/b.ts"]) ].

Definition P1 : Platform := Fixture.platform "/home/u/proj" [doc1; doc2].

Definition bundle1 : string :=
  "console.log(1);//sentry-dbid-" +:+ id1 +:+ LF
  +:+ "//# sourceMappingURL=/abs/app.js.map".
Definition bundle2 : string := "console.log(2);//sentry-dbid-" +:+ id2.

Definition w1 : World :=
  {| files :=
       {[ "/dist/app.js" := bundle1;
          "/dist/app.js.map" := Fixture.stringify doc2;
          "/abs/app.js.map" := Fixture.stringify doc1;
          "/dist/b.js" := bundle2;
          "/dist/b.js.map" := Fixture.stringify doc2 ]};
     dirs := ∅;
     detached := [] |}.

(** A list of paths matches itself; the one pattern matches the maps. *)
Definition globs (patterns : Patterns) (ign : option Patterns)
  : option (list string) :=
  match patterns with
  | PatternList l => Some l
  | Pattern "/dist/*.map" => Some ["/dist/app.js.map"; "/dist/b.js.map"]
  | Pattern _ => Some []
  end.

Definition env1 : Env := Fixture.calm "XXXXXX" globs.

Definition staging : string := "/tmp/sentry-bundler-plugin-upload-XXXXXX".

(** As [env1], but the staged text of the first bundle cannot be
    written. *)
Definition env_write_fails : Env :=
  {| mkdtemp_creates := mkdtemp_creates env1;
     glob_matches := glob_matches env1;
     write_succeeds := λ path,
       negb (String.eqb path (staging +:+ "/" +:+ id1 +:+ "-0.js"));
     rm_succeeds := rm_succeeds env1;
     upload_succeeds := upload_succeeds env1;
     flush_succeeds := flush_succeeds env1 |}.

Definition opts1 : DebugIdUploadPluginOptions :=
  {| assets := None; ignore := None; releaseName := None; dist := None;
     rewriteSourcesHook := None;
     handleRecoverableError := λ _, None;
     deleteFilesAfterUpload := None |}.

(** The include list is empty and the maps are to be deleted. *)
Definition opts_opt_out : DebugIdUploadPluginOptions :=
  {| assets := Some (PatternList []); ignore := None; releaseName := None;
     dist := None; rewriteSourcesHook := None;
     handleRecoverableError := λ _, None;
     deleteFilesAfterUpload := Some (Pattern "/dist/*.map") |}.

End Example.

(** ** Vocabulary of the further properties *)

(** Is there a line terminator somewhere in the text. *)
Fixpoint has_line_terminator (s : string) : bool :=
  Re.line_terminator_at s
  || match s with
     | String _ s' => has_line_terminator s'
     | "" => false
     end.

Definition is_rm (ev : Event) : bool :=
  match ev with EvRm _ => true | _ => false end.

Definition is_write (ev : Event) : bool :=
  match ev with EvWriteFile _ _ => true | _ => false end.

(** [path] is where a unit stages the text or the map of a bundle. *)
Definition staged_path (P : Platform) (folder path : string) : Prop :=
  ∃ debugId chunkIndex,
    is_uuid debugId
    ∧ (path
       = path_join P folder (uniqueUploadName debugId chunkIndex +:+ ".js")
       ∨ path
         = path_join P folder
             (uniqueUploadName debugId chunkIndex +:+ ".js.map")).

(** The files that are no staged path are the same in both worlds. *)
Definition untouched_outside (P : Platform) (folder : string) (w w' : World)
  : Prop :=
  ∀ q, ¬ staged_path P folder q → files w' !! q = files w !! q.

(** The options with another include setting. *)
Definition with_assets (a : option Patterns) (opts : DebugIdUploadPluginOptions)
  : DebugIdUploadPluginOptions :=
  {| assets := a; ignore := ignore opts; releaseName := releaseName opts;
     dist := dist opts; rewriteSourcesHook := rewriteSourcesHook opts;
     handleRecoverableError := handleRecoverableError opts;
     deleteFilesAfterUpload := deleteFilesAfterUpload opts |}.

Definition is_json_string (j : Json) : bool :=
  match j with JString _ => true | _ => false end.

Definition field_names (fs : list (string * Json)) : list string :=
  List.map fst fs.

(** What the unit of bundle [b], with chunk index [i], may emit. *)
Definition unit_event (P : Platform) (b folder : string) (i : nat)
    (ev : Event) : Prop :=
  match ev with
  | EvLog _ _ => True
  | EvReadFile path => path = b ∨ path = b +:+ ".map"
  | EvAccess path => path = b +:+ ".map"
  | EvWriteFile path _ =>
      ∃ debugId,
        is_uuid debugId
        ∧ (path = path_join P folder (uniqueUploadName debugId i +:+ ".js")
           ∨ path
             = path_join P folder (uniqueUploadName debugId i +:+ ".js.map"))
  | _ => False
  end.

(** [p] is a script file the discovery [glob] found. *)
Definition candidate (env : Env) (opts : DebugIdUploadPluginOptions)
    (buildArtifactPaths : list string) (p : string) : Prop :=
  ∃ found,
    glob_matches env (globAssets_of opts buildArtifactPaths) (ignore opts)
    = Some found
    ∧ p ∈ found ∧ is_script p = true.

(** What discovery and preparation may emit. *)
Definition stage_event (P : Platform) (env : Env)
    (opts : DebugIdUploadPluginOptions) (buildArtifactPaths : list string)
    (folder : string) (ev : Event) : Prop :=
  match ev with
  | EvLog _ _ => True
  | EvGlob patterns ign =>
      patterns = globAssets_of opts buildArtifactPaths ∧ ign = ignore opts
  | EvReadFile path =>
      ∃ p, candidate env opts buildArtifactPaths p
           ∧ (path = p ∨ path = p +:+ ".map")
  | EvAccess path =>
      ∃ p, candidate env opts buildArtifactPaths p ∧ path = p +:+ ".map"
  | EvWriteFile path _ => staged_path P folder path
  | _ => False
  end.

(** The one call of the uploader a run can make. *)
Definition upload_event (opts : DebugIdUploadPluginOptions) (folder : string)
  : Event :=
  EvUpload (default "undefined" (releaseName opts)) [folder] (dist opts).

(** A map whose [sources] has a [null] entry. *)
Module NullSource.

Definition doc : Json :=
  JObject [ ("version", JNumber "3");
            ("sources", JArray [JString "src/a.ts"; JNull]) ].

Definition P : Platform := Fixture.platform "/home/u/proj" [doc].

Definition w : World :=
  {| files := {[ "/dist/n.js.map" := Fixture.stringify doc ]};
     dirs := ∅; detached := [] |}.

End NullSource.

(** [q] is a file the deletion [glob] found. *)
Definition to_delete (env : Env) (opts : DebugIdUploadPluginOptions)
    (q : string) : Prop :=
  patterns_truthy (deleteFilesAfterUpload opts) = true
  ∧ ∃ l, glob_matches env
           (default (PatternList []) (deleteFilesAfterUpload opts)) None
         = Some l
         ∧ q ∈ l.

(** What a whole run may emit. *)
Definition run_event (P : Platform) (env : Env)
    (opts : DebugIdUploadPluginOptions) (buildArtifactPaths : list string)
    (ev : Event) : Prop :=
  match ev with
  | EvLog _ _ | EvCaptureException _ | EvFlush
  | EvHandleRecoverableError _ => True
  | EvMkdtemp prefix => prefix = staging_prefix P
  | EvGlob patterns ign =>
      (patterns = globAssets_of opts buildArtifactPaths ∧ ign = ignore opts)
      ∨ (patterns_truthy (deleteFilesAfterUpload opts) = true
         ∧ patterns = default (PatternList []) (deleteFilesAfterUpload opts)
         ∧ ign = None)
  | EvReadFile path =>
      ∃ p, candidate env opts buildArtifactPaths p
           ∧ (path = p ∨ path = p +:+ ".map")
  | EvAccess path =>
      ∃ p, candidate env opts buildArtifactPaths p ∧ path = p +:+ ".map"
  | EvWriteFile path _ =>
      ∃ folder,
        mkdtemp_creates env (staging_prefix P) = Some folder
        ∧ staged_path P folder path
  | EvUpload _ _ _ =>
      ∃ folder,
        mkdtemp_creates env (staging_prefix P) = Some folder
        ∧ ev = upload_event opts folder
  | EvRm path => to_delete env opts path
  | EvRmDetached folder =>
      mkdtemp_creates env (staging_prefix P) = Some folder
  end.

(** What the removal of [path] with [force] settles with. *)
Definition rm_outcome (env : Env) (path : string) : Outcome unit :=
  if rm_succeeds env path then Ok () else Throw (ERm path).

(** A platform that joins with a slash, and environments in which one step
    fails. *)
Module Failures.

Definition flat : Platform :=
  {| path_normalize := path_normalize Example.P1;
     path_isAbsolute := path_isAbsolute Example.P1;
     path_join := λ a b, a +:+ "/" +:+ b;
     path_dirname := path_dirname Example.P1;
     path_relative := path_relative Example.P1;
     process_cwd := process_cwd Example.P1;
     os_tmpdir := os_tmpdir Example.P1;
     JSON_parse := JSON_parse Example.P1;
     JSON_stringify := JSON_stringify Example.P1 |}.

Definition env_upload_fails : Env :=
  {| mkdtemp_creates := mkdtemp_creates Example.env1;
     glob_matches := glob_matches Example.env1;
     write_succeeds := write_succeeds Example.env1;
     rm_succeeds := rm_succeeds Example.env1;
     upload_succeeds := false;
     flush_succeeds := flush_succeeds Example.env1 |}.

Definition env_no_tmp : Env :=
  {| mkdtemp_creates := λ _, None;
     glob_matches := glob_matches Example.env1;
     write_succeeds := write_succeeds Example.env1;
     rm_succeeds := rm_succeeds Example.env1;
     upload_succeeds := upload_succeeds Example.env1;
     flush_succeeds := flush_succeeds Example.env1 |}.

(** As [Example.env1], but the first map cannot be removed. *)
Definition env_rm_fails : Env :=
  {| mkdtemp_creates := mkdtemp_creates Example.env1;
     glob_matches := glob_matches Example.env1;
     write_succeeds := write_succeeds Example.env1;
     rm_succeeds := λ path, negb (String.eqb path "/dist/app.js.map");
     upload_succeeds := upload_succeeds Example.env1;
     flush_succeeds := flush_succeeds Example.env1 |}.

(** The maps are to be deleted after the upload. *)
Definition opts_delete : DebugIdUploadPluginOptions :=
  {| assets := None; ignore := None; releaseName := None; dist := None;
     rewriteSourcesHook := None;
     handleRecoverableError := λ _, None;
     deleteFilesAfterUpload := Some (Pattern "/dist/*.map") |}.

End Failures.

(** * Properties *)

Example posix_normalize_ex :
  Posix.normalize "/foo/bar//baz/asdf/quux/.." = "/foo/bar/baz/asdf".
Proof. reflexivity. Qed.
Example posix_join_ex : Posix.join "/foo" "bar/../baz/" = "/foo/baz/".
Proof. reflexivity. Qed.
Example posix_dirname_ex : Posix.dirname "/foo/bar/baz/asdf/quux" = "/foo/bar/baz/asdf".
Proof. reflexivity. Qed.
Example posix_dirname_ex2 : Posix.dirname "/a//b" = "/a/".
Proof. reflexivity. Qed.
Example posix_dirname_ex3 : Posix.dirname "/a" = "/" /\ Posix.dirname "a" = "." /\ Posix.dirname "a/b/" = "a" /\ Posix.dirname "//a" = "//".
Proof. repeat split; reflexivity. Qed.
Example posix_relative_ex :
  Posix.relative "/cwd" "/data/orandea/test/aaa" "/data/orandea/impl/bbb" = "../../impl/bbb".
Proof. reflexivity. Qed.
Example posix_relative_ex2 :
  Posix.relative "/home/u/proj" "/home/u/proj" "src/a.ts" = "src/a.ts" /\
  Posix.relative "/home/u/proj" "/home/u/proj" "/home/u/lib/x.js" = "../lib/x.js" /\
  Posix.relative "/home/u/proj" "/home/u/proj" "../x" = "../x".
Proof. repeat split; reflexivity. Qed.

(** ** Strings *)

Section StringFacts.

Lemma sapp_nil_r (s : string) : s +:+ "" = s.
Proof. induction s as [|c s IH]; simpl; [done|]. by rewrite IH. Qed.

Lemma sapp_assoc (a b c : string) : (a +:+ b) +:+ c = a +:+ b +:+ c.
Proof. induction a as [|x a IH]; simpl; [done|]. by rewrite IH. Qed.

Lemma slength_app (a b : string) :
  String.length (a +:+ b) = String.length a + String.length b.
Proof. induction a as [|x a IH]; simpl; [done|]. by rewrite IH. Qed.

Lemma sapp_inj_length (a a' b b' : string) :
  String.length a = String.length a' →
  a +:+ b = a' +:+ b' → a = a' ∧ b = b'.
Proof.
  revert a'. induction a as [|x a IH]; intros [|x' a'] Hlen Heq;
    simplify_eq/=; [done|].
  destruct (IH a') as [-> ->]; auto.
Qed.

Lemma sapp_inv_r (a a' t : string) : a +:+ t = a' +:+ t → a = a'.
Proof.
  intros Heq. apply (sapp_inj_length a a' t t); [|done].
  apply (f_equal String.length) in Heq. rewrite !slength_app in Heq. lia.
Qed.

Lemma all_chars_app (p : ascii → bool) (a b : string) :
  all_chars p (a +:+ b) = all_chars p a && all_chars p b.
Proof.
  induction a as [|x a IH]; simpl; [done|]. by rewrite IH, andb_assoc.
Qed.

End StringFacts.

(** ** The matcher *)

Section MatcherFacts.

Import Re.

Lemma eat_all_app (a b : string) (cx : ctx) :
  eat_all (a +:+ b) cx = eat_all b (eat_all a cx).
Proof. revert cx. induction a as [|x a IH]; intros cx; [done|]. apply IH. Qed.

Lemma eat_all_cap1 (t : string) (cx : ctx) : cap1 (eat_all t cx) = cap1 cx.
Proof.
  revert cx. induction t as [|x t IH]; intros cx; simpl; [done|].
  by rewrite IH.
Qed.

Lemma eat_all_grp (t : string) (cx : ctx) :
  grp (eat_all t cx) = (λ g, g +:+ t) <$> grp cx.
Proof.
  revert cx. induction t as [|x t IH]; intros cx; simpl.
  - destruct (grp cx); simpl; by rewrite ?sapp_nil_r.
  - rewrite IH. simpl. destruct (grp cx); simpl; [|done].
    by rewrite sapp_assoc.
Qed.

Lemma eat_all_before (p : ascii → bool) (t : string) (cx : ctx) :
  t ≠ "" → all_chars p t = true →
  ∃ c, before (eat_all t cx) = Some c ∧ p c = true.
Proof.
  revert cx. induction t as [|x t IH]; intros cx Hne Hall; [done|].
  simpl in Hall. apply andb_prop in Hall as [Hx Hall]. simpl.
  destruct t as [|y t]; [by exists x|].
  by apply IH.
Qed.

Lemma lit_inv (l : string) cx s cx' s' :
  lit l cx s = Some (cx', s') → s = l +:+ s' ∧ cx' = eat_all l cx.
Proof.
  revert cx s. induction l as [|a l IH]; intros cx s H; simpl in H.
  - by simplify_eq.
  - destruct s as [|c s]; [done|].
    destruct (Ascii.eqb a c) eqn:Hac; [|done].
    apply Ascii.eqb_eq in Hac as ->.
    apply IH in H as [-> ->]. done.
Qed.

Lemma lit_app (l : string) cx s' : lit l cx (l +:+ s') = Some (eat_all l cx, s').
Proof.
  revert cx. induction l as [|a l IH]; intros cx; simpl; [done|].
  by rewrite Ascii.eqb_refl, IH.
Qed.

Lemma rep_inv cls n cx s cx' s' :
  rep cls n cx s = Some (cx', s') →
  ∃ g, s = g +:+ s' ∧ String.length g = n ∧ all_chars cls g = true
       ∧ cx' = eat_all g cx.
Proof.
  revert cx s. induction n as [|n IH]; intros cx s H; simpl in H.
  - simplify_eq. by exists "".
  - destruct s as [|c s]; [done|].
    destruct (cls c) eqn:Hc; [|done].
    apply IH in H as (g & -> & <- & Hall & ->).
    exists (String c g). simpl. by rewrite Hc, Hall.
Qed.

Lemma rep_app cls n (g : string) cx s' :
  String.length g = n → all_chars cls g = true →
  rep cls n cx (g +:+ s') = Some (eat_all g cx, s').
Proof.
  revert cx n. induction g as [|c g IH]; intros cx n <- Hall; [done|].
  simpl in Hall. apply andb_prop in Hall as [Hc Hall].
  simpl. rewrite Hc. by apply IH.
Qed.

(** A star over a class: what it took is made of the class, and the rest
    of the pattern matched what follows. *)
Lemma star_class_inv cls k cx s m :
  star (λ c _, cls c) k cx s = Some m →
  ∃ t s', s = t +:+ s' ∧ all_chars cls t = true ∧ k (eat_all t cx) s' = Some m.
Proof.
  revert cx. induction s as [|c s IH]; intros cx H; simpl in H.
  - by exists "", "".
  - destruct (cls c) eqn:Hc; [|by exists "", (String c s)].
    destruct (star _ k (eat c cx) s) as [m'|] eqn:Hs.
    + simplify_eq. apply IH in Hs as (t & s' & -> & Hall & Hk).
      exists (String c t), s'. simpl. by rewrite Hc, Hall.
    + by exists "", (String c s).
Qed.

(** When the rest of the pattern cannot start on a character of the
    class, the star takes the whole run of the class. *)
Lemma star_class_app cls k cx (t s' : string) :
  (∀ cx c s, cls c = true → k cx (String c s) = None) →
  all_chars cls t = true →
  (∀ c, next_char s' = Some c → cls c = false) →
  star (λ c _, cls c) k cx (t +:+ s') = k (eat_all t cx) s'.
Proof.
  intros Hk. revert cx. induction t as [|c t IH]; intros cx Hall Hnext.
  - destruct s' as [|c s']; [done|].
    simpl. by rewrite (Hnext c).
  - simpl in Hall. apply andb_prop in Hall as [Hc Hall].
    simpl. rewrite Hc, IH; [|done..].
    destruct (k (eat_all t (eat c cx)) s') eqn:Hend; [done|].
    by rewrite Hk.
Qed.

Lemma has_lf_app (a b : string) : has_lf (a +:+ b) = has_lf a || has_lf b.
Proof.
  induction a as [|x a IH]; simpl; [done|]. by rewrite IH, orb_assoc.
Qed.

(** [.*] cannot get past a line feed: when the rest of the pattern
    only matches at the end of the text, nothing matches. *)
Lemma anystar_lf_none k cx (s : string) :
  (∀ cx c s, k cx (String c s) = None) →
  has_lf s = true →
  star (λ c s', negb (line_terminator_at (String c s'))) k cx s = None.
Proof.
  intros Hk. revert cx. induction s as [|c s IH]; intros cx Hlf; [done|].
  simpl in Hlf. cbn [star].
  destruct (Ascii.eqb c "010") eqn:Hc.
  - apply Ascii.eqb_eq in Hc as ->. simpl. by rewrite Hk.
  - simpl in Hlf. rewrite (IH _ Hlf). by destruct (negb _); rewrite Hk.
Qed.

Lemma search_from_eq r b s :
  search_from r b s =
  match exec r (start_ctx b) s with
  | Some (cx, s') => Some {| m_pre := ""; m_cap1 := cap1 cx; m_post := s' |}
  | None =>
      match s with
      | String c s' =>
          match search_from r (Some c) s' with
          | Some m =>
              Some {| m_pre := String c (m_pre m);
                      m_cap1 := m_cap1 m; m_post := m_post m |}
          | None => None
          end
      | "" => None
      end
  end.
Proof. by destruct s. Qed.

(** A match found by the search is a match of the pattern at the end of
    [m_pre]. *)
Lemma search_from_inv r b s m :
  search_from r b s = Some m →
  ∃ b' s0 cx, s = m_pre m +:+ s0
              ∧ exec r (start_ctx b') s0 = Some (cx, m_post m)
              ∧ m_cap1 m = cap1 cx.
Proof.
  revert b m. induction s as [|c s IH]; intros b m; rewrite search_from_eq;
    destruct (exec _ _ _) as [[cx' s']|] eqn:E; try done.
  - intros [= <-]. by exists b, "", cx'.
  - intros [= <-]. by exists b, (String c s), cx'.
  - destruct (search_from _ _ s) as [m'|] eqn:Hs; [|done].
    intros [= <-]. apply IH in Hs as (b' & s0 & cx & -> & Hex & Hcap).
    by exists b', s0, cx.
Qed.

(** The search finds a match whenever the pattern matches somewhere. *)
Lemma search_from_app r b (pre s0 : string) :
  (∀ b', is_Some (exec r (start_ctx b') s0)) →
  is_Some (search_from r b (pre +:+ s0)).
Proof.
  intros Hex. revert b. induction pre as [|c pre IH]; intros b;
    rewrite search_from_eq.
  - simpl. by destruct (Hex b) as [[??] ->].
  - destruct (exec _ _ _) as [[cx' s']|]; [done|].
    simpl. by destruct (IH (Some c)) as [m ->].
Qed.

(** A pattern that starts with [^] only matches at index 0. *)
Lemma search_from_bol r c s : search_from (Bol :: r) (Some c) s = None.
Proof.
  revert c. induction s as [|x s IH]; intros c; [done|].
  rewrite search_from_eq. cbn [exec start_ctx before]. by rewrite IH.
Qed.

Lemma search_bol r s :
  search (Bol :: r) s =
  match exec r (start_ctx None) s with
  | Some (cx, s') => Some {| m_pre := ""; m_cap1 := cap1 cx; m_post := s' |}
  | None => None
  end.
Proof.
  unfold search. rewrite search_from_eq. cbn [exec start_ctx before].
  destruct (exec r _ s) as [[??]|]; [done|].
  destruct s; [done|]. by rewrite search_from_bol.
Qed.

End MatcherFacts.

(** ** Identifier extractor *)

Section Extractor.

Import Re.

Lemma hex_is_word c : hex c = true → word c = true.
Proof. destruct c as [[] [] [] [] [] [] [] []]; vm_compute; done. Qed.

Lemma scheme_char_not_colon c : scheme_char c = true → Ascii.eqb ":" c = false.
Proof. destruct c as [[] [] [] [] [] [] [] []]; vm_compute; done. Qed.

(** [\b] between a hexadecimal digit and a dash always holds. *)
Lemma boundary_after_hex (g : string) cx s :
  g ≠ "" → all_chars hex g = true →
  at_word_boundary (eat_all g cx) (String "-" s) = true.
Proof.
  intros Hne Hall.
  destruct (eat_all_before hex g cx Hne Hall) as (c & Hb & Hc).
  unfold at_word_boundary. rewrite Hb. simpl.
  by rewrite (hex_is_word c Hc).
Qed.

Ltac exec_inv H :=
  repeat match type of H with
  | match lit ?l ?cx ?s with _ => _ end = Some _ =>
      let E := fresh "E" in
      destruct (lit l cx s) as [[??]|] eqn:E; [|discriminate H];
      apply lit_inv in E as [-> ->]
  | match rep ?c ?n ?cx ?s with _ => _ end = Some _ =>
      let E := fresh "E" in
      let g := fresh "g" in
      let Hlen := fresh "Hlen" in
      let Hall := fresh "Hall" in
      destruct (rep c n cx s) as [[??]|] eqn:E; [|discriminate H];
      apply rep_inv in E as (g & -> & Hlen & Hall & ->)
  | (if at_word_boundary ?cx ?s then _ else _) = Some _ =>
      destruct (at_word_boundary cx s); [|discriminate H]
  end.

Lemma exec_debug_id_inv cx s cx' s' :
  exec DEBUG_ID_REGEX cx s = Some (cx', s') →
  ∃ u, is_uuid u ∧ s = "sentry-dbid-" +:+ u +:+ s' ∧ cap1 cx' = Some u.
Proof.
  unfold DEBUG_ID_REGEX. intros H. cbn [exec] in H. exec_inv H.
  injection H as <- <-.
  exists (g +:+ "-" +:+ g0 +:+ "-" +:+ g1 +:+ "-" +:+ g2 +:+ "-" +:+ g3).
  split; [by exists g, g0, g1, g2, g3|]. split.
  - by rewrite !sapp_assoc.
  - cbn [cap1]. repeat (rewrite eat_all_grp; simpl).
    rewrite ?sapp_assoc. simpl. rewrite ?sapp_assoc. simpl. done.
Qed.

Lemma boundary_after_hex' (g : string) cx s :
  g ≠ "" → all_chars hex g = true →
  at_word_boundary (eat_all g cx) ("-" +:+ s) = true.
Proof. apply boundary_after_hex. Qed.

Lemma exec_debug_id_app cx u s' :
  is_uuid u →
  ∃ cx', exec DEBUG_ID_REGEX cx ("sentry-dbid-" +:+ u +:+ s') = Some (cx', s')
         ∧ cap1 cx' = Some u.
Proof.
  intros (g1 & g2 & g3 & g4 & g5 & -> & [L1 A1] & [L2 A2] & [L3 A3]
          & [L4 A4] & [L5 A5]).
  assert (∀ n (g : string), String.length g = S n → g ≠ "") as Hne
    by (by intros n [|??]).
  unfold DEBUG_ID_REGEX. cbn [exec].
  rewrite lit_app. rewrite !sapp_assoc.
  rewrite (rep_app hex 8 g1) by done.
  rewrite boundary_after_hex' by eauto. rewrite lit_app.
  rewrite (rep_app hex 4 g2) by done.
  rewrite boundary_after_hex' by eauto. rewrite lit_app.
  rewrite (rep_app hex 4 g3) by done.
  rewrite boundary_after_hex' by eauto. rewrite lit_app.
  rewrite (rep_app hex 4 g4) by done.
  rewrite boundary_after_hex' by eauto. rewrite lit_app.
  rewrite (rep_app hex 12 g5) by done.
  eexists. split; [reflexivity|].
  cbn [cap1]. repeat (rewrite eat_all_grp; simpl).
  rewrite ?sapp_assoc. simpl. rewrite ?sapp_assoc. simpl. done.
Qed.

Lemma search_debug_id_sound b s m :
  search_from DEBUG_ID_REGEX b s = Some m →
  ∃ u, m_cap1 m = Some u ∧ marker_at s (m_pre m) u (m_post m).
Proof.
  intros (b' & s0 & cx & -> & E & ->)%search_from_inv.
  apply exec_debug_id_inv in E as (u & Hu & -> & Hcap).
  exists u. by repeat split.
Qed.

Lemma search_debug_id_complete b s pre u post :
  marker_at s pre u post → is_Some (search_from DEBUG_ID_REGEX b s).
Proof.
  intros [-> Hu]. apply search_from_app. intros b'.
  by destruct (exec_debug_id_app (start_ctx b') u post Hu) as (cx' & -> & _).
Qed.

(** The extractor returns the uuid of a marker of the text, and finds one
    whenever there is one. *)
Lemma determineDebugId_sound code u :
  determineDebugIdFromBundleSource code = Some u →
  ∃ pre post, marker_at code pre u post.
Proof.
  unfold determineDebugIdFromBundleSource, search.
  destruct (search_from _ _ _) as [m|] eqn:Hs; [|done].
  intros Hcap. apply search_debug_id_sound in Hs as (u' & Hcap' & Hm).
  exists (m_pre m), (m_post m). congruence.
Qed.

Lemma determineDebugId_complete code pre u post :
  marker_at code pre u post →
  is_Some (determineDebugIdFromBundleSource code).
Proof.
  intros Hm. unfold determineDebugIdFromBundleSource, search.
  destruct (search_debug_id_complete None _ _ _ _ Hm) as [m Hs].
  rewrite Hs. apply search_debug_id_sound in Hs as (u' & -> & _). done.
Qed.

Lemma is_uuid_length u : is_uuid u → String.length u = 36.
Proof.
  intros (g1 & g2 & g3 & g4 & g5 & -> & [L1 _] & [L2 _] & [L3 _]
          & [L4 _] & [L5 _]).
  rewrite !slength_app. simpl. lia.
Qed.

Lemma marker_at_same_start s pre u post u' post' :
  marker_at s pre u post → marker_at s pre u' post' → u' = u.
Proof.
  intros [-> Hu] [Heq Hu'].
  apply (inj (String.app pre)) in Heq.
  apply (inj (String.app "sentry-dbid-")) in Heq.
  symmetry in Heq.
  apply sapp_inj_length in Heq as [? _]; [done|].
  by rewrite !is_uuid_length.
Qed.

Lemma determineDebugId_unique code pre u post :
  marker_at code pre u post →
  (∀ pre' u' post', marker_at code pre' u' post' → pre' = pre) →
  determineDebugIdFromBundleSource code = Some u.
Proof.
  intros Hm Huniq.
  destruct (determineDebugId_complete _ _ _ _ Hm) as [u' Hu'].
  rewrite Hu'. f_equal.
  destruct (determineDebugId_sound _ _ Hu') as (pre' & post' & Hm').
  rewrite (Huniq _ _ _ Hm') in Hm'.
  by eapply marker_at_same_start.
Qed.

Lemma determineDebugId_none code :
  (∀ pre u post, ¬ marker_at code pre u post) →
  determineDebugIdFromBundleSource code = None.
Proof.
  intros Hnone.
  destruct (determineDebugIdFromBundleSource code) as [u|] eqn:Hu; [|done].
  destruct (determineDebugId_sound _ _ Hu) as (pre & post & Hm).
  by destruct (Hnone _ _ _ Hm).
Qed.

End Extractor.

(** ** Default rewrite hook *)

Section DefaultHook.

Import Re.
Context (P : Platform).

Lemma protocol_tail_fails cx c s :
  scheme_char c = true → exec [Lit "://"] cx (String c s) = None.
Proof.
  intros Hc. cbn [exec lit]. by rewrite (scheme_char_not_colon c Hc).
Qed.

Lemma protocol_search_app scheme rest :
  is_scheme scheme →
  search PROTOCOL_REGEX (scheme +:+ "://" +:+ rest)
  = Some {| m_pre := ""; m_cap1 := None; m_post := rest |}.
Proof.
  intros (c & t & -> & Hc & Ht).
  unfold PROTOCOL_REGEX. rewrite search_bol. cbn [exec].
  simpl String.append. cbn [rep]. rewrite Hc.
  rewrite (star_class_app scheme_char (exec [Lit "://"])).
  - simpl. by rewrite !eat_all_cap1.
  - intros. by apply protocol_tail_fails.
  - done.
  - by intros ? [= <-].
Qed.

Lemma protocol_search_inv source m :
  search PROTOCOL_REGEX source = Some m →
  m_pre m = "" ∧ ∃ scheme, is_scheme scheme
                           ∧ source = scheme +:+ "://" +:+ m_post m.
Proof.
  unfold PROTOCOL_REGEX. rewrite search_bol. cbn [exec].
  destruct (rep alpha 1 _ source) as [[cx1 s1]|] eqn:E1; [|done].
  apply rep_inv in E1 as (g & -> & Hlen & Hg & ->).
  destruct (star _ _ _ s1) as [[cx2 s2]|] eqn:E2; [|done].
  apply star_class_inv in E2 as (t & s' & -> & Ht & E3).
  cbn [exec] in E3.
  destruct (lit "://" _ s') as [[cx3 s3]|] eqn:E4; [|done].
  apply lit_inv in E4 as [-> ->]. injection E3 as <- <-.
  intros [= <-]. split; [done|].
  destruct g as [|c [|??]]; try done.
  exists (String c t). split.
  - exists c, t. simpl in Hg. by rewrite andb_true_r in Hg.
  - simpl. by rewrite ?sapp_assoc.
Qed.

Lemma defaultRewriteSourcesHook_strips scheme rest :
  is_scheme scheme →
  defaultRewriteSourcesHook P (scheme +:+ "://" +:+ rest) = rest.
Proof.
  intros Hs. unfold defaultRewriteSourcesHook, replace.
  by rewrite (protocol_search_app scheme rest Hs).
Qed.

Lemma defaultRewriteSourcesHook_relative source :
  ¬ has_scheme_prefix source →
  defaultRewriteSourcesHook P source
  = path_relative P (process_cwd P) (path_normalize P source).
Proof.
  intros Hno. unfold defaultRewriteSourcesHook.
  destruct (search PROTOCOL_REGEX source) as [m|] eqn:Hm; [|done].
  apply protocol_search_inv in Hm as (_ & scheme & Hs & Heq).
  destruct Hno. by exists scheme, (m_post m).
Qed.

End DefaultHook.

(** ** Source-map locator: the pattern *)

Section LocatorPattern.

Import Re.

(** The pattern has no [m] flag: [^] and [$] are the ends of the text, and
    [.] does not cross a line feed.  A text with a line feed in it never
    matches. *)
Lemma source_mapping_url_lf (bundleSource : string) :
  has_lf bundleSource = true →
  search SOURCE_MAPPING_URL_REGEX bundleSource = None.
Proof.
  intros Hlf. unfold SOURCE_MAPPING_URL_REGEX. rewrite search_bol.
  cbn [exec].
  destruct (lit _ _ bundleSource) as [[cx1 s1]|] eqn:E1; [|done].
  apply lit_inv in E1 as [-> ->].
  rewrite has_lf_app in Hlf. simpl in Hlf.
  rewrite anystar_lf_none; done.
Qed.

Lemma stamp_has_lf bundleContent debugId :
  has_lf (stamp bundleContent debugId) = true.
Proof.
  unfold stamp. rewrite has_lf_app. simpl. by rewrite orb_true_r.
Qed.

(** On the text the preparer hands to the locator the pattern never
    matches. *)
Lemma source_mapping_url_stamped bundleContent debugId :
  search SOURCE_MAPPING_URL_REGEX (stamp bundleContent debugId) = None.
Proof. apply source_mapping_url_lf, stamp_has_lf. Qed.

End LocatorPattern.

(** ** Asynchronous computations: what they emit and keep *)

Section Obeys.

Context (I : relation World) `{!PreOrder I} (Q : Event → Prop).

Lemma obeys_ret {A} (a : A) : obeys I Q (mret a).
Proof. intros w. split; [reflexivity|constructor]. Qed.

Lemma obeys_throw {A} e : obeys I Q (throw (A:=A) e).
Proof. intros w. split; [reflexivity|constructor]. Qed.

Lemma obeys_lift_outcome {A} (r : Outcome A) : obeys I Q (lift_outcome r).
Proof. intros w. split; [reflexivity|constructor]. Qed.

Lemma obeys_emit ev : Q ev → obeys I Q (emit ev).
Proof. intros HQ w. split; [reflexivity|by repeat constructor]. Qed.

Lemma obeys_bind {A B} (m : M A) (f : A → M B) :
  obeys I Q m → (∀ a, obeys I Q (f a)) → obeys I Q (m ≫= f).
Proof.
  intros Hm Hf w. unfold mbind, M_bind.
  destruct (Hm w) as [HI HQ].
  destruct (m w) as [[[a|e] w1] ev1]; simpl in *; [|done].
  destruct (Hf a w1) as [HI' HQ'].
  destruct (f a w1) as [[r w2] ev2]; simpl in *.
  split; [by etrans|by apply Forall_app].
Qed.

Lemma obeys_attempt {A} (m : M A) : obeys I Q m → obeys I Q (attempt m).
Proof.
  intros Hm w. unfold attempt. destruct (Hm w) as [HI HQ].
  by destruct (m w) as [[r w1] ev1].
Qed.

Lemma obeys_all_settled {A} (ms : list (M A)) :
  Forall (obeys I Q) ms → obeys I Q (all_settled ms).
Proof.
  induction 1 as [|m ms Hm _ IH]; simpl.
  - apply obeys_ret.
  - apply obeys_bind; [by apply obeys_attempt|intros r].
    apply obeys_bind; [done|intros rs]. apply obeys_ret.
Qed.

Lemma obeys_Promise_all {A} (ms : list (M A)) :
  Forall (obeys I Q) ms → obeys I Q (Promise_all ms).
Proof.
  intros Hms. apply obeys_bind; [by apply obeys_all_settled|intros rs].
  apply obeys_lift_outcome.
Qed.

Lemma obeys_forEach {A} (f : A → M unit) (l : list A) :
  (∀ x, obeys I Q (f x)) → obeys I Q (forEach f l).
Proof.
  intros Hf. induction l as [|x l IH]; simpl; [apply obeys_ret|].
  apply obeys_bind; [done|by intros _].
Qed.

Lemma obeys_try_catch_finally {A} (body : M A) handler final :
  obeys I Q body → (∀ e, obeys I Q (handler e)) → obeys I Q final →
  obeys I Q (try_catch_finally body handler final).
Proof.
  intros Hb Hh Hf w. unfold try_catch_finally.
  destruct (Hb w) as [HI1 HQ1].
  destruct (body w) as [[r1 w1] ev1]; simpl in *.
  assert (∃ r2 w2 ev2,
    match r1 with
    | Ok a => (Ok a, w1, [])
    | Throw e => handler e w1
    end = (r2, w2, ev2) ∧ I w1 w2 ∧ Forall Q ev2) as (r2 & w2 & ev2 & -> & HI2 & HQ2).
  { destruct r1 as [a|e].
    - eexists _, _, _. split; [done|]. split; [reflexivity|constructor].
    - destruct (Hh e w1) as [HI2 HQ2].
      destruct (handler e w1) as [[r2 w2] ev2]. by eexists _, _, _. }
  destruct (Hf w2) as [HI3 HQ3].
  destruct (final w2) as [[[[]|e3] w3] ev3]; simpl in *;
    (split; [by repeat (etrans; [eassumption|])|by rewrite !Forall_app]).
Qed.

Context (P : Platform) (env : Env).

Lemma obeys_logger lvl msg : Q (EvLog lvl msg) → obeys I Q (logger lvl msg).
Proof. apply obeys_emit. Qed.

Lemma obeys_readFile path : Q (EvReadFile path) → obeys I Q (fs_readFile path).
Proof.
  intros HQ w. unfold fs_readFile.
  destruct (files w !! path); (split; [reflexivity|by repeat constructor]).
Qed.

Lemma obeys_access path : Q (EvAccess path) → obeys I Q (fs_access path).
Proof.
  intros HQ w. unfold fs_access.
  destruct (_ || _); (split; [reflexivity|by repeat constructor]).
Qed.

Lemma obeys_writeFile `{!FilesBlind I} path content :
  Q (EvWriteFile path content) → obeys I Q (fs_writeFile env path content).
Proof.
  intros HQ w. unfold fs_writeFile.
  destruct (write_succeeds env path); simpl;
    (split; [done || reflexivity|by repeat constructor]).
Qed.

Lemma obeys_rm_force `{!FilesBlind I} path :
  Q (EvRm path) → obeys I Q (fs_rm_force env path).
Proof.
  intros HQ w. unfold fs_rm_force.
  destruct (rm_succeeds env path); simpl;
    (split; [done || reflexivity|by repeat constructor]).
Qed.

Lemma obeys_glob patterns ign :
  Q (EvGlob patterns ign) → obeys I Q (glob env patterns ign).
Proof.
  intros HQ w. unfold glob.
  destruct (glob_matches env patterns ign);
    (split; [reflexivity|by repeat constructor]).
Qed.

Lemma obeys_uploadSourceMaps release paths d :
  Q (EvUpload release paths d) →
  obeys I Q (uploadSourceMaps env release paths d).
Proof.
  intros HQ w. unfold uploadSourceMaps.
  destruct (upload_succeeds env);
    (split; [reflexivity|by repeat constructor]).
Qed.

Lemma obeys_flush : Q EvFlush → obeys I Q (sentryClient_flush env).
Proof.
  intros HQ w. unfold sentryClient_flush.
  destruct (flush_succeeds env);
    (split; [reflexivity|by repeat constructor]).
Qed.

Lemma obeys_handleRecoverableError opts e :
  Q (EvHandleRecoverableError e) →
  obeys I Q (call_handleRecoverableError opts e).
Proof.
  intros HQ w. unfold call_handleRecoverableError.
  destruct (handleRecoverableError opts e);
    (split; [reflexivity|by repeat constructor]).
Qed.

End Obeys.

Global Instance any_world_preorder : PreOrder any_world.
Proof. by split. Qed.
Global Instance any_world_blind : FilesBlind any_world.
Proof. by intros ??. Qed.
Global Instance same_dirs_preorder : PreOrder same_dirs.
Proof.
  split; [by intros ?|].
  intros w1 w2 w3 [? ?] [? ?]. split; congruence.
Qed.
Global Instance same_dirs_blind : FilesBlind same_dirs.
Proof. by intros ??. Qed.

(** [use L] applies a lemma on [obeys] and settles what it asks of the
    relation between worlds. *)
Ltac use L :=
  apply L;
  try lazymatch goal with
      | |- PreOrder _ => apply _
      | |- FilesBlind _ => apply _
      end.

(** One step of a proof that a computation obeys: the combinators by their
    lemmas, a [match] by cases. *)
Ltac obeys_step :=
  lazymatch goal with
  | |- obeys _ _ (@mbind _ _ _ _ _ _) => use @obeys_bind; [|intros ?]
  | |- obeys _ _ (@mret _ _ _ _) => use @obeys_ret
  | |- obeys _ _ (throw _) => use @obeys_throw
  | |- obeys _ _ (lift_outcome _) => use @obeys_lift_outcome
  | |- obeys _ _ (attempt _) => use @obeys_attempt
  | |- obeys _ _ (logger _ _) => use obeys_logger
  | |- obeys _ _ (fs_readFile _) => use obeys_readFile
  | |- obeys _ _ (fs_access _) => use obeys_access
  | |- obeys _ _ (fs_writeFile _ _ _) => use obeys_writeFile
  | |- obeys _ _ (fs_rm_force _ _) => use obeys_rm_force
  | |- obeys _ _ (glob _ _ _) => use obeys_glob
  | |- obeys _ _ (uploadSourceMaps _ _ _ _) => use obeys_uploadSourceMaps
  | |- obeys _ _ (sentryClient_flush _) => use obeys_flush
  | |- obeys _ _ (call_handleRecoverableError _ _) =>
      use obeys_handleRecoverableError
  | |- obeys _ _ (match ?x with _ => _ end) => destruct x
  end.

(** ** What each function of the pipeline emits *)

Section PipelineObeys.

Context (I : relation World) `{!PreOrder I, !FilesBlind I} (Q : Event → Prop).
Context (P : Platform) (env : Env).

Lemma prepareSourceMap_obeys sourceMapPath targetPath debugId hook :
  Q (EvReadFile sourceMapPath) →
  (∀ msg, Q (EvLog Err msg)) →
  (∀ text, Q (EvWriteFile targetPath text)) →
  obeys I Q (prepareSourceMapForDebugIdUpload P env sourceMapPath targetPath
               debugId hook).
Proof.
  intros Hread Hlog Hwrite. unfold prepareSourceMapForDebugIdUpload.
  repeat obeys_step; auto.
Qed.

Lemma determineSourceMapPath_obeys bundlePath bundleSource :
  Q (EvAccess (bundlePath +:+ ".map")) →
  (∀ msg, Q (EvLog Debug msg)) →
  obeys I Q (determineSourceMapPathFromBundle P bundlePath bundleSource).
Proof.
  intros Haccess Hlog. unfold determineSourceMapPathFromBundle.
  repeat obeys_step; auto.
Qed.

(** The map pipeline of one bundle (lines 184-198). *)
Lemma map_pipeline_obeys bundleFilePath bundleContent targetPath debugId hook :
  (∀ path, Q (EvReadFile path)) →
  (∀ path, Q (EvAccess path)) →
  (∀ lvl msg, Q (EvLog lvl msg)) →
  (∀ text, Q (EvWriteFile targetPath text)) →
  obeys I Q
    (sourceMapPath ←
       determineSourceMapPathFromBundle P bundleFilePath bundleContent;
     match sourceMapPath with
     | Some sourceMapPath =>
         if truthy sourceMapPath then
           prepareSourceMapForDebugIdUpload P env sourceMapPath targetPath
             debugId hook
         else mret ()
     | None => mret ()
     end).
Proof.
  intros Hread Haccess Hlog Hwrite.
  use @obeys_bind; [by apply determineSourceMapPath_obeys|intros [p|]].
  - destruct (truthy p); [|by use @obeys_ret].
    by apply prepareSourceMap_obeys.
  - by use @obeys_ret.
Qed.

Lemma prepareBundle_obeys bundleFilePath uploadFolder chunkIndex hook :
  (∀ path, Q (EvReadFile path)) →
  (∀ path, Q (EvAccess path)) →
  (∀ lvl msg, Q (EvLog lvl msg)) →
  (∀ debugId text,
     Q (EvWriteFile
          (path_join P uploadFolder
             (uniqueUploadName debugId chunkIndex +:+ ".js")) text)) →
  (∀ debugId text,
     Q (EvWriteFile
          (path_join P uploadFolder
             (uniqueUploadName debugId chunkIndex +:+ ".js.map")) text)) →
  obeys I Q (prepareBundleForDebugIdUpload P env bundleFilePath uploadFolder
               chunkIndex hook).
Proof.
  intros Hread Haccess Hlog Hjs Hmap. unfold prepareBundleForDebugIdUpload.
  use @obeys_bind; [by use @obeys_attempt; use obeys_readFile|].
  intros [bundleContent|?]; [|by use obeys_logger].
  destruct (determineDebugIdFromBundleSource bundleContent) as [debugId|];
    [|by use obeys_logger].
  cbv zeta. use @obeys_bind; [|intros; by use @obeys_ret].
  use @obeys_Promise_all.
  constructor; [by use obeys_writeFile|].
  constructor; [by apply map_pipeline_obeys|constructor].
Qed.

Lemma stage_and_upload_obeys opts buildArtifactPaths tmpUploadFolder :
  (∀ ev, is_rm_detached ev = false → Q ev) →
  obeys I Q (stage_and_upload P env opts buildArtifactPaths tmpUploadFolder).
Proof.
  intros HQ. unfold stage_and_upload.
  use @obeys_bind.
  { destruct (patterns_truthy (assets opts)); repeat obeys_step; auto. }
  intros globAssets.
  use @obeys_bind; [by use obeys_glob; apply HQ|intros found].
  assert (obeys I Q
    (_ ← Promise_all
           (imap (λ chunkIndex chunkFilePath,
                    prepareBundleForDebugIdUpload P env chunkFilePath
                      tmpUploadFolder chunkIndex
                      (default (defaultHook P) (rewriteSourcesHook opts)))
                 (filter (λ p, is_script p = true) found));
     uploadSourceMaps env (default "undefined" (releaseName opts))
       [tmpUploadFolder] (dist opts))) as Hwork.
  { use @obeys_bind; [|intros; by use obeys_uploadSourceMaps; apply HQ].
    use @obeys_Promise_all. apply list.Forall_forall. intros m Hm.
    apply elem_of_lookup_imap in Hm as (i & p & -> & _).
    apply prepareBundle_obeys; intros; by apply HQ. }
  destruct (assets opts) as [[?|[|??]]|];
    destruct (filter _ found); try done; by use obeys_logger; apply HQ.
Qed.

Lemma delete_files_obeys opts :
  (∀ patterns ign, Q (EvGlob patterns ign)) →
  (∀ msg, Q (EvLog Debug msg)) →
  (∀ path, Q (EvRm path)) →
  obeys I Q (delete_files_after_upload env opts).
Proof.
  intros Hglob Hlog Hrm. unfold delete_files_after_upload.
  destruct (patterns_truthy _); [|by use @obeys_ret].
  use @obeys_bind; [by use obeys_glob|intros l].
  use @obeys_bind.
  { use @obeys_forEach. intros p. by use obeys_logger. }
  intros _. use @obeys_bind; [|intros; by use @obeys_ret].
  use @obeys_Promise_all. apply list.Forall_forall. intros m Hm.
  apply list_elem_of_fmap in Hm as (p & -> & _).
  by use obeys_rm_force.
Qed.

Lemma on_error_obeys opts e :
  (∀ msg, Q (EvCaptureException msg)) →
  Q EvFlush →
  (∀ e', Q (EvHandleRecoverableError e')) →
  obeys I Q (on_error env opts e).
Proof.
  intros Hcapture Hflush Hhandle. unfold on_error, sentryHub_captureException.
  use @obeys_bind; [by use @obeys_emit|intros _].
  use @obeys_bind; [by use obeys_flush|intros _].
  by use obeys_handleRecoverableError.
Qed.

End PipelineObeys.

(** ** Documents *)

Section Documents.

Lemma fields_get_set_eq k v fs : fields_get k (fields_set k v fs) = Some v.
Proof.
  induction fs as [|[k' v'] fs IH]; simpl.
  - by rewrite String.eqb_refl.
  - destruct (String.eqb k k') eqn:Hk; simpl; rewrite ?String.eqb_refl; [done|].
    by rewrite Hk.
Qed.

Lemma fields_get_set_ne k k' v fs :
  k ≠ k' → fields_get k' (fields_set k v fs) = fields_get k' fs.
Proof.
  intros Hne.
  assert (String.eqb k' k = false) as Hne'
    by (apply String.eqb_neq; congruence).
  induction fs as [|[k0 v0] fs IH]; simpl.
  - by rewrite Hne'.
  - destruct (String.eqb k k0) eqn:Hk; simpl.
    + apply String.eqb_eq in Hk as <-. by rewrite Hne'.
    + by rewrite IH.
Qed.

Lemma injected_debug_id debugId fs :
  fields_get "debug_id" (injected debugId fs) = Some (JString debugId).
Proof.
  unfold injected. rewrite fields_get_set_ne by done.
  apply fields_get_set_eq.
Qed.

Lemma injected_debugId debugId fs :
  fields_get "debugId" (injected debugId fs) = Some (JString debugId).
Proof. apply fields_get_set_eq. Qed.

(** The other fields of the document are as they were read. *)
Lemma injected_other k debugId fs :
  k ≠ "debug_id" → k ≠ "debugId" →
  fields_get k (injected debugId fs) = fields_get k fs.
Proof.
  intros H1 H2. unfold injected. by rewrite !fields_get_set_ne.
Qed.

Lemma parse_and_inject_object P content debugId fs :
  JSON_parse P content = Some (JObject fs) →
  parse_and_inject P content debugId = Ok (JObject (injected debugId fs)).
Proof. intros H. unfold parse_and_inject. by rewrite H. Qed.

End Documents.

(** ** Source-map transformer *)

Section Transformer.

Context (P : Platform) (env : Env).

(** The transformer on a map that is read and parsed into an object: the
    hook is called on the entries of [sources] and what it returns is
    dropped; the document written is the one parsed with the two
    identifier fields. *)
Lemma prepareSourceMap_run sourceMapPath targetPath debugId hook w content fs :
  files w !! sourceMapPath = Some content →
  JSON_parse P content = Some (JObject fs) →
  let map := JObject (injected debugId fs) in
  prepareSourceMapForDebugIdUpload P env sourceMapPath targetPath debugId
    hook w
  = match (match fields_get "sources" fs with
           | Some (JArray sources) =>
               match array_map hook map sources with
               | Ok _ => None
               | Throw e => Some e
               end
           | _ => None
           end) with
    | Some e => (Throw e, w, [EvReadFile sourceMapPath])
    | None =>
        if write_succeeds env targetPath then
          (Ok (),
           {| files := <[targetPath := JSON_stringify P map]> (files w);
              dirs := dirs w; detached := detached w |},
           [EvReadFile sourceMapPath;
            EvWriteFile targetPath (JSON_stringify P map)])
        else
          (Ok (), w,
           [EvReadFile sourceMapPath;
            EvWriteFile targetPath (JSON_stringify P map);
            EvLog Err ("Failed to prepare source map for debug ID upload: "
                       +:+ sourceMapPath)])
    end.
Proof.
  intros Hfile Hparse map.
  unfold prepareSourceMapForDebugIdUpload.
  unfold mbind, M_bind, attempt, fs_readFile. rewrite Hfile.
  rewrite (parse_and_inject_object P content debugId fs Hparse).
  fold map. unfold get_prop, map. rewrite injected_other by done.
  fold map.
  destruct (fields_get "sources" fs) as [[| | | |sources|]|]; simpl;
    try (unfold fs_writeFile; destruct (write_succeeds env targetPath); done).
  unfold lift_outcome.
  destruct (array_map hook map sources); simpl; [|done].
  unfold fs_writeFile; destruct (write_succeeds env targetPath); done.
Qed.

End Transformer.

Section TransformerClaims.

Context (P : Platform) (env : Env).

(** Whatever the hook returns, the [sources] written are the [sources]
    read: the result of the [map] call on line 290 is not stored. *)
Lemma sources_written_as_read sourceMapPath targetPath debugId hook w
    content fs l :
  files w !! sourceMapPath = Some content →
  JSON_parse P content = Some (JObject fs) →
  fields_get "sources" fs = Some (JArray l) →
  (∃ rewritten, array_map hook (JObject (injected debugId fs)) l = Ok rewritten) →
  write_succeeds env targetPath = true →
  ∃ doc,
    files (prepareSourceMapForDebugIdUpload P env sourceMapPath targetPath
             debugId hook w).1.2 !! targetPath
    = Some (JSON_stringify P doc)
    ∧ get_prop "sources" doc = Some (JArray l).
Proof.
  intros Hfile Hparse Hsources [rewritten Hhook] Hwrite.
  rewrite (prepareSourceMap_run P env _ _ _ _ _ _ _ Hfile Hparse).
  rewrite Hsources, Hhook, Hwrite. simpl.
  exists (JObject (injected debugId fs)). split.
  - by rewrite lookup_insert_eq.
  - simpl. by rewrite injected_other.
Qed.

(** A text that parses to something else than an object: [null] and the
primitives end in the parse branch and nothing is written; an array
takes the two assignments as properties that are not elements and is
written as it was read. *)
Lemma prepareSourceMap_not_an_object sourceMapPath targetPath debugId hook w
    content doc :
  files w !! sourceMapPath = Some content →
  JSON_parse P content = Some doc →
  match doc with
  | JObject _ => True
  | JArray items =>
      write_succeeds env targetPath = true →
      files (prepareSourceMapForDebugIdUpload P env sourceMapPath targetPath
               debugId hook w).1.2 !! targetPath
      = Some (JSON_stringify P (JArray items))
  | _ =>
      prepareSourceMapForDebugIdUpload P env sourceMapPath targetPath debugId
        hook w
      = (Ok (), w,
         [ EvReadFile sourceMapPath;
           EvLog Err ("Failed to parse source map for debug ID upload: "
                      +:+ sourceMapPath) ])
  end.
Proof.
  intros Hfile Hparse.
  unfold prepareSourceMapForDebugIdUpload, parse_and_inject.
  unfold mbind, M_bind, attempt, fs_readFile. rewrite Hfile, Hparse.
  destruct doc; simpl; try done.
  intros Hwrite. unfold fs_writeFile. rewrite Hwrite. simpl.
  by rewrite lookup_insert_eq.
Qed.

End TransformerClaims.

(** C7.  A map that is read and parsed into a document (a key/value
    structure) is only ever written to the destination with both
    [debug_id] and [debugId] set to the identifier; when the hook does not
    throw and the write goes through, that document is the content of the
    destination. *)
Theorem C7_both_identifier_fields (P : Platform) (env : Env)
    (sourceMapPath targetPath debugId : string) (hook : RewriteSourcesHook)
    (w : World) (content : string) (fs : list (string * Json)) :
  files w !! sourceMapPath = Some content →
  JSON_parse P content = Some (JObject fs) →
  let out :=
    prepareSourceMapForDebugIdUpload P env sourceMapPath targetPath debugId
      hook w in
  ∃ doc,
    get_prop "debug_id" doc = Some (JString debugId)
    ∧ get_prop "debugId" doc = Some (JString debugId)
    ∧ (∀ path text, EvWriteFile path text ∈ out.2 →
         path = targetPath ∧ text = JSON_stringify P doc)
    ∧ ((∀ sources, fields_get "sources" fs = Some (JArray sources) →
          ∃ rewritten, array_map hook doc sources = Ok rewritten) →
       write_succeeds env targetPath = true →
       out.1.1 = Ok ()
       ∧ files out.1.2 !! targetPath = Some (JSON_stringify P doc)
       ∧ EvWriteFile targetPath (JSON_stringify P doc) ∈ out.2).
Proof.
  intros Hfile Hparse out. exists (JObject (injected debugId fs)).
  split; [apply injected_debug_id|]. split; [apply injected_debugId|].
  subst out. rewrite (prepareSourceMap_run P env _ _ _ _ _ _ _ Hfile Hparse).
  split.
  - intros path text.
    destruct (fields_get "sources" fs) as [[| | | |sources|]|];
      try destruct (array_map _ _ sources);
      destruct (write_succeeds env targetPath); simpl;
      rewrite ?elem_of_cons, ?elem_of_nil;
      intros Hin; decompose [or] Hin; by simplify_eq.
  - intros Hhook Hwrite. rewrite Hwrite.
    destruct (fields_get "sources" fs) as [[| | | |sources|]|]; simpl;
      try (rewrite lookup_insert_eq; split_and!; [done..|set_solver]).
    destruct (Hhook sources eq_refl) as [rewritten ->]. simpl.
    rewrite lookup_insert_eq. split_and!; [done..|set_solver].
Qed.

Lemma C7_witness :
  let out :=
    prepareSourceMapForDebugIdUpload Example.P1 Example.env1 "/dist/b.js.map"
      "/stage/b.js.map" Example.id2 (defaultHook Example.P1) Example.w1 in
  ∃ doc,
    get_prop "debug_id" doc = Some (JString Example.id2)
    ∧ get_prop "debugId" doc = Some (JString Example.id2)
    ∧ (∀ path text, EvWriteFile path text ∈ out.2 →
         path = "/stage/b.js.map" ∧ text = JSON_stringify Example.P1 doc)
    ∧ ((∀ sources,
          fields_get "sources"
            [("version", JNumber "3");
             ("sources", JArray [JString "/home/u/proj/src/b.ts"])]
          = Some (JArray sources) →
          ∃ rewritten,
            array_map (defaultHook Example.P1) doc sources = Ok rewritten) →
       write_succeeds Example.env1 "/stage/b.js.map" = true →
       out.1.1 = Ok ()
       ∧ files out.1.2 !! "/stage/b.js.map"
         = Some (JSON_stringify Example.P1 doc)
       ∧ EvWriteFile "/stage/b.js.map" (JSON_stringify Example.P1 doc) ∈ out.2).
Proof.
  apply (C7_both_identifier_fields Example.P1 Example.env1 "/dist/b.js.map"
           "/stage/b.js.map" Example.id2 (defaultHook Example.P1) Example.w1
           (Fixture.stringify Example.doc2)).
  - vm_compute. reflexivity.
  - vm_compute. reflexivity.
Defined.

(** C1.  The example map lists one source, a URL.  The default hook turns
    the entry into [cdn.example.com/app.js]; the map written to the
    destination lists the entry as it was read. *)
Theorem C1_sources_written_unrewritten :
  let target := Example.staging +:+ "/" +:+ Example.id1 +:+ "-0.js.map" in
  let map := JObject (injected Example.id1
                        [("version", JNumber "3");
                         ("sources",
                          JArray [JString "https://cdn.example.com/app.js"])]) in
  let out :=
    prepareSourceMapForDebugIdUpload Example.P1 Example.env1 "/abs/app.js.map"
      target Example.id1 (defaultHook Example.P1) Example.w1 in
  JSON_parse Example.P1 (Fixture.stringify Example.doc1) = Some Example.doc1
  ∧ defaultHook Example.P1 (JString "https://cdn.example.com/app.js") map
    = Ok "cdn.example.com/app.js"
  ∧ out.1.1 = Ok ()
  ∧ files out.1.2 !! target = Some (JSON_stringify Example.P1 map)
  ∧ get_prop "sources" map
    = Some (JArray [JString "https://cdn.example.com/app.js"]).
Proof. vm_compute. repeat split; reflexivity. Qed.

(** ** Bundle preparer *)

Section Preparer.

Context (P : Platform) (env : Env).

(** A bundle without identifier: the unit reads it, logs at debug level
    and is done. *)
Lemma prepareBundle_no_id bundleFilePath uploadFolder chunkIndex hook w code :
  files w !! bundleFilePath = Some code →
  determineDebugIdFromBundleSource code = None →
  ∃ msg,
    prepareBundleForDebugIdUpload P env bundleFilePath uploadFolder
      chunkIndex hook w
    = (Ok (), w, [EvReadFile bundleFilePath; EvLog Debug msg]).
Proof.
  intros Hfile Hnone. unfold prepareBundleForDebugIdUpload.
  unfold mbind, M_bind, attempt, fs_readFile. rewrite Hfile, Hnone.
  by eexists.
Qed.

(** A bundle with an identifier: the staged text is written, the map
    pipeline runs, and the unit settles as the two of them do. *)
Lemma prepareBundle_run bundleFilePath uploadFolder chunkIndex hook w
    code debugId :
  files w !! bundleFilePath = Some code →
  determineDebugIdFromBundleSource code = Some debugId →
  let name := uniqueUploadName debugId chunkIndex in
  prepareBundleForDebugIdUpload P env bundleFilePath uploadFolder chunkIndex
    hook w
  = match
      Promise_all
        [ fs_writeFile env (path_join P uploadFolder (name +:+ ".js"))
            (stamp code debugId);
          (sourceMapPath ←
             determineSourceMapPathFromBundle P bundleFilePath
               (stamp code debugId);
           match sourceMapPath with
           | Some sourceMapPath =>
               if truthy sourceMapPath then
                 prepareSourceMapForDebugIdUpload P env sourceMapPath
                   (path_join P uploadFolder (name +:+ ".js.map"))
                   debugId hook
               else mret ()
           | None => mret ()
           end) ] w
    with
    | (Ok _, w', evs) => (Ok (), w', EvReadFile bundleFilePath :: evs)
    | (Throw e, w', evs) => (Throw e, w', EvReadFile bundleFilePath :: evs)
    end.
Proof.
  intros Hfile Hid name. unfold prepareBundleForDebugIdUpload.
  unfold mbind at 1. unfold M_bind at 1. unfold attempt, fs_readFile.
  rewrite Hfile, Hid. cbv zeta. fold name.
  unfold mbind at 1. unfold M_bind at 1.
  destruct (Promise_all _ w) as [[[?|?] w'] evs]; simpl; [|done].
  by rewrite app_nil_r.
Qed.

(** Two tasks joined: both run, the second in the world the first
    left. *)
Lemma Promise_all_pair {A} (m1 m2 : M A) w :
  Promise_all [m1; m2] w
  = match m1 w with
    | (r1, w1, ev1) =>
        match m2 w1 with
        | (r2, w2, ev2) => (join_outcomes [r1; r2], w2, ev1 ++ ev2)
        end
    end.
Proof.
  unfold Promise_all, all_settled, mbind, M_bind, attempt, mret, M_ret,
    lift_outcome.
  destruct (m1 w) as [[r1 w1] ev1]. destruct (m2 w1) as [[r2 w2] ev2].
  by rewrite !app_nil_r.
Qed.

End Preparer.

(** C5.  When the text has a marker with a well-formed uuid at one place
    only, the extractor returns that uuid, character for character.  When
    it has no marker with a well-formed uuid, the extractor finds nothing,
    and the unit of such a bundle reads it, logs at debug level and stages
    nothing: the world is as it was. *)
Theorem C5_identifier_extraction (P : Platform) (env : Env) (code : string) :
  (∀ pre u post,
     marker_at code pre u post →
     (∀ pre' u' post', marker_at code pre' u' post' → pre' = pre) →
     determineDebugIdFromBundleSource code = Some u)
  ∧ ((∀ pre u post, ¬ marker_at code pre u post) →
     determineDebugIdFromBundleSource code = None
     ∧ ∀ bundleFilePath uploadFolder chunkIndex hook w,
         files w !! bundleFilePath = Some code →
         ∃ msg,
           prepareBundleForDebugIdUpload P env bundleFilePath uploadFolder
             chunkIndex hook w
           = (Ok (), w, [EvReadFile bundleFilePath; EvLog Debug msg])).
Proof.
  split.
  - intros pre u post Hm Huniq. by eapply determineDebugId_unique.
  - intros Hnone. pose proof (determineDebugId_none code Hnone) as Hid.
    split; [done|]. intros. by eapply prepareBundle_no_id.
Qed.

Lemma C5_witness :
  determineDebugIdFromBundleSource ("sentry-dbid-" +:+ Example.id1)
  = Some Example.id1
  ∧ determineDebugIdFromBundleSource "console.log(1);" = None
  ∧ ∀ bundleFilePath uploadFolder chunkIndex hook w,
      files w !! bundleFilePath = Some "console.log(1);" →
      ∃ msg,
        prepareBundleForDebugIdUpload Example.P1 Example.env1 bundleFilePath
          uploadFolder chunkIndex hook w
        = (Ok (), w, [EvReadFile bundleFilePath; EvLog Debug msg]).
Proof.
  split.
  - apply (proj1 (C5_identifier_extraction Example.P1 Example.env1
                    ("sentry-dbid-" +:+ Example.id1)) "" Example.id1 "").
    + split; [reflexivity|].
      exists "01234567", "89ab", "CDEF", "0123", "456789abcdef".
      repeat split; reflexivity.
    + intros pre' u' post' [Heq Hu'].
      apply (f_equal String.length) in Heq.
      rewrite !slength_app, (is_uuid_length u' Hu') in Heq. simpl in Heq.
      destruct pre'; [reflexivity|simpl in Heq; lia].
  - apply (proj2 (C5_identifier_extraction Example.P1 Example.env1
                    "console.log(1);")).
    intros pre u post [Heq Hu].
    apply (f_equal String.length) in Heq.
    rewrite !slength_app, (is_uuid_length u Hu) in Heq. simpl in Heq. lia.
Defined.

(** C8.  On a string that starts with a URI scheme and [://] the default
    hook returns what follows them; on any other string it returns
    [path.relative(process.cwd(), path.normalize(source))]. *)
Theorem C8_default_rewrite_hook (P : Platform) (source : string) :
  (∀ scheme rest,
     is_scheme scheme → source = scheme +:+ "://" +:+ rest →
     defaultRewriteSourcesHook P source = rest)
  ∧ (¬ has_scheme_prefix source →
     defaultRewriteSourcesHook P source
     = path_relative P (process_cwd P) (path_normalize P source))
  ∧ defaultRewriteSourcesHook P "https://cdn.example.com/app.js"
    = "cdn.example.com/app.js".
Proof.
  split_and!.
  - intros scheme rest Hs ->. by apply defaultRewriteSourcesHook_strips.
  - apply defaultRewriteSourcesHook_relative.
  - reflexivity.
Qed.

Lemma C8_witness :
  defaultRewriteSourcesHook Example.P1 "webpack://app/src/a.ts" = "app/src/a.ts"
  ∧ defaultRewriteSourcesHook Example.P1 "/home/u/proj/src/../lib/a.ts"
    = path_relative Example.P1 (process_cwd Example.P1)
        (path_normalize Example.P1 "/home/u/proj/src/../lib/a.ts")
  ∧ path_relative Example.P1 (process_cwd Example.P1)
      (path_normalize Example.P1 "/home/u/proj/src/../lib/a.ts") = "lib/a.ts".
Proof.
  split_and!.
  - apply (proj1 (C8_default_rewrite_hook Example.P1 "webpack://app/src/a.ts")
             "webpack" "app/src/a.ts"); [|reflexivity].
    exists "w"%char, "ebpack". repeat split; reflexivity.
  - apply (proj1 (proj2 (C8_default_rewrite_hook Example.P1
                           "/home/u/proj/src/../lib/a.ts"))).
    intros (scheme & rest & (c & t & -> & Hc & _) & Heq).
    simpl in Heq. injection Heq as <- _. vm_compute in Hc. discriminate Hc.
  - vm_compute. reflexivity.
Defined.

(** ** Source-map locator *)

Section Locator.

Context (P : Platform).

(** On the text the preparer hands over, the answer of the locator is the
    file next to the bundle or nothing: the comment is never looked at. *)
Lemma locator_on_stamped bundlePath bundleContent debugId w :
  determineSourceMapPathFromBundle P bundlePath (stamp bundleContent debugId) w
  = if bool_decide (is_Some (files w !! (bundlePath +:+ ".map")))
       || bool_decide (bundlePath +:+ ".map" ∈ dirs w)
    then (Ok (Some (bundlePath +:+ ".map")), w,
          [EvAccess (bundlePath +:+ ".map")])
    else (Ok None, w,
          [EvAccess (bundlePath +:+ ".map");
           EvLog Debug
             ("Could not determine source map path for bundle: "
              +:+ bundlePath
              +:+ " - Did you turn on source map generation in your bundler?")]).
Proof.
  unfold determineSourceMapPathFromBundle.
  rewrite source_mapping_url_stamped.
  unfold mbind, M_bind, attempt, fs_access.
  by destruct (_ || _).
Qed.

End Locator.

(** C2.  The first bundle of the example ends with the line
    [//# sourceMappingURL=/abs/app.js.map]; the map it names exists, and so
    does [/dist/app.js.map].  The locator answers [/dist/app.js.map], on
    the text the preparer hands it and on the text of the bundle as it is
    on disk, and the unit stages the map it read from there. *)
Theorem C2_comment_not_preferred :
  let named := "/abs/app.js.map" in
  let sibling := "/dist/app.js.map" in
  let unit :=
    prepareBundleForDebugIdUpload Example.P1 Example.env1 "/dist/app.js"
      Example.staging 0 (defaultHook Example.P1) Example.w1 in
  Example.bundle1
  = "console.log(1);//sentry-dbid-" +:+ Example.id1 +:+ LF
    +:+ "//# sourceMappingURL=" +:+ named
  ∧ files Example.w1 !! named = Some (Fixture.stringify Example.doc1)
  ∧ files Example.w1 !! sibling = Some (Fixture.stringify Example.doc2)
  ∧ determineSourceMapPathFromBundle Example.P1 "/dist/app.js"
      (stamp Example.bundle1 Example.id1) Example.w1
    = (Ok (Some sibling), Example.w1, [EvAccess sibling])
  ∧ determineSourceMapPathFromBundle Example.P1 "/dist/app.js"
      Example.bundle1 Example.w1
    = (Ok (Some sibling), Example.w1, [EvAccess sibling])
  ∧ unit.2
    = [ EvReadFile "/dist/app.js";
        EvWriteFile (Example.staging +:+ "/" +:+ Example.id1 +:+ "-0.js")
          (stamp Example.bundle1 Example.id1);
        EvAccess sibling;
        EvReadFile sibling;
        EvWriteFile (Example.staging +:+ "/" +:+ Example.id1 +:+ "-0.js.map")
          (Fixture.stringify
             (JObject (injected Example.id1
                         [("version", JNumber "3");
                          ("sources",
                           JArray [JString "/home/u/proj/src/b.ts"])]))) ].
Proof. vm_compute. repeat split; reflexivity. Qed.

(** ** Batch orchestrator *)

Section Orchestrator.

Context (P : Platform) (env : Env).

Lemma cleanup_run folder w :
  folder ≠ "" →
  cleanup (Some folder) w
  = (Ok (),
     {| files := files w; dirs := dirs w; detached := detached w ++ [folder] |},
     [EvRmDetached folder]).
Proof.
  intros Hne. unfold cleanup, truthy.
  by apply String.eqb_neq in Hne as ->.
Qed.

(** The run once the staging directory is made: the body, the handler
    when the body threw, then the [finally] block. *)
Lemma createDebugIdUploadFunction_run opts buildArtifactPaths w folder :
  mkdtemp_creates env (staging_prefix P) = Some folder →
  createDebugIdUploadFunction P env opts buildArtifactPaths w
  = match
      (stage_and_upload P env opts buildArtifactPaths folder;;
       delete_files_after_upload env opts)
        {| files := files w; dirs := {[folder]} ∪ dirs w;
           detached := detached w |}
    with
    | (r1, w2, ev1) =>
        match (match r1 with
               | Ok a => (Ok a, w2, [])
               | Throw e => on_error env opts e w2
               end) with
        | (r2, w3, ev2) =>
            match cleanup (Some folder) w3 with
            | (r3, w4, ev3) =>
                (match r3 with Ok _ => r2 | Throw e => Throw e end, w4,
                 EvMkdtemp (staging_prefix P) :: ev1 ++ ev2 ++ ev3)
            end
        end
    end.
Proof.
  intros Hmk. unfold createDebugIdUploadFunction.
  unfold mbind at 1. unfold M_bind at 1. unfold attempt, fs_mkdtemp.
  fold (staging_prefix P). rewrite Hmk. unfold try_catch_finally.
  match goal with |- context [@mbind M ?i ?A ?B ?f ?m ?w1] =>
    destruct (@mbind M i A B f m w1) as [[r1 w2] ev1]
  end.
  destruct (match r1 with Ok a => _ | Throw e => _ end) as [[r2 w3] ev2].
  by destruct (cleanup _ w3) as [[[[]|?] w4] ev3].
Qed.

(** When [mkdtemp] rejects there is nothing to clean up. *)
Lemma createDebugIdUploadFunction_no_staging opts buildArtifactPaths w :
  mkdtemp_creates env (staging_prefix P) = None →
  createDebugIdUploadFunction P env opts buildArtifactPaths w
  = match on_error env opts (EMkdtemp (staging_prefix P)) w with
    | (r, w', evs) => (r, w', EvMkdtemp (staging_prefix P) :: evs)
    end.
Proof.
  intros Hmk. unfold createDebugIdUploadFunction.
  unfold mbind at 1. unfold M_bind at 1. unfold attempt, fs_mkdtemp.
  fold (staging_prefix P). rewrite Hmk.
  unfold try_catch_finally, throw, cleanup, mret, M_ret.
  destruct (on_error _ _ _ w) as [[r w'] evs]. by rewrite app_nil_r.
Qed.

(** Body and handler leave the directories alone and start no removal. *)
Lemma body_obeys opts buildArtifactPaths folder :
  obeys same_dirs (λ ev, is_rm_detached ev = false)
    (stage_and_upload P env opts buildArtifactPaths folder;;
     delete_files_after_upload env opts).
Proof.
  use @obeys_bind; [by use stage_and_upload_obeys|intros _].
  by use delete_files_obeys.
Qed.

Lemma handler_obeys opts e :
  obeys same_dirs (λ ev, is_rm_detached ev = false) (on_error env opts e).
Proof. by use on_error_obeys. Qed.

End Orchestrator.

(** C4, as amended.  Once the staging directory is made, every run starts
    its recursive, forced removal exactly once, on the paths that throw as
    on the others, and does not await it: when the operation settles the
    directory is still there, with its removal under way.  In a run in
    which the uploader was called, that is, in which every unit of the
    batch had resolved, no write follows the start of the removal. *)
Theorem C4_cleanup_started_not_awaited (P : Platform) (env : Env)
    (opts : DebugIdUploadPluginOptions) (buildArtifactPaths : list string)
    (w : World) (folder : string) :
  mkdtemp_creates env (staging_prefix P) = Some folder →
  folder ≠ "" →
  let out := createDebugIdUploadFunction P env opts buildArtifactPaths w in
  (∃ pre post,
     out.2 = pre ++ EvRmDetached folder :: post
     ∧ Forall (λ ev, is_rm_detached ev = false) (pre ++ post)
     ∧ ((∃ ev, ev ∈ out.2 ∧ is_upload ev = true) →
        Forall (λ ev, is_write ev = false) post))
  ∧ detached out.1.2 = detached w ++ [folder]
  ∧ folder ∈ dirs out.1.2.
Proof.
  intros Hmk Hne out. subst out.
  rewrite (createDebugIdUploadFunction_run P env _ _ _ _ Hmk).
  match goal with |- context [@mbind M ?i ?A ?B ?f ?m ?w1] =>
    destruct (body_obeys P env opts buildArtifactPaths folder w1)
      as [[Hd1 Hr1] Hev1];
    destruct (@mbind M i A B f m w1) as [[r1 w2] ev1]
  end.
  simpl in Hd1, Hr1, Hev1.
  assert (∃ r2 w3 ev2,
    match r1 with
    | Ok a => (Ok a, w2, [])
    | Throw e => on_error env opts e w2
    end = (r2, w3, ev2)
    ∧ same_dirs w2 w3 ∧ Forall (λ ev, is_rm_detached ev = false) ev2)
    as (r2 & w3 & ev2 & -> & [Hd2 Hr2] & Hev2).
  { destruct r1 as [a|e].
    - by eexists _, _, _.
    - destruct (handler_obeys env opts e w2) as [HI HQ].
      destruct (on_error env opts e w2) as [[r2 w3] ev2]. by eexists _, _, _. }
  rewrite (cleanup_run folder w3 Hne). simpl. split_and!.
  - exists (EvMkdtemp (staging_prefix P) :: ev1 ++ ev2), []. split_and!.
    + simpl. by rewrite <- app_assoc.
    + rewrite app_nil_r. constructor; [done|]. by apply Forall_app.
    + intros _. constructor.
  - by rewrite Hr2, Hr1.
  - rewrite Hd2, Hd1. by apply elem_of_union_l, elem_of_singleton.
Qed.

Lemma C4_witness :
  let out :=
    createDebugIdUploadFunction Example.P1 Example.env1 Example.opts1
      ["/dist/app.js"; "/dist/b.js"] Example.w1 in
  (∃ pre post,
     out.2 = pre ++ EvRmDetached Example.staging :: post
     ∧ Forall (λ ev, is_rm_detached ev = false) (pre ++ post)
     ∧ Forall (λ ev, is_write ev = false) post)
  ∧ detached out.1.2 = detached Example.w1 ++ [Example.staging]
  ∧ Example.staging ∈ dirs out.1.2.
Proof.
  destruct (C4_cleanup_started_not_awaited Example.P1 Example.env1
              Example.opts1 ["/dist/app.js"; "/dist/b.js"] Example.w1
              Example.staging)
    as [(pre & post & Heq & Hone & Hwrites) Hworld].
  - vm_compute. reflexivity.
  - discriminate.
  - split; [|exact Hworld]. exists pre, post.
    split; [exact Heq|]. split; [exact Hone|]. apply Hwrites.
    exists (EvUpload "undefined" [Example.staging] None).
    split; [|reflexivity]. vm_compute.
    repeat first [apply list_elem_of_here | apply list_elem_of_further].
Defined.

(** C4, as stated, fails: the example run made its staging directory and
    settled, and the directory exists in the world it settled in. *)
Lemma C4_counterexample :
  let out :=
    createDebugIdUploadFunction Example.P1 Example.env1 Example.opts1
      ["/dist/app.js"; "/dist/b.js"] Example.w1 in
  mkdtemp_creates Example.env1 (staging_prefix Example.P1)
  = Some Example.staging
  ∧ out.1.1 = Ok ()
  ∧ Example.staging ∈ dirs out.1.2
  ∧ detached out.1.2 = [Example.staging].
Proof.
  split_and!; vm_compute; reflexivity.
Qed.

(** C3.  In the example build the staged text of the first bundle cannot
    be written, and nothing else fails.  The rejected write is not caught
    in the unit and is not logged: the batch rejects with it, the run goes
    to the top-level handler, which is given the write error, and the
    uploader is never called. *)
Theorem C3_bundle_write_failure_rejects_batch :
  let js1 := Example.staging +:+ "/" +:+ Example.id1 +:+ "-0.js" in
  let out :=
    createDebugIdUploadFunction Example.P1 Example.env_write_fails
      Example.opts1 ["/dist/app.js"; "/dist/b.js"] Example.w1 in
  write_succeeds Example.env_write_fails js1 = false
  ∧ EvWriteFile js1 (stamp Example.bundle1 Example.id1) ∈ out.2
  ∧ EvCaptureException
      ("Error in " +:+ DQUOTE +:+ "debugIdUploadPlugin" +:+ DQUOTE
       +:+ " writeBundle hook") ∈ out.2
  ∧ EvHandleRecoverableError (EWriteFile js1) ∈ out.2
  ∧ Forall (λ ev, is_upload ev = false ∧ is_err_log ev = false) out.2
  ∧ out.1.1 = Ok ().
Proof.
  split_and!; try (vm_compute; reflexivity).
  - vm_compute.
    repeat first [apply list_elem_of_here | apply list_elem_of_further].
  - vm_compute.
    repeat first [apply list_elem_of_here | apply list_elem_of_further].
  - vm_compute.
    repeat first [apply list_elem_of_here | apply list_elem_of_further].
  - vm_compute. repeat constructor.
Qed.

(** ** What can reject a unit *)

Section Isolation.

Context (P : Platform) (env : Env).

Lemma array_map_throws hook map sources e :
  array_map hook map sources = Throw e →
  ∃ source, source ∈ sources ∧ hook source map = Throw e.
Proof.
  induction sources as [|source sources IH]; simpl; [done|].
  destruct (hook source map) as [s|e'] eqn:Hhook.
  - destruct (array_map hook map sources) as [l|e'']; [done|].
    intros [= <-]. destruct IH as (source' & Hin & Hthrow); [done|].
    exists source'. split; [by right|done].
  - intros [= <-]. exists source. split; [by left|done].
Qed.

(** Reading, parsing and writing the map are caught and logged; the
    transformer rejects only when the hook throws. *)
Lemma prepareSourceMap_throws sourceMapPath targetPath debugId hook w e :
  (prepareSourceMapForDebugIdUpload P env sourceMapPath targetPath debugId
     hook w).1.1 = Throw e →
  ∃ source map, hook source map = Throw e.
Proof.
  unfold prepareSourceMapForDebugIdUpload.
  unfold mbind, M_bind, attempt, fs_readFile, lift_outcome, logger, emit,
    mret, M_ret, fs_writeFile.
  destruct (files w !! sourceMapPath); simpl; [|done].
  destruct (parse_and_inject P _ debugId) as [map|]; simpl; [|done].
  destruct (get_prop "sources" map) as [[| | | |sources|]|]; simpl;
    try (destruct (write_succeeds env targetPath); done).
  destruct (array_map hook map sources) as [l|e'] eqn:Hmap; simpl.
  - destruct (write_succeeds env targetPath); done.
  - intros [= <-]. apply array_map_throws in Hmap as (source & _ & Hthrow).
    by exists source, map.
Qed.

Lemma determineSourceMapPath_returns bundlePath bundleSource w :
  ∃ sourceMapPath,
    (determineSourceMapPathFromBundle P bundlePath bundleSource w).1.1
    = Ok sourceMapPath.
Proof.
  unfold determineSourceMapPathFromBundle.
  destruct (Re.search _ _); [destruct (path_isAbsolute _ _); by eexists|].
  unfold mbind, M_bind, attempt, fs_access.
  destruct (_ || _); by eexists.
Qed.

(** A failure to locate, read, parse or write the map never rejects the
    unit; the unit rejects with the failure of the write of the staged
    text, which nothing catches, or with what the hook threw. *)
Lemma prepareBundle_throws bundleFilePath uploadFolder chunkIndex hook w e :
  (prepareBundleForDebugIdUpload P env bundleFilePath uploadFolder chunkIndex
     hook w).1.1 = Throw e →
  (∃ debugId,
     e = EWriteFile
           (path_join P uploadFolder
              (uniqueUploadName debugId chunkIndex +:+ ".js")))
  ∨ (∃ source map, hook source map = Throw e).
Proof.
  unfold prepareBundleForDebugIdUpload.
  unfold mbind at 1. unfold M_bind at 1. unfold attempt at 1.
  unfold fs_readFile.
  destruct (files w !! bundleFilePath) as [code|]; simpl; [|done].
  destruct (determineDebugIdFromBundleSource code) as [debugId|]; [|done].
  cbv zeta. unfold mbind at 1. unfold M_bind at 1.
  rewrite Promise_all_pair.
  unfold fs_writeFile at 1.
  destruct (write_succeeds env _); simpl.
  - match goal with |- context [@mbind M ?i ?A ?B ?f ?m ?w1] =>
      pose proof (determineSourceMapPath_returns bundleFilePath
                    (stamp code debugId) w1) as [sourceMapPath Hloc];
      unfold mbind at 1; unfold M_bind at 1;
      destruct (m w1) as [[r1 w2] ev1]
    end.
    simpl in Hloc. subst r1.
    destruct sourceMapPath as [sourceMapPath|]; simpl; [|done].
    destruct (truthy sourceMapPath); simpl; [|done].
    match goal with |- context [prepareSourceMapForDebugIdUpload P env ?a ?b ?c ?d ?w2] =>
      pose proof (prepareSourceMap_throws a b c d w2) as Hthrow;
      destruct (prepareSourceMapForDebugIdUpload P env a b c d w2)
        as [[[[]|e'] w3] ev2]
    end; simpl; [done|].
    intros [= <-]. right. by apply Hthrow.
  - match goal with |- context [@mbind M ?i ?A ?B ?f ?m ?w1] =>
      destruct (@mbind M i A B f m w1) as [[r1 w2] ev1]
    end.
    simpl. intros [= <-]. left. by exists debugId.
Qed.

End Isolation.

(** ** Runs without candidates *)

Section EmptyRuns.

Context (P : Platform) (env : Env).

(** Lines 85-88: the include list is the empty array. *)
Lemma stage_opt_out opts buildArtifactPaths folder w found :
  assets opts = Some (PatternList []) →
  glob_matches env (PatternList []) (ignore opts) = Some found →
  stage_and_upload P env opts buildArtifactPaths folder w
  = (Ok (), w,
     [ EvGlob (PatternList []) (ignore opts);
       EvLog Debug
         "Empty `sourcemaps.assets` option provided. Will not upload sourcemaps with debug ID." ]).
Proof.
  intros Hassets Hglob. unfold stage_and_upload. rewrite Hassets. simpl.
  unfold mbind, M_bind, mret, M_ret, glob. by rewrite Hglob.
Qed.

(** Lines 89-92: nothing to prepare, and the include list is not the
    empty array. *)
Lemma stage_no_candidates opts buildArtifactPaths folder w found :
  assets opts ≠ Some (PatternList []) →
  glob_matches env (globAssets_of opts buildArtifactPaths) (ignore opts)
  = Some found →
  filter (λ p, is_script p = true) found = [] →
  stage_and_upload P env opts buildArtifactPaths folder w
  = (Ok (), w,
     (if patterns_truthy (assets opts) then []
      else [EvLog Debug
              "No `sourcemaps.assets` option provided, falling back to uploading detected build artifacts."])
     ++ [ EvGlob (globAssets_of opts buildArtifactPaths) (ignore opts);
          EvLog Warn
            "Didn't find any matching sources for debug ID upload. Please check the `sourcemaps.assets` option." ]).
Proof.
  intros Hassets Hglob Hnone. unfold stage_and_upload.
  unfold globAssets_of in *.
  destruct (patterns_truthy (assets opts)); simpl;
    unfold mbind, M_bind, mret, M_ret, glob, logger, emit; simpl;
    rewrite Hglob; simpl; rewrite Hnone;
    by destruct (assets opts) as [[?|[|??]]|].
Qed.

Lemma cleanup_obeys Q folderToCleanUp :
  (∀ folder, Q (EvRmDetached folder)) →
  obeys any_world Q (cleanup folderToCleanUp).
Proof.
  intros HQ w. unfold cleanup.
  destruct folderToCleanUp as [folder|]; [|by split; [|constructor]].
  destruct (truthy folder); simpl; split; try done; by repeat constructor.
Qed.

(** A run whose staging phase did no work: what follows the events of
    the staging phase is the deletion of files, the handler if a deletion
    failed, and the cleanup. *)
Lemma run_after_idle_stage opts buildArtifactPaths w folder evs_stage :
  mkdtemp_creates env (staging_prefix P) = Some folder →
  (∀ w1, stage_and_upload P env opts buildArtifactPaths folder w1
         = (Ok (), w1, evs_stage)) →
  let out := createDebugIdUploadFunction P env opts buildArtifactPaths w in
  ∃ rest,
    out.2 = EvMkdtemp (staging_prefix P) :: evs_stage ++ rest
    ∧ Forall (λ ev, is_work ev = false ∧ is_warn_log ev = false
                    ∧ is_err_log ev = false) rest
    ∧ (patterns_truthy (deleteFilesAfterUpload opts) = false →
       out.1.1 = Ok () ∧ Forall (λ ev, is_capture ev = false) rest).
Proof.
  intros Hmk Hstage out. subst out.
  destruct (createDebugIdUploadFunction P env opts buildArtifactPaths w)
    as [[r w'] evs] eqn:Hrun. simpl.
  rewrite (createDebugIdUploadFunction_run P env _ _ _ _ Hmk) in Hrun.
  unfold mbind at 1 in Hrun. unfold M_bind at 1 in Hrun.
  rewrite Hstage in Hrun.
  set (Q := λ ev, is_work ev = false ∧ is_warn_log ev = false
                  ∧ is_err_log ev = false).
  match type of Hrun with context [delete_files_after_upload env opts ?w1] =>
    assert (∃ rd w2 evd,
      delete_files_after_upload env opts w1 = (rd, w2, evd)
      ∧ Forall Q evd
      ∧ (patterns_truthy (deleteFilesAfterUpload opts) = false →
         rd = Ok () ∧ evd = [])) as (rd & w2 & evd & Hdel & Hevd & Hoff)
  end.
  { match goal with |- context [delete_files_after_upload env opts ?w1] =>
      destruct (delete_files_obeys any_world Q env opts) with (w := w1)
        as [_ HQ]; [done..|]
    end.
    destruct (delete_files_after_upload _ _ _) as [[rd w2] evd] eqn:Hdel.
    eexists _, _, _. split_and!; [done..|].
    intros Hoff. unfold delete_files_after_upload in Hdel.
    rewrite Hoff in Hdel. unfold mret, M_ret in Hdel. by simplify_eq. }
  rewrite Hdel in Hrun.
  assert (∃ r2 w3 ev2,
    match rd with
    | Ok a => (Ok a, w2, [])
    | Throw e => on_error env opts e w2
    end = (r2, w3, ev2)
    ∧ Forall Q ev2 ∧ (rd = Ok () → r2 = Ok () ∧ ev2 = []))
    as (r2 & w3 & ev2 & Hhandler & Hev2 & Hok).
  { destruct rd as [[]|e].
    - by eexists _, _, _.
    - destruct (on_error_obeys any_world Q env opts e) with (w := w2)
        as [_ HQ]; [done..|].
      destruct (on_error env opts e w2) as [[r2 w3] ev2].
      by eexists _, _, _. }
  rewrite Hhandler in Hrun.
  destruct (cleanup_obeys Q (Some folder)) with (w := w3) as [_ Hev3];
    [done|].
  assert (∃ w4 ev3, cleanup (Some folder) w3 = (Ok (), w4, ev3)
                    ∧ Forall (λ ev, is_capture ev = false) ev3)
    as (w4 & ev3 & Hclean & Hcap3).
  { unfold cleanup. destruct (truthy folder); eexists _, _;
      (split; [done|by repeat constructor]). }
  rewrite Hclean in Hev3, Hrun. simpl in *. simplify_eq.
  exists (evd ++ ev2 ++ ev3). split_and!.
  - by rewrite <- !app_assoc.
  - by rewrite !Forall_app.
  - intros Hoff'. destruct (Hoff Hoff') as [-> ->].
    by destruct (Hok eq_refl) as [-> ->].
Qed.

End EmptyRuns.

(** C9.  With the staging directory made and the discovery [glob]
    answered: when the include list is the empty array, the run logs the
    opt-out at debug level and neither reads, probes, writes nor uploads,
    and logs no warning and no error; when the include list is anything
    else and no script file is found, the run logs a warning, does none of
    that work and logs no error.  In both cases, unless files are to be
    deleted afterwards, the run returns normally and reports nothing to the
    error handler. *)
Theorem C9_empty_candidate_set (P : Platform) (env : Env)
    (opts : DebugIdUploadPluginOptions) (buildArtifactPaths : list string)
    (w : World) (folder : string) (found : list string) :
  mkdtemp_creates env (staging_prefix P) = Some folder →
  glob_matches env (globAssets_of opts buildArtifactPaths) (ignore opts)
  = Some found →
  let out := createDebugIdUploadFunction P env opts buildArtifactPaths w in
  (assets opts = Some (PatternList []) →
   EvLog Debug
     "Empty `sourcemaps.assets` option provided. Will not upload sourcemaps with debug ID."
     ∈ out.2
   ∧ Forall (λ ev, is_work ev = false ∧ is_warn_log ev = false
                   ∧ is_err_log ev = false) out.2
   ∧ (patterns_truthy (deleteFilesAfterUpload opts) = false →
      out.1.1 = Ok () ∧ Forall (λ ev, is_capture ev = false) out.2))
  ∧ (assets opts ≠ Some (PatternList []) →
     filter (λ p, is_script p = true) found = [] →
     EvLog Warn
       "Didn't find any matching sources for debug ID upload. Please check the `sourcemaps.assets` option."
       ∈ out.2
     ∧ Forall (λ ev, is_work ev = false ∧ is_err_log ev = false) out.2
     ∧ (patterns_truthy (deleteFilesAfterUpload opts) = false →
        out.1.1 = Ok () ∧ Forall (λ ev, is_capture ev = false) out.2)).
Proof.
  intros Hmk Hglob out. subst out. split.
  - intros Hassets.
    assert (globAssets_of opts buildArtifactPaths = PatternList []) as Hga
      by (unfold globAssets_of; by rewrite Hassets).
    rewrite Hga in Hglob.
    destruct (run_after_idle_stage P env opts buildArtifactPaths w folder _ Hmk
                (λ w1, stage_opt_out P env opts buildArtifactPaths folder w1
                         found Hassets Hglob))
      as (rest & -> & Hrest & Hoff).
    split_and!.
    + simpl. repeat constructor.
    + by repeat constructor.
    + intros Hno. destruct (Hoff Hno) as [-> Hcap].
      split; [done|]. by repeat constructor.
  - intros Hassets Hnone.
    destruct (run_after_idle_stage P env opts buildArtifactPaths w folder _ Hmk
                (λ w1, stage_no_candidates P env opts buildArtifactPaths folder
                         w1 found Hassets Hglob Hnone))
      as (rest & -> & Hrest & Hoff).
    split_and!.
    + destruct (patterns_truthy (assets opts)); simpl; repeat constructor.
    + constructor; [done|]. apply Forall_app. split.
      * destruct (patterns_truthy (assets opts)); by repeat constructor.
      * eapply Forall_impl; [done|]. by intros ev (? & ? & ?).
    + intros Hno. destruct (Hoff Hno) as [-> Hcap].
      split; [done|]. constructor; [done|]. apply Forall_app. split; [|done].
      destruct (patterns_truthy (assets opts)); by repeat constructor.
Qed.

Lemma C9_witness :
  let out :=
    createDebugIdUploadFunction Example.P1 Example.env1 Example.opts_opt_out
      ["/dist/app.js"; "/dist/b.js"] Example.w1 in
  let out' :=
    createDebugIdUploadFunction Example.P1 Example.env1 Example.opts1
      ["/dist/readme.txt"] Example.w1 in
  (EvLog Debug
     "Empty `sourcemaps.assets` option provided. Will not upload sourcemaps with debug ID."
     ∈ out.2
   ∧ Forall (λ ev, is_work ev = false ∧ is_warn_log ev = false
                   ∧ is_err_log ev = false) out.2
   ∧ (patterns_truthy (deleteFilesAfterUpload Example.opts_opt_out) = false →
      out.1.1 = Ok () ∧ Forall (λ ev, is_capture ev = false) out.2))
  ∧ (EvLog Warn
       "Didn't find any matching sources for debug ID upload. Please check the `sourcemaps.assets` option."
       ∈ out'.2
     ∧ Forall (λ ev, is_work ev = false ∧ is_err_log ev = false) out'.2
     ∧ (patterns_truthy (deleteFilesAfterUpload Example.opts1) = false →
        out'.1.1 = Ok () ∧ Forall (λ ev, is_capture ev = false) out'.2)).
Proof.
  split.
  - apply (proj1 (C9_empty_candidate_set Example.P1 Example.env1
                    Example.opts_opt_out ["/dist/app.js"; "/dist/b.js"]
                    Example.w1 Example.staging [] eq_refl eq_refl)).
    reflexivity.
  - apply (proj2 (C9_empty_candidate_set Example.P1 Example.env1
                    Example.opts1 ["/dist/readme.txt"]
                    Example.w1 Example.staging ["/dist/readme.txt"]
                    eq_refl eq_refl)).
    + discriminate.
    + vm_compute. reflexivity.
Defined.

(** ** Deleting files after the upload *)

Section Deletion.

Context (P : Platform) (env : Env).

Lemma forEach_log_run (f : string → string) (l : list string) w :
  forEach (λ p, logger Debug (f p)) l w
  = (Ok (), w, (λ p, EvLog Debug (f p)) <$> l).
Proof.
  induction l as [|p l IH]; [done|].
  simpl. unfold mbind, M_bind.
  change (logger Debug (f p) w) with (Ok (), w, [EvLog Debug (f p)]).
  cbv beta iota. by rewrite IH.
Qed.

(** The removals of a list of files: each is issued; none brings a file
    back; when none is rejected, none of the files is left. *)
Lemma rm_all_settled (l : list string) w :
  ∃ rs w' evs,
    all_settled (fs_rm_force env <$> l) w = (Ok rs, w', evs)
    ∧ (∀ p, p ∈ l → EvRm p ∈ evs)
    ∧ (∀ q, files w !! q = None → files w' !! q = None)
    ∧ ((∃ oks, join_outcomes rs = Ok oks) →
       ∀ p, p ∈ l → files w' !! p = None).
Proof.
  revert w. induction l as [|p l IH]; intros w.
  - exists [], w, []. split_and!; [done|..]; try done.
    + by intros ? ?%elem_of_nil.
    + by intros _ ? ?%elem_of_nil.
  - simpl.
    change (list_fmap string (M ()) (fs_rm_force env) l)
      with (fs_rm_force env <$> l).
    unfold mbind at 1. unfold M_bind at 1.
    unfold attempt at 1. unfold fs_rm_force at 1.
    destruct (rm_succeeds env p) eqn:Hrm; cbv beta iota zeta.
    + match goal with |- context [@mbind M ?i ?A ?B ?f ?m ?w1] =>
        destruct (IH w1) as (rs & w' & evs & Hrun & Hev & Hkeep & Hgone);
        unfold mbind at 1; unfold M_bind at 1; rewrite Hrun
      end.
      simpl. rewrite app_nil_r. eexists _, _, _. split; [done|]. split_and!.
      * intros q [->|Hq]%elem_of_cons; [by left|]. right. by apply Hev.
      * intros q Hq. apply Hkeep. simpl.
        destruct (decide (p = q)) as [->|Hne];
          [by rewrite lookup_delete_eq|by rewrite lookup_delete_ne].
      * intros [oks Hoks] q Hq.
        assert (∃ oks', join_outcomes rs = Ok oks') as Hoks'.
        { simpl in Hoks. destruct (join_outcomes rs); [by eexists|done]. }
        apply elem_of_cons in Hq as [->|Hq]; [|by apply Hgone].
        apply Hkeep. simpl. by rewrite lookup_delete_eq.
    + match goal with |- context [@mbind M ?i ?A ?B ?f ?m ?w1] =>
        destruct (IH w1) as (rs & w' & evs & Hrun & Hev & Hkeep & Hgone);
        unfold mbind at 1; unfold M_bind at 1; rewrite Hrun
      end.
      simpl. rewrite app_nil_r. eexists _, _, _. split; [done|]. split_and!.
      * intros q [->|Hq]%elem_of_cons; [by left|]. right. by apply Hev.
      * done.
      * by intros [oks Hoks].
Qed.

(** A deletion step that returns has removed every file its [glob]
    found. *)
Lemma delete_files_returns opts w w' evs :
  patterns_truthy (deleteFilesAfterUpload opts) = true →
  delete_files_after_upload env opts w = (Ok (), w', evs) →
  ∃ filePathsToDelete,
    glob_matches env
      (default (PatternList []) (deleteFilesAfterUpload opts)) None
    = Some filePathsToDelete
    ∧ ∀ p, p ∈ filePathsToDelete → EvRm p ∈ evs ∧ files w' !! p = None.
Proof.
  intros Hon. unfold delete_files_after_upload. rewrite Hon.
  unfold mbind at 1. unfold M_bind at 1. unfold glob.
  destruct (glob_matches env _ None) as [l|]; [|done].
  unfold mbind at 1. unfold M_bind at 1. rewrite forEach_log_run.
  unfold mbind at 1. unfold M_bind at 1. unfold Promise_all.
  unfold mbind at 1. unfold M_bind at 1.
  destruct (rm_all_settled l w) as (rs & w2 & evd & -> & Hev & _ & Hgone).
  unfold lift_outcome.
  destruct (join_outcomes rs) as [oks|e] eqn:Hjoin; simpl; [|done].
  intros [= <- <-]. exists l. split; [done|]. intros p Hp. split.
  - rewrite !elem_of_cons, !elem_of_app. right. right. left. left.
    by apply Hev.
  - apply Hgone; [by eexists|done].
Qed.

Lemma on_error_captures opts e w :
  ∃ r w' msg evs,
    on_error env opts e w = (r, w', EvCaptureException msg :: evs).
Proof.
  unfold on_error, sentryHub_captureException, emit.
  unfold mbind at 1. unfold M_bind at 1.
  match goal with |- context [@mbind M ?i ?A ?B ?f ?m ?w1] =>
    destruct (@mbind M i A B f m w1) as [[r w'] evs]
  end.
  by eexists _, _, _, _.
Qed.

End Deletion.

(** C10.  With a deletion pattern configured, a run that never enters the
    [catch] block has removed every file the deletion [glob] found: each
    removal was issued and none of the files is left.  That holds whether
    or not there was anything to upload: in a run whose include list is the
    empty array, or whose discovery found no script file, the uploader is
    not called and the files are removed all the same. *)
Theorem C10_deletion_not_tied_to_upload (P : Platform) (env : Env)
    (opts : DebugIdUploadPluginOptions) (buildArtifactPaths : list string)
    (w : World) :
  patterns_truthy (deleteFilesAfterUpload opts) = true →
  let out := createDebugIdUploadFunction P env opts buildArtifactPaths w in
  Forall (λ ev, is_capture ev = false) out.2 →
  ∃ filePathsToDelete,
    glob_matches env (default (PatternList []) (deleteFilesAfterUpload opts))
      None = Some filePathsToDelete
    ∧ (∀ p, p ∈ filePathsToDelete →
         EvRm p ∈ out.2 ∧ files out.1.2 !! p = None)
    ∧ (∀ found,
         glob_matches env (globAssets_of opts buildArtifactPaths) (ignore opts)
         = Some found →
         assets opts = Some (PatternList [])
         ∨ filter (λ p, is_script p = true) found = [] →
         Forall (λ ev, is_upload ev = false) out.2).
Proof.
  intros Hon out Hcap. subst out.
  destruct (createDebugIdUploadFunction P env opts buildArtifactPaths w)
    as [[r w'] evs] eqn:Hrun. simpl in *.
  destruct (mkdtemp_creates env (staging_prefix P)) as [folder|] eqn:Hmk.
  2: { rewrite (createDebugIdUploadFunction_no_staging P env _ _ _ Hmk) in Hrun.
       destruct (on_error_captures env opts (EMkdtemp (staging_prefix P)) w)
         as (r0 & w0 & msg & evs0 & Herr).
       rewrite Herr in Hrun. simplify_eq.
       by apply Forall_cons in Hcap as [_ [? _]%Forall_cons]. }
  rewrite (createDebugIdUploadFunction_run P env _ _ _ _ Hmk) in Hrun.
  unfold mbind at 1 in Hrun. unfold M_bind at 1 in Hrun.
  destruct (stage_and_upload P env opts buildArtifactPaths folder _)
    as [[[[]|e] ws] evs1] eqn:Hstage.
  2: { destruct (on_error_captures env opts e ws)
         as (r0 & w0 & msg & evs0 & Herr).
       rewrite Herr in Hrun.
       destruct (cleanup (Some folder) w0) as [[r3 w4] ev3]. simplify_eq.
       apply Forall_cons in Hcap as [_ Hcap].
       by apply Forall_app in Hcap as [_ [? _]%Forall_cons]. }
  destruct (delete_files_after_upload env opts ws)
    as [[[[]|e] w2] evd] eqn:Hdel.
  2: { destruct (on_error_captures env opts e w2)
         as (r0 & w0 & msg & evs0 & Herr).
       rewrite Herr in Hrun.
       destruct (cleanup (Some folder) w0) as [[r3 w4] ev3]. simplify_eq.
       apply Forall_cons in Hcap as [_ Hcap].
       by apply Forall_app in Hcap as [_ [? _]%Forall_cons]. }
  assert (∃ w4 ev3, cleanup (Some folder) w2 = (Ok (), w4, ev3)
                    ∧ files w4 = files w2
                    ∧ Forall (λ ev, is_upload ev = false) ev3)
    as (w4 & ev3 & Hclean & Hfiles & Hup3).
  { unfold cleanup. destruct (truthy folder); eexists _, _;
      (split_and!; [done..|by repeat constructor]). }
  rewrite Hclean in Hrun. simplify_eq.
  destruct (delete_files_returns env opts ws w2 evd Hon Hdel)
    as (l & Hglob & Hl).
  exists l. split; [done|]. split.
  - intros p Hp. destruct (Hl p Hp) as [Hrm Hgone]. split.
    + rewrite !elem_of_cons, !elem_of_app. right. left. by right.
    + by rewrite Hfiles.
  - intros found Hfound Hempty.
    assert (Forall (λ ev, is_upload ev = false) evs1) as Hup1.
    { destruct Hempty as [Hassets|Hnone].
      - assert (globAssets_of opts buildArtifactPaths = PatternList []) as Hga
          by (unfold globAssets_of; by rewrite Hassets).
        rewrite Hga in Hfound.
        rewrite (stage_opt_out P env _ _ _ _ found Hassets Hfound) in Hstage.
        simplify_eq. by repeat constructor.
      - assert (assets opts = Some (PatternList [])
                ∨ assets opts ≠ Some (PatternList [])) as [Hassets|Hassets]
          by (destruct (assets opts) as [[?|[|??]]|]; (by left) || (by right)).
        + assert (globAssets_of opts buildArtifactPaths = PatternList [])
            as Hga by (unfold globAssets_of; by rewrite Hassets).
          rewrite Hga in Hfound.
          rewrite (stage_opt_out P env _ _ _ _ found Hassets Hfound) in Hstage.
          simplify_eq. by repeat constructor.
        + rewrite (stage_no_candidates P env _ _ _ _ found Hassets Hfound Hnone)
            in Hstage.
          simplify_eq.
          destruct (patterns_truthy (assets opts)); by repeat constructor. }
    assert (Forall (λ ev, is_upload ev = false) evd) as Hup2.
    { destruct (delete_files_obeys any_world (λ ev, is_upload ev = false)
                  env opts) with (w := ws) as [_ HQ]; [done..|].
      by rewrite Hdel in HQ. }
    constructor; [done|]. simpl. by rewrite !Forall_app.
Qed.

Lemma C10_witness :
  let out :=
    createDebugIdUploadFunction Example.P1 Example.env1 Example.opts_opt_out
      ["/dist/app.js"; "/dist/b.js"] Example.w1 in
  ∃ filePathsToDelete,
    glob_matches Example.env1 (Pattern "/dist/*.map") None
    = Some filePathsToDelete
    ∧ (∀ p, p ∈ filePathsToDelete →
         EvRm p ∈ out.2 ∧ files out.1.2 !! p = None)
    ∧ (∀ found,
         glob_matches Example.env1
           (globAssets_of Example.opts_opt_out ["/dist/app.js"; "/dist/b.js"])
           (ignore Example.opts_opt_out)
         = Some found →
         assets Example.opts_opt_out = Some (PatternList [])
         ∨ filter (λ p, is_script p = true) found = [] →
         Forall (λ ev, is_upload ev = false) out.2).
Proof.
  apply (C10_deletion_not_tied_to_upload Example.P1 Example.env1
           Example.opts_opt_out ["/dist/app.js"; "/dist/b.js"] Example.w1).
  - reflexivity.
  - vm_compute. repeat constructor.
Defined.

(** * Further properties *)

(** ** Identifier extractor: several markers, appended text *)

Section ExtractorMore.

Import Re.

Lemma sapp_prefix_split (a b c d : string) :
  a +:+ b = c +:+ d → String.length c ≤ String.length a →
  ∃ e, a = c +:+ e ∧ d = e +:+ b.
Proof.
  revert a. induction c as [|x c IH]; intros a Heq Hlen; simpl in *.
  - by exists a.
  - destruct a as [|y a]; simpl in *; [lia|].
    injection Heq as -> Heq.
    destruct (IH a Heq) as (e & -> & ->); [lia|]. by exists e.
Qed.

Lemma marker_at_length s pre u post :
  marker_at s pre u post → 48 ≤ String.length s.
Proof.
  intros [-> Hu]. rewrite !slength_app, (is_uuid_length u Hu). simpl. lia.
Qed.

(** The pattern matches at the start of [s] exactly when [s] starts with a
    marker. *)
Lemma exec_debug_id_none cx s u post :
  exec DEBUG_ID_REGEX cx s = None → is_uuid u →
  s ≠ "sentry-dbid-" +:+ u +:+ post.
Proof.
  intros Hnone Hu ->.
  destruct (exec_debug_id_app cx u post Hu) as (cx' & Hex & _). congruence.
Qed.

Lemma search_debug_id_leftmost b s m pre' u' post' :
  search_from DEBUG_ID_REGEX b s = Some m →
  marker_at s pre' u' post' →
  String.length (m_pre m) ≤ String.length pre'.
Proof.
  revert b m pre'. induction s as [|c s IH]; intros b m pre';
    rewrite search_from_eq;
    destruct (exec _ _ _) as [[cx' s']|] eqn:E;
    try (intros [= <-] _; simpl; lia); try done.
  destruct (search_from _ _ s) as [m0|] eqn:Hs; [|done].
  intros [= <-] [Heq Hu]. destruct pre' as [|c' pre'].
  - by destruct (exec_debug_id_none _ _ u' post' E Hu).
  - simpl in Heq. injection Heq as <- Heq. simpl.
    apply le_n_S. eapply IH; [done|]. by split.
Qed.

Lemma search_debug_id_append b s t m :
  search_from DEBUG_ID_REGEX b s = Some m →
  search_from DEBUG_ID_REGEX b (s +:+ t)
  = Some {| m_pre := m_pre m; m_cap1 := m_cap1 m; m_post := m_post m +:+ t |}.
Proof.
  revert b m. induction s as [|c s IH]; intros b m;
    rewrite search_from_eq;
    destruct (exec _ _ _) as [[cx' s']|] eqn:E; try done.
  - intros [= <-]. apply exec_debug_id_inv in E as (u & Hu & Heq & Hcap).
    rewrite search_from_eq, Heq, !sapp_assoc.
    destruct (exec_debug_id_app (start_ctx b) u (s' +:+ t) Hu)
      as (cx'' & -> & Hcap'').
    simpl. by rewrite Hcap, Hcap''.
  - destruct (search_from _ _ s) as [m0|] eqn:Hs; [|done].
    intros [= <-]. rewrite search_from_eq.
    destruct (exec _ _ (String c s +:+ t)) as [[cx'' s'']|] eqn:E'.
    + apply exec_debug_id_inv in E' as (u & Hu & Heq & _).
      destruct (search_debug_id_sound _ _ _ Hs) as (u0 & _ & Hm0).
      apply marker_at_length in Hm0.
      rewrite <- sapp_assoc in Heq.
      apply sapp_prefix_split in Heq as (e & Heq & _).
      * rewrite sapp_assoc in Heq.
        by destruct (exec_debug_id_none _ _ u e E Hu).
      * rewrite slength_app, (is_uuid_length u Hu). simpl. lia.
    + simpl. by rewrite (IH _ _ Hs).
Qed.

End ExtractorMore.

(** X1.  When the extractor returns an identifier, it is the uuid of the
    marker that starts first in the text: no marker starts before it. *)
Theorem X1_first_marker_wins (code u : string) :
  determineDebugIdFromBundleSource code = Some u →
  ∃ pre post,
    marker_at code pre u post
    ∧ ∀ pre' u' post',
        marker_at code pre' u' post' →
        String.length pre ≤ String.length pre'.
Proof.
  unfold determineDebugIdFromBundleSource, Re.search.
  destruct (Re.search_from _ _ _) as [m|] eqn:Hs; [|done].
  intros Hcap. destruct (search_debug_id_sound _ _ _ Hs) as (u0 & Hcap0 & Hm).
  exists (Re.m_pre m), (Re.m_post m). split; [congruence|].
  intros pre' u' post' Hm'. by eapply search_debug_id_leftmost.
Qed.

Lemma X1_witness :
  ∃ pre post,
    marker_at
      ("a;sentry-dbid-" +:+ Example.id1 +:+ ";sentry-dbid-" +:+ Example.id2)
      pre Example.id1 post
    ∧ ∀ pre' u' post',
        marker_at
          ("a;sentry-dbid-" +:+ Example.id1 +:+ ";sentry-dbid-" +:+ Example.id2)
          pre' u' post' →
        String.length pre ≤ String.length pre'.
Proof.
  apply (X1_first_marker_wins
           ("a;sentry-dbid-" +:+ Example.id1 +:+ ";sentry-dbid-" +:+ Example.id2)
           Example.id1).
  vm_compute. reflexivity.
Defined.

(** X2.  Text appended to a bundle does not change the identifier found in
    it; in particular the staged text, which has the [debugId] comment
    appended, carries the identifier of the bundle. *)
Theorem X2_identifier_survives_stamp (code u : string) :
  determineDebugIdFromBundleSource code = Some u →
  (∀ t, determineDebugIdFromBundleSource (code +:+ t) = Some u)
  ∧ ∀ debugId, determineDebugIdFromBundleSource (stamp code debugId) = Some u.
Proof.
  intros Hid.
  assert (∀ t, determineDebugIdFromBundleSource (code +:+ t) = Some u) as Happ.
  { intros t. unfold determineDebugIdFromBundleSource, Re.search in *.
    destruct (Re.search_from _ _ code) as [m|] eqn:Hs; [|done].
    by rewrite (search_debug_id_append _ _ t _ Hs). }
  split; [done|]. intros debugId. apply Happ.
Qed.

Lemma X2_witness :
  (∀ t, determineDebugIdFromBundleSource (Example.bundle2 +:+ t)
        = Some Example.id2)
  ∧ ∀ debugId,
      determineDebugIdFromBundleSource (stamp Example.bundle2 debugId)
      = Some Example.id2.
Proof.
  apply (X2_identifier_survives_stamp Example.bundle2 Example.id2).
  vm_compute. reflexivity.
Defined.

(** ** Source-map locator: when the comment is read *)

Section LocatorMore.

Import Re.

Lemma anystar_whole k cx (v : string) :
  has_line_terminator v = false →
  is_Some (k (eat_all v cx) "") →
  star (λ c s', negb (line_terminator_at (String c s'))) k cx v
  = k (eat_all v cx) "".
Proof.
  revert cx. induction v as [|c v IH]; intros cx Hlt Hk; [done|].
  cbn [has_line_terminator] in Hlt. apply orb_false_elim in Hlt as [Hc Hv].
  cbn [eat_all] in Hk |- *. cbn [star]. rewrite Hc. cbn [negb].
  rewrite (IH _ Hv Hk). by destruct Hk as [m ->].
Qed.

Lemma anystar_to_end k cx (s : string) m :
  (∀ cx c s, k cx (String c s) = None) →
  star (λ c s', negb (line_terminator_at (String c s'))) k cx s = Some m →
  has_line_terminator s = false ∧ k (eat_all s cx) "" = Some m.
Proof.
  intros Hk. revert cx. induction s as [|c s IH]; intros cx; [done|].
  cbn [star has_line_terminator].
  destruct (line_terminator_at (String c s)); cbn [negb orb];
    [by rewrite Hk|].
  destruct (star _ k (eat c cx) s) as [m'|] eqn:Hs; [|by rewrite Hk].
  intros [= <-]. by apply IH.
Qed.

Lemma source_mapping_url_search (text : string) :
  search SOURCE_MAPPING_URL_REGEX text
  = match lit "//# sourceMappingURL=" (start_ctx None) text with
    | Some (_, value) =>
        if has_line_terminator value then None
        else Some {| m_pre := ""; m_cap1 := Some value; m_post := "" |}
    | None => None
    end.
Proof.
  unfold SOURCE_MAPPING_URL_REGEX. rewrite search_bol. cbn [exec].
  destruct (lit _ _ text) as [[cx1 value]|] eqn:E1; [|done].
  apply lit_inv in E1 as [-> ->].
  set (cx := {| before := _; grp := Some ""; cap1 := _ |}).
  set (k := λ (cx : ctx) (s : string),
              match s with
              | "" => Some ({| before := before cx; grp := None;
                               cap1 := grp cx |}, s)
              | String _ _ => None
              end).
  change (star _ _ cx value)
    with (star (λ c s', negb (line_terminator_at (String c s'))) k cx value).
  destruct (has_line_terminator value) eqn:Hlt.
  - destruct (star _ k cx value) as [m|] eqn:Hs; [|done].
    apply anystar_to_end in Hs as [Hno _]; [congruence|done].
  - rewrite anystar_whole; [|done..]. simpl.
    subst cx. rewrite eat_all_grp. simpl. done.
Qed.

End LocatorMore.

(** X3.  A text that is nothing but the line [//# sourceMappingURL=<value>],
    with no line terminator in the value, is answered from the comment,
    without a look at the file system: the normalised value when that is
    absolute, else the normalised value joined to the directory of the
    bundle. *)
Theorem X3_comment_read_on_single_line (P : Platform)
    (bundlePath value : string) (w : World) :
  has_line_terminator value = false →
  determineSourceMapPathFromBundle P bundlePath
    ("//# sourceMappingURL=" +:+ value) w
  = (Ok (Some (if path_isAbsolute P (path_normalize P value)
               then path_normalize P value
               else path_join P (path_dirname P bundlePath)
                      (path_normalize P value))),
     w, []).
Proof.
  intros Hlt. unfold determineSourceMapPathFromBundle.
  rewrite source_mapping_url_search, lit_app, Hlt. simpl.
  by destruct (path_isAbsolute P _).
Qed.

Lemma X3_witness :
  determineSourceMapPathFromBundle Example.P1 "/dist/app.js"
    ("//# sourceMappingURL=" +:+ "maps/../app.js.map") Example.w1
  = (Ok (Some "/dist/app.js.map"), Example.w1, []).
Proof.
  rewrite (X3_comment_read_on_single_line Example.P1 "/dist/app.js"
             "maps/../app.js.map" Example.w1 eq_refl).
  vm_compute. reflexivity.
Defined.

(** X4.  On every other text (one that has anything before the comment, a
    line terminator after it, or no comment) the locator only probes
    [<bundlePath>.map]: it answers that path when the probe succeeds, and
    nothing, with one line at debug level, when it fails. *)
Theorem X4_sibling_probe_otherwise (P : Platform)
    (bundlePath bundleSource : string) (w : World) :
  (∀ value, bundleSource = "//# sourceMappingURL=" +:+ value →
            has_line_terminator value = true) →
  determineSourceMapPathFromBundle P bundlePath bundleSource w
  = if bool_decide (is_Some (files w !! (bundlePath +:+ ".map")))
       || bool_decide (bundlePath +:+ ".map" ∈ dirs w)
    then (Ok (Some (bundlePath +:+ ".map")), w,
          [EvAccess (bundlePath +:+ ".map")])
    else (Ok None, w,
          [EvAccess (bundlePath +:+ ".map");
           EvLog Debug
             ("Could not determine source map path for bundle: "
              +:+ bundlePath
              +:+ " - Did you turn on source map generation in your bundler?")]).
Proof.
  intros Hother. unfold determineSourceMapPathFromBundle.
  rewrite source_mapping_url_search.
  destruct (Re.lit _ _ bundleSource) as [[cx value]|] eqn:E.
  - apply lit_inv in E as [-> _]. rewrite (Hother value eq_refl).
    unfold mbind, M_bind, attempt, fs_access. by destruct (_ || _).
  - unfold mbind, M_bind, attempt, fs_access. by destruct (_ || _).
Qed.

Lemma X4_witness :
  determineSourceMapPathFromBundle Example.P1 "/dist/c.js"
    ("var c;" +:+ LF +:+ "//# sourceMappingURL=c.js.map") Example.w1
  = (Ok None, Example.w1,
     [EvAccess "/dist/c.js.map";
      EvLog Debug
        ("Could not determine source map path for bundle: " +:+ "/dist/c.js"
         +:+ " - Did you turn on source map generation in your bundler?")]).
Proof.
  rewrite (X4_sibling_probe_otherwise Example.P1 "/dist/c.js"
             ("var c;" +:+ LF +:+ "//# sourceMappingURL=c.js.map") Example.w1).
  - vm_compute. reflexivity.
  - intros value Heq. vm_compute in Heq. discriminate Heq.
Defined.

(** ** Source-map transformer: what it touches, what it keeps *)

Section TransformerMore.

Context (P : Platform) (env : Env).

Lemma fields_set_names k v fs :
  ∃ added, field_names (fields_set k v fs) = field_names fs ++ added.
Proof.
  unfold field_names. induction fs as [|[k' v'] fs [added IH]]; simpl.
  - by exists [k].
  - destruct (String.eqb k k') eqn:Hk; simpl.
    + apply String.eqb_eq in Hk as ->. exists []. by rewrite app_nil_r.
    + exists added. by rewrite IH.
Qed.

Lemma injected_names debugId fs :
  ∃ added, field_names (injected debugId fs) = field_names fs ++ added.
Proof.
  unfold injected.
  destruct (fields_set_names "debug_id" (JString debugId) fs) as [a1 H1].
  destruct (fields_set_names "debugId" (JString debugId)
              (fields_set "debug_id" (JString debugId) fs)) as [a2 H2].
  exists (a1 ++ a2). by rewrite H2, H1, app_assoc.
Qed.

Lemma array_map_defaultHook map (l : list Json) :
  forallb is_json_string l = false →
  array_map (defaultHook P) map l = Throw ETypeError.
Proof.
  induction l as [|source l IH]; simpl; [done|].
  destruct source; simpl; try done.
  intros Hl. by rewrite (IH Hl).
Qed.

End TransformerMore.

Section TransformerErrors.

Context (P : Platform) (env : Env).

(** The transformer rejects only with what the hook threw on an entry of
    the [sources] array of the document it read. *)
Lemma prepareSourceMap_throws_entry sourceMapPath targetPath debugId hook w e :
  (prepareSourceMapForDebugIdUpload P env sourceMapPath targetPath debugId
     hook w).1.1 = Throw e →
  ∃ content map sources source,
    files w !! sourceMapPath = Some content
    ∧ parse_and_inject P content debugId = Ok map
    ∧ get_prop "sources" map = Some (JArray sources)
    ∧ source ∈ sources
    ∧ hook source map = Throw e.
Proof.
  unfold prepareSourceMapForDebugIdUpload.
  unfold mbind, M_bind, attempt, fs_readFile, lift_outcome, logger, emit,
    mret, M_ret, fs_writeFile.
  destruct (files w !! sourceMapPath) as [content|]; simpl; [|done].
  destruct (parse_and_inject P content debugId) as [map|] eqn:Hparse; simpl;
    [|done].
  destruct (get_prop "sources" map) as [[| | | |sources|]|] eqn:Hsources;
    simpl; try (destruct (write_succeeds env targetPath); done).
  destruct (array_map hook map sources) as [l|e'] eqn:Hmap; simpl.
  - destruct (write_succeeds env targetPath); done.
  - intros [= <-].
    apply array_map_throws in Hmap as (source & Hin & Hthrow).
    by exists content, map, sources, source.
Qed.

Lemma prepareSourceMap_unreadable sourceMapPath targetPath debugId hook w :
  files w !! sourceMapPath = None →
  prepareSourceMapForDebugIdUpload P env sourceMapPath targetPath debugId
    hook w
  = (Ok (), w,
     [EvReadFile sourceMapPath;
      EvLog Err ("Failed to read source map for debug ID upload: "
                 +:+ sourceMapPath)]).
Proof.
  intros Hfile. unfold prepareSourceMapForDebugIdUpload.
  unfold mbind, M_bind, attempt, fs_readFile. by rewrite Hfile.
Qed.

Lemma prepareSourceMap_unparsable sourceMapPath targetPath debugId hook w
    content e :
  files w !! sourceMapPath = Some content →
  parse_and_inject P content debugId = Throw e →
  prepareSourceMapForDebugIdUpload P env sourceMapPath targetPath debugId
    hook w
  = (Ok (), w,
     [EvReadFile sourceMapPath;
      EvLog Err ("Failed to parse source map for debug ID upload: "
                 +:+ sourceMapPath)]).
Proof.
  intros Hfile Hparse. unfold prepareSourceMapForDebugIdUpload.
  unfold mbind, M_bind, attempt, fs_readFile. by rewrite Hfile, Hparse.
Qed.

Lemma prepareSourceMap_unwritable sourceMapPath targetPath debugId hook w
    text :
  write_succeeds env targetPath = false →
  EvWriteFile targetPath text
  ∈ (prepareSourceMapForDebugIdUpload P env sourceMapPath targetPath debugId
       hook w).2 →
  ∃ pre,
    prepareSourceMapForDebugIdUpload P env sourceMapPath targetPath debugId
      hook w
    = (Ok (), w,
       pre ++ [EvWriteFile targetPath text;
               EvLog Err ("Failed to prepare source map for debug ID upload: "
                          +:+ sourceMapPath)]).
Proof.
  intros Hwrite. unfold prepareSourceMapForDebugIdUpload.
  unfold mbind, M_bind, attempt, fs_readFile, lift_outcome, logger, emit,
    mret, M_ret, fs_writeFile. rewrite Hwrite.
  destruct (files w !! sourceMapPath) as [content|]; simpl.
  2: { intros Hin. rewrite !elem_of_cons, elem_of_nil in Hin.
       decompose [or] Hin; done. }
  destruct (parse_and_inject P content debugId) as [map|]; simpl.
  2: { intros Hin. rewrite !elem_of_cons, elem_of_nil in Hin.
       decompose [or] Hin; done. }
  destruct (get_prop "sources" map) as [[| | | |sources|]|]; simpl;
    try destruct (array_map hook map sources); simpl;
    intros Hin; rewrite !elem_of_cons, elem_of_nil in Hin;
    decompose [or] Hin; try done; simplify_eq;
    by exists [EvReadFile sourceMapPath].
Qed.

End TransformerErrors.

(** X5.  The transformer changes no file but its destination and no
    directory and writes to no other path.  It rejects only with what the
    hook threw on an entry of the [sources] array of the document it read.
    A map that cannot be read, a text that cannot be parsed or given the
    two fields, and a destination that cannot be written each make it log
    one line at error level and resolve, with the world as it was. *)
Theorem X5_transformer_confined (P : Platform) (env : Env)
    (sourceMapPath targetPath debugId : string) (hook : RewriteSourcesHook)
    (w : World) :
  let run :=
    prepareSourceMapForDebugIdUpload P env sourceMapPath targetPath debugId
      hook w in
  (∀ q, q ≠ targetPath → files run.1.2 !! q = files w !! q)
  ∧ dirs run.1.2 = dirs w
  ∧ detached run.1.2 = detached w
  ∧ (∀ path text, EvWriteFile path text ∈ run.2 → path = targetPath)
  ∧ (∀ e, run.1.1 = Throw e →
       ∃ content map sources source,
         files w !! sourceMapPath = Some content
         ∧ parse_and_inject P content debugId = Ok map
         ∧ get_prop "sources" map = Some (JArray sources)
         ∧ source ∈ sources
         ∧ hook source map = Throw e)
  ∧ (files w !! sourceMapPath = None →
     run
     = (Ok (), w,
        [EvReadFile sourceMapPath;
         EvLog Err ("Failed to read source map for debug ID upload: "
                    +:+ sourceMapPath)]))
  ∧ (∀ content e,
       files w !! sourceMapPath = Some content →
       parse_and_inject P content debugId = Throw e →
       run
       = (Ok (), w,
          [EvReadFile sourceMapPath;
           EvLog Err ("Failed to parse source map for debug ID upload: "
                      +:+ sourceMapPath)]))
  ∧ (∀ text,
       write_succeeds env targetPath = false →
       EvWriteFile targetPath text ∈ run.2 →
       ∃ pre,
         run
         = (Ok (), w,
            pre ++ [EvWriteFile targetPath text;
                    EvLog Err
                      ("Failed to prepare source map for debug ID upload: "
                       +:+ sourceMapPath)])).
Proof.
  intros run. split_and!.
  - intros q Hq. subst run. unfold prepareSourceMapForDebugIdUpload.
    unfold mbind, M_bind, attempt, fs_readFile, lift_outcome, logger, emit,
      mret, M_ret, fs_writeFile.
    destruct (files w !! sourceMapPath); simpl; [|done].
    destruct (parse_and_inject P _ debugId) as [map|]; simpl; [|done].
    destruct (get_prop "sources" map) as [[| | | |sources|]|]; simpl;
      try destruct (array_map hook map sources); simpl;
      destruct (write_succeeds env targetPath); simpl;
      by rewrite ?lookup_insert_ne.
  - destruct (prepareSourceMap_obeys same_dirs (λ _, True) P env sourceMapPath
                targetPath debugId hook) with (w := w) as [[? ?] _]; done.
  - destruct (prepareSourceMap_obeys same_dirs (λ _, True) P env sourceMapPath
                targetPath debugId hook) with (w := w) as [[? ?] _]; done.
  - intros path text Hin.
    destruct (prepareSourceMap_obeys any_world
                (λ ev, ∀ path text, ev = EvWriteFile path text →
                                    path = targetPath)
                P env sourceMapPath targetPath debugId hook)
      with (w := w) as [_ Hevs]; [done|done|by intros ??? [= <- _]|].
    rewrite list.Forall_forall in Hevs. by eapply Hevs.
  - intros e. apply prepareSourceMap_throws_entry.
  - apply prepareSourceMap_unreadable.
  - intros content e. apply prepareSourceMap_unparsable.
  - intros text. apply prepareSourceMap_unwritable.
Qed.

(** X6.  When a map that parses to an object is written, every field other
    than [debug_id] and [debugId] has the value it was read with, and the
    fields read come first, in the order they were read. *)
Theorem X6_other_fields_kept (P : Platform) (env : Env)
    (sourceMapPath targetPath debugId : string) (hook : RewriteSourcesHook)
    (w : World) (content : string) (fs : list (string * Json)) :
  files w !! sourceMapPath = Some content →
  JSON_parse P content = Some (JObject fs) →
  (∀ sources, fields_get "sources" fs = Some (JArray sources) →
     ∃ rewritten,
       array_map hook (JObject (injected debugId fs)) sources = Ok rewritten) →
  write_succeeds env targetPath = true →
  ∃ written,
    files (prepareSourceMapForDebugIdUpload P env sourceMapPath targetPath
             debugId hook w).1.2 !! targetPath
    = Some (JSON_stringify P (JObject written))
    ∧ (∀ k, k ≠ "debug_id" → k ≠ "debugId" →
            fields_get k written = fields_get k fs)
    ∧ ∃ added, field_names written = field_names fs ++ added.
Proof.
  intros Hfile Hparse Hhook Hwrite.
  rewrite (prepareSourceMap_run P env _ _ _ _ _ _ _ Hfile Hparse).
  exists (injected debugId fs).
  split_and!; [|by intros; apply injected_other|apply injected_names].
  rewrite Hwrite.
  destruct (fields_get "sources" fs) as [[| | | |sources|]|]; simpl;
    try by rewrite lookup_insert_eq.
  destruct (Hhook sources eq_refl) as [rewritten ->]. simpl.
  by rewrite lookup_insert_eq.
Qed.

Lemma X6_witness :
  ∃ written,
    files (prepareSourceMapForDebugIdUpload Example.P1 Example.env1
             "/abs/app.js.map" "/stage/app.js.map" Example.id1
             (defaultHook Example.P1) Example.w1).1.2 !! "/stage/app.js.map"
    = Some (JSON_stringify Example.P1 (JObject written))
    ∧ (∀ k, k ≠ "debug_id" → k ≠ "debugId" →
            fields_get k written
            = fields_get k
                [("version", JNumber "3");
                 ("sources",
                  JArray [JString "https://cdn.example.com/app.js"])])
    ∧ ∃ added, field_names written = ["version"; "sources"] ++ added.
Proof.
  apply (X6_other_fields_kept Example.P1 Example.env1 "/abs/app.js.map"
           "/stage/app.js.map" Example.id1 (defaultHook Example.P1)
           Example.w1 (Fixture.stringify Example.doc1)
           [("version", JNumber "3");
            ("sources", JArray [JString "https://cdn.example.com/app.js"])]).
  - vm_compute. reflexivity.
  - vm_compute. reflexivity.
  - intros sources [= <-]. eexists. vm_compute. reflexivity.
  - reflexivity.
Defined.

(** X7.  With the default hook, a [sources] array with an entry that is not
    a string (a [null], say) makes the transformer reject with a
    [TypeError] after reading the map: nothing is written and nothing is
    logged. *)
Theorem X7_default_hook_non_string_entry (P : Platform) (env : Env)
    (sourceMapPath targetPath debugId : string) (w : World)
    (content : string) (fs : list (string * Json)) (sources : list Json) :
  files w !! sourceMapPath = Some content →
  JSON_parse P content = Some (JObject fs) →
  fields_get "sources" fs = Some (JArray sources) →
  forallb is_json_string sources = false →
  prepareSourceMapForDebugIdUpload P env sourceMapPath targetPath debugId
    (defaultHook P) w
  = (Throw ETypeError, w, [EvReadFile sourceMapPath]).
Proof.
  intros Hfile Hparse Hsources Hentry.
  rewrite (prepareSourceMap_run P env _ _ _ _ _ _ _ Hfile Hparse).
  by rewrite Hsources, (array_map_defaultHook P _ _ Hentry).
Qed.

Lemma X7_witness :
  prepareSourceMapForDebugIdUpload NullSource.P Example.env1 "/dist/n.js.map"
    "/stage/n.js.map" Example.id1 (defaultHook NullSource.P) NullSource.w
  = (Throw ETypeError, NullSource.w, [EvReadFile "/dist/n.js.map"]).
Proof.
  apply (X7_default_hook_non_string_entry NullSource.P Example.env1
           "/dist/n.js.map" "/stage/n.js.map" Example.id1 NullSource.w
           (Fixture.stringify NullSource.doc)
           [("version", JNumber "3");
            ("sources", JArray [JString "src/a.ts"; JNull])]
           [JString "src/a.ts"; JNull]).
  - vm_compute. reflexivity.
  - vm_compute. reflexivity.
  - reflexivity.
  - reflexivity.
Defined.

(** ** Units: what they read, probe and write *)

Section Units.

Context (P : Platform) (env : Env).

Global Instance untouched_outside_preorder folder :
  PreOrder (untouched_outside P folder).
Proof.
  split; [by intros ???|].
  intros w1 w2 w3 H12 H23 q Hq. by rewrite (H23 q Hq), (H12 q Hq).
Qed.

Lemma prepareSourceMap_other_files sourceMapPath targetPath debugId hook w q :
  q ≠ targetPath →
  files (prepareSourceMapForDebugIdUpload P env sourceMapPath targetPath
           debugId hook w).1.2 !! q
  = files w !! q.
Proof.
  intros Hq. unfold prepareSourceMapForDebugIdUpload.
  unfold mbind, M_bind, attempt, fs_readFile, lift_outcome, logger, emit,
    mret, M_ret, fs_writeFile.
  destruct (files w !! sourceMapPath); simpl; [|done].
  destruct (parse_and_inject P _ debugId) as [map|]; simpl; [|done].
  destruct (get_prop "sources" map) as [[| | | |sources|]|]; simpl;
    try destruct (array_map hook map sources); simpl;
    destruct (write_succeeds env targetPath); simpl;
    by rewrite ?lookup_insert_ne.
Qed.

(** One unit: the files it may read and probe are the bundle and the file
    next to it, the files it may write are its two staged files, and it
    changes nothing else. *)
Lemma prepareBundle_unit bundleFilePath folder chunkIndex hook w :
  untouched_outside P folder w
    (prepareBundleForDebugIdUpload P env bundleFilePath folder chunkIndex
       hook w).1.2
  ∧ Forall (unit_event P bundleFilePath folder chunkIndex)
      (prepareBundleForDebugIdUpload P env bundleFilePath folder chunkIndex
         hook w).2.
Proof.
  destruct (files w !! bundleFilePath) as [code|] eqn:Hfile.
  2: { unfold prepareBundleForDebugIdUpload.
       unfold mbind, M_bind, attempt, fs_readFile. rewrite Hfile. simpl.
       split; [done|]. repeat constructor. }
  destruct (determineDebugIdFromBundleSource code) as [debugId|] eqn:Hid.
  2: { destruct (prepareBundle_no_id P env bundleFilePath folder chunkIndex
                   hook w code Hfile Hid) as [msg ->].
       split; [done|]. repeat constructor. }
  destruct (prepareBundleForDebugIdUpload P env bundleFilePath folder
              chunkIndex hook w) as [[r w'] evs] eqn:Hrun.
  rewrite (prepareBundle_run P env _ _ _ _ _ _ _ Hfile Hid) in Hrun.
  rewrite Promise_all_pair in Hrun.
  set (js := path_join P folder (uniqueUploadName debugId chunkIndex +:+ ".js"))
    in *.
  set (jsmap := path_join P folder
                  (uniqueUploadName debugId chunkIndex +:+ ".js.map")) in *.
  assert (is_uuid debugId) as Huuid.
  { by destruct (determineDebugId_sound _ _ Hid) as (? & ? & _ & ?). }
  assert (staged_path P folder js) as Hsjs
    by (exists debugId, chunkIndex; split; [done|by left]).
  assert (staged_path P folder jsmap) as Hsmap
    by (exists debugId, chunkIndex; split; [done|by right]).
  assert (∃ r1 w1,
    fs_writeFile env js (stamp code debugId) w
    = (r1, w1, [EvWriteFile js (stamp code debugId)])
    ∧ untouched_outside P folder w w1) as (r1 & w1 & Hwrite & Hw1).
  { unfold fs_writeFile. destruct (write_succeeds env js);
      eexists _, _; (split; [done|]); [|done].
    intros q Hq. simpl. rewrite lookup_insert_ne; [done|].
    by intros <-. }
  rewrite Hwrite in Hrun. clear Hwrite.
  unfold mbind, M_bind in Hrun. rewrite locator_on_stamped in Hrun.
  assert (unit_event P bundleFilePath folder chunkIndex
            (EvWriteFile js (stamp code debugId))) as Hjs
    by (exists debugId; split; [done|by left]).
  assert (unit_event P bundleFilePath folder chunkIndex
            (EvReadFile bundleFilePath)) as Hrd by by left.
  assert (unit_event P bundleFilePath folder chunkIndex
            (EvAccess (bundleFilePath +:+ ".map"))) as Hac by done.
  destruct (_ || _); simpl in Hrun.
  - unfold truthy in Hrun.
    destruct (String.eqb (bundleFilePath +:+ ".map") ""); simpl in Hrun.
    + destruct r1; simplify_eq; simpl;
        (split; [done|by repeat constructor]).
    + pose proof (prepareSourceMap_other_files (bundleFilePath +:+ ".map")
                    jsmap debugId hook w1) as Hother.
      destruct (prepareSourceMap_obeys any_world
                  (unit_event P bundleFilePath folder chunkIndex) P env
                  (bundleFilePath +:+ ".map") jsmap debugId hook)
        with (w := w1) as [_ Hevs];
        [by right|done|by intros; exists debugId; split; [|right]|].
      destruct (prepareSourceMapForDebugIdUpload _ _ _ _ _ _ w1)
        as [[r2 w2] ev2]. simpl in *.
      assert (untouched_outside P folder w w2) as Hw2.
      { intros q Hq. rewrite Hother by (by intros ->). by apply Hw1. }
      destruct r1, r2; simplify_eq; simpl;
        (split; [done|]); by repeat (constructor; [done|]).
  - destruct r1; simplify_eq; simpl;
      (split; [done|by repeat constructor]).
Qed.

End Units.

(** ** Deletion, removal by removal *)

Section DeletionRun.

Context (P : Platform) (env : Env).

Lemma rm_all_settled_run (l : list string) w :
  ∃ w',
    all_settled (fs_rm_force env <$> l) w
    = (Ok (rm_outcome env <$> l), w', EvRm <$> l)
    ∧ (∀ q, files w' !! q
            = if bool_decide (q ∈ l) && rm_succeeds env q then None
              else files w !! q)
    ∧ dirs w' = dirs w ∧ detached w' = detached w.
Proof.
  revert w. induction l as [|p l IH]; intros w.
  { exists w. by repeat split. }
  rewrite !fmap_cons. cbn [all_settled].
  unfold mbind at 1. unfold M_bind at 1. unfold attempt, fs_rm_force at 1.
  unfold rm_outcome at 1.
  destruct (rm_succeeds env p) eqn:Hp.
  - destruct (IH {| files := delete p (files w); dirs := dirs w;
                    detached := detached w |})
      as (w' & Hrun & Hfiles & Hdirs & Hdet).
    exists w'. unfold mbind, M_bind. rewrite Hrun. simpl.
    rewrite app_nil_r. split; [done|]. split; [|done].
    intros q. rewrite Hfiles. simpl.
    destruct (decide (q = p)) as [->|Hne].
    + rewrite Hp, lookup_delete_eq.
      rewrite (bool_decide_eq_true_2 (p ∈ p :: l))
        by (apply elem_of_cons; by left).
      simpl.
      by destruct (_ && _).
    + rewrite lookup_delete_ne by done.
      by rewrite (bool_decide_ext (q ∈ p :: l) (q ∈ l))
        by (rewrite elem_of_cons; split; [by intros [?|?]|by right]).
  - destruct (IH w) as (w' & Hrun & Hfiles & Hdirs & Hdet).
    exists w'. unfold mbind, M_bind. rewrite Hrun. simpl.
    rewrite app_nil_r. split; [done|]. split; [|done].
    intros q. rewrite Hfiles.
    destruct (decide (q = p)) as [->|Hne].
    + rewrite Hp, !andb_false_r. done.
    + by rewrite (bool_decide_ext (q ∈ p :: l) (q ∈ l))
        by (rewrite elem_of_cons; split; [by intros [?|?]|by right]).
Qed.

Lemma join_rm_outcomes (l : list string) :
  join_outcomes (rm_outcome env <$> l)
  = match head (filter (λ p, rm_succeeds env p = false) l) with
    | Some p => Throw (ERm p)
    | None => Ok (replicate (List.length l) ())
    end.
Proof.
  induction l as [|p l IH]; [done|].
  rewrite fmap_cons. cbn [join_outcomes]. rewrite IH. unfold rm_outcome.
  destruct (rm_succeeds env p) eqn:Hp.
  - rewrite filter_cons_False by (by rewrite Hp). by destruct (head _).
  - by rewrite filter_cons_True.
Qed.

Lemma first_failed_removal (l : list string) :
  match head (filter (λ p, rm_succeeds env p = false) l) with
  | Some p => p ∈ l ∧ rm_succeeds env p = false
  | None => ∀ p, p ∈ l → rm_succeeds env p = true
  end.
Proof.
  induction l as [|p l IH]; [by intros ? ?%elem_of_nil|].
  destruct (rm_succeeds env p) eqn:Hp.
  - rewrite filter_cons_False by (by rewrite Hp).
    destruct (head _) as [p'|].
    + destruct IH. split; [by apply elem_of_cons; right|done].
    + intros q [->|Hq]%elem_of_cons; [done|by apply IH].
  - rewrite filter_cons_True by done. simpl.
    split; [by apply elem_of_cons; left|done].
Qed.

End DeletionRun.

(** X8. Deletion after upload, once its [glob] has resolved: every file
    found is announced before the first removal and the removal of every
    file is started, in the order of the list, also when another one
    fails.  The step resolves exactly when every removal succeeds, and then
    every file found is gone; it rejects only with the error of a removal
    that failed.  A file that was not found, or whose removal fails, is
    left as it was. *)
Theorem X8_every_removal_attempted (env : Env)
    (opts : DebugIdUploadPluginOptions) (w : World) (l : list string) :
  patterns_truthy (deleteFilesAfterUpload opts) = true →
  glob_matches env (default (PatternList []) (deleteFilesAfterUpload opts))
    None = Some l →
  let out := delete_files_after_upload env opts w in
  out.2
  = EvGlob (default (PatternList []) (deleteFilesAfterUpload opts)) None
    :: ((λ p, EvLog Debug ("Deleting asset after upload: " +:+ p)) <$> l)
    ++ (EvRm <$> l)
  ∧ (out.1.1 = Ok () ↔ ∀ p, p ∈ l → rm_succeeds env p = true)
  ∧ (∀ e, out.1.1 = Throw e →
       ∃ p, p ∈ l ∧ rm_succeeds env p = false ∧ e = ERm p)
  ∧ (out.1.1 = Ok () → ∀ p, p ∈ l → files out.1.2 !! p = None)
  ∧ (∀ q, q ∉ l ∨ rm_succeeds env q = false →
          files out.1.2 !! q = files w !! q).
Proof.
  intros Htruthy Hglob out.
  assert (∃ w',
    out
    = (match head (filter (λ p, rm_succeeds env p = false) l) with
       | Some p => Throw (ERm p)
       | None => Ok ()
       end, w',
       EvGlob (default (PatternList []) (deleteFilesAfterUpload opts)) None
       :: ((λ p, EvLog Debug ("Deleting asset after upload: " +:+ p)) <$> l)
       ++ (EvRm <$> l))
    ∧ ∀ q, files w' !! q
           = if bool_decide (q ∈ l) && rm_succeeds env q then None
             else files w !! q) as (w' & -> & Hfiles).
  { subst out. unfold delete_files_after_upload. rewrite Htruthy.
    destruct (rm_all_settled_run env l w) as (w' & Hrun & Hfiles & _).
    exists w'. split; [|done].
    unfold mbind, M_bind, glob. rewrite Hglob.
    rewrite (forEach_log_run (λ p, "Deleting asset after upload: " +:+ p)).
    unfold Promise_all, mbind, M_bind. rewrite Hrun.
    unfold lift_outcome. rewrite join_rm_outcomes.
    destruct (head _); simpl; by rewrite ?app_nil_r. }
  simpl. pose proof (first_failed_removal env l) as Hfirst.
  destruct (head (filter (λ p, rm_succeeds env p = false) l)) as [p|].
  - destruct Hfirst as [Hp Hfail]. split_and!; try done.
    + split; [done|]. intros Hall. rewrite (Hall p Hp) in Hfail. done.
    + intros e [= <-]. by exists p.
    + intros q [Hq|Hq]; rewrite Hfiles.
      * by rewrite bool_decide_eq_false_2.
      * by rewrite Hq, andb_false_r.
  - split_and!; try done.
    + intros _ p Hp. rewrite Hfiles.
      by rewrite bool_decide_eq_true_2, (Hfirst p Hp).
    + intros q [Hq|Hq]; rewrite Hfiles.
      * by rewrite bool_decide_eq_false_2.
      * by rewrite Hq, andb_false_r.
Qed.

Lemma X8_witness :
  let out :=
    delete_files_after_upload Failures.env_rm_fails Failures.opts_delete
      Example.w1 in
  out.2
  = EvGlob (Pattern "/dist/*.map") None
    :: ((λ p, EvLog Debug ("Deleting asset after upload: " +:+ p))
          <$> ["/dist/app.js.map"; "/dist/b.js.map"])
    ++ (EvRm <$> ["/dist/app.js.map"; "/dist/b.js.map"])
  ∧ (out.1.1 = Ok ()
     ↔ ∀ p, p ∈ ["/dist/app.js.map"; "/dist/b.js.map"] →
            rm_succeeds Failures.env_rm_fails p = true)
  ∧ (∀ e, out.1.1 = Throw e →
       ∃ p, p ∈ ["/dist/app.js.map"; "/dist/b.js.map"]
            ∧ rm_succeeds Failures.env_rm_fails p = false ∧ e = ERm p)
  ∧ (out.1.1 = Ok () →
     ∀ p, p ∈ ["/dist/app.js.map"; "/dist/b.js.map"] →
          files out.1.2 !! p = None)
  ∧ (∀ q, q ∉ ["/dist/app.js.map"; "/dist/b.js.map"]
          ∨ rm_succeeds Failures.env_rm_fails q = false →
          files out.1.2 !! q = files Example.w1 !! q).
Proof.
  apply (X8_every_removal_attempted Failures.env_rm_fails
           Failures.opts_delete Example.w1
           ["/dist/app.js.map"; "/dist/b.js.map"]);
    reflexivity.
Defined.

(** ** Discovery and preparation *)

Section Stage.

Context (P : Platform) (env : Env).

Lemma unit_event_stage opts buildArtifactPaths folder p i ev :
  candidate env opts buildArtifactPaths p →
  unit_event P p folder i ev →
  stage_event P env opts buildArtifactPaths folder ev.
Proof.
  intros Hp. destruct ev; simpl; try done.
  - intros Hpath. by exists p.
  - intros Hpath. by exists p.
  - intros (debugId & Huuid & Hpath). by exists debugId, i.
Qed.

Lemma units_obey opts buildArtifactPaths folder hook found :
  glob_matches env (globAssets_of opts buildArtifactPaths) (ignore opts)
  = Some found →
  obeys (untouched_outside P folder)
    (stage_event P env opts buildArtifactPaths folder)
    (Promise_all
       (imap (λ chunkIndex chunkFilePath,
                prepareBundleForDebugIdUpload P env chunkFilePath folder
                  chunkIndex hook)
             (filter (λ p, is_script p = true) found))).
Proof.
  intros Hglob. use @obeys_Promise_all. apply list.Forall_forall.
  intros m Hm. apply elem_of_lookup_imap in Hm as (i & p & -> & Hp).
  apply list_elem_of_lookup_2, list_elem_of_filter in Hp as [Hscript Hp].
  intros w.
  destruct (prepareBundle_unit P env p folder i hook w) as [Hw Hevs].
  split; [done|].
  eapply Forall_impl; [exact Hevs|].
  intros ev. apply unit_event_stage. by exists found.
Qed.

(** The events of discovery and preparation, with the call of the uploader
    set apart. *)
Lemma stage_and_upload_shape opts buildArtifactPaths folder w :
  ∃ evs tail,
    (stage_and_upload P env opts buildArtifactPaths folder w).2 = evs ++ tail
    ∧ Forall (stage_event P env opts buildArtifactPaths folder) evs
    ∧ untouched_outside P folder w
        (stage_and_upload P env opts buildArtifactPaths folder w).1.2
    ∧ (tail = []
       ∨ tail = [upload_event opts folder]
         ∧ (stage_and_upload P env opts buildArtifactPaths folder w).1.1
           = if upload_succeeds env then Ok () else Throw EUpload).
Proof.
  destruct (stage_and_upload P env opts buildArtifactPaths folder w)
    as [[r w'] evs] eqn:Hrun. simpl.
  unfold stage_and_upload in Hrun.
  set (pre := if patterns_truthy (assets opts) then []
              else [EvLog Debug
                      "No `sourcemaps.assets` option provided, falling back to uploading detected build artifacts."]).
  assert (Forall (stage_event P env opts buildArtifactPaths folder)
            (pre ++ [EvGlob (globAssets_of opts buildArtifactPaths)
                       (ignore opts)])) as Hpre.
  { apply Forall_app. split; [|by repeat constructor].
    unfold pre. destruct (patterns_truthy _); by repeat constructor. }
  assert ((if patterns_truthy (assets opts)
           then mret (default (PatternList []) (assets opts))
           else
             logger Debug
               "No `sourcemaps.assets` option provided, falling back to uploading detected build artifacts.";;
             mret (PatternList buildArtifactPaths)) w
          = (Ok (globAssets_of opts buildArtifactPaths), w, pre)) as Hfirst.
  { unfold globAssets_of, pre. by destruct (patterns_truthy (assets opts)). }
  unfold mbind at 1 in Hrun. unfold M_bind at 1 in Hrun.
  rewrite Hfirst in Hrun. clear Hfirst.
  unfold mbind at 1 in Hrun. unfold M_bind at 1 in Hrun.
  unfold glob in Hrun.
  destruct (glob_matches env (globAssets_of opts buildArtifactPaths)
              (ignore opts)) as [found|] eqn:Hglob.
  2: { simplify_eq. exists (pre ++ [EvGlob (globAssets_of opts
                                   buildArtifactPaths) (ignore opts)]), [].
       rewrite app_nil_r. repeat split; try done. by left. }
  pose proof (units_obey opts buildArtifactPaths folder
                (default (defaultHook P) (rewriteSourcesHook opts)) found
                Hglob w) as [Hw Hevs].
  set (good := λ out : Outcome unit * World * list Event,
    ∃ evs0 tail,
      pre ++ EvGlob (globAssets_of opts buildArtifactPaths) (ignore opts)
             :: out.2
      = evs0 ++ tail
      ∧ Forall (stage_event P env opts buildArtifactPaths folder) evs0
      ∧ untouched_outside P folder w out.1.2
      ∧ (tail = []
         ∨ tail = [upload_event opts folder]
           ∧ out.1.1 = if upload_succeeds env then Ok () else Throw EUpload)).
  assert (∀ level msg, good (logger level msg w)) as Hidle.
  { intros level msg.
    exists (pre ++ [EvGlob (globAssets_of opts buildArtifactPaths)
                      (ignore opts); EvLog level msg]), [].
    rewrite app_nil_r. repeat split; try done; [|by left].
    apply Forall_app. apply Forall_app in Hpre as [Hpre _].
    split; [done|by repeat constructor]. }
  assert (good
    ((_ ← Promise_all
            (imap (λ chunkIndex chunkFilePath,
                     prepareBundleForDebugIdUpload P env chunkFilePath
                       folder chunkIndex
                       (default (defaultHook P) (rewriteSourcesHook opts)))
                  (filter (λ p, is_script p = true) found));
      uploadSourceMaps env (default "undefined" (releaseName opts))
        [folder] (dist opts)) w)) as Hwork.
  { unfold mbind, M_bind.
    destruct (Promise_all _ w) as [[ru wu] evu]. simpl in Hw, Hevs.
    apply Forall_app in Hpre as [Hpre Hg]. apply Forall_singleton in Hg.
    destruct ru as [u|e]; simpl.
    - unfold uploadSourceMaps.
      exists (pre ++ EvGlob (globAssets_of opts buildArtifactPaths)
                       (ignore opts) :: evu),
             [upload_event opts folder].
      destruct (upload_succeeds env); simpl;
        (split; [by rewrite <-!app_assoc|]);
        (split; [apply Forall_app; split; [done|];
                 by apply Forall_cons|]);
        (split; [done|by right]).
    - exists (pre ++ EvGlob (globAssets_of opts buildArtifactPaths)
                       (ignore opts) :: evu), [].
      rewrite !app_nil_r. split; [done|].
      split; [|split; [done|by left]].
      apply Forall_app. split; [done|]. by apply Forall_cons. }
  clear Hw Hevs Hpre.
  clearbody pre. simpl in Hrun.
  destruct (assets opts) as [[?|[|??]]|];
    destruct (filter _ found) eqn:Hcands;
    lazymatch type of Hrun with
    | context [logger ?lv ?msg w] =>
        pose proof (Hidle lv msg) as HG;
        destruct (logger lv msg w) as [[r2 w2] ev2]
    | context [@mbind ?a ?b ?c ?d ?f ?m w] =>
        pose proof Hwork as HG;
        destruct (@mbind a b c d f m w) as [[r2 w2] ev2]
    end; simplify_eq; exact HG.
Qed.

End Stage.

(** ** The whole run, part by part *)

Section Run.

Context (P : Platform) (env : Env).

Lemma on_error_run opts e w :
  on_error env opts e w
  = (if flush_succeeds env
     then match handleRecoverableError opts e with
          | None => Ok ()
          | Some e' => Throw (ECallback e')
          end
     else Throw EFlush,
     w,
     EvCaptureException
       ("Error in " +:+ DQUOTE +:+ "debugIdUploadPlugin" +:+ DQUOTE
        +:+ " writeBundle hook")
     :: EvFlush
     :: if flush_succeeds env then [EvHandleRecoverableError e] else []).
Proof.
  unfold on_error, sentryHub_captureException, emit, sentryClient_flush,
    call_handleRecoverableError, mbind, M_bind.
  destruct (flush_succeeds env); [destruct (handleRecoverableError opts e)|];
    done.
Qed.

Lemma delete_files_frame opts buildArtifactPaths w r w' evs :
  delete_files_after_upload env opts w = (r, w', evs) →
  Forall (λ ev, run_event P env opts buildArtifactPaths ev
                ∧ is_work ev = false) evs
  ∧ ∀ q, files w' !! q = files w !! q
         ∨ files w' !! q = None ∧ to_delete env opts q.
Proof.
  unfold delete_files_after_upload.
  destruct (patterns_truthy (deleteFilesAfterUpload opts)) eqn:Htruthy.
  2: { intros [= <- <- <-]. split; [constructor|by left]. }
  unfold mbind at 1. unfold M_bind at 1. unfold glob.
  destruct (glob_matches env _ None) as [l|] eqn:Hglob.
  2: { intros [= <- <- <-]. split; [|by left].
       constructor; [|constructor]. split; [|done]. by right. }
  destruct (rm_all_settled_run env l w) as (w1 & Hrun & Hfiles & _).
  unfold mbind, M_bind.
  rewrite (forEach_log_run (λ p, "Deleting asset after upload: " +:+ p)).
  unfold Promise_all, mbind, M_bind. rewrite Hrun. unfold lift_outcome.
  assert (Forall (λ ev, run_event P env opts buildArtifactPaths ev
                        ∧ is_work ev = false)
            (EvGlob (default (PatternList []) (deleteFilesAfterUpload opts))
               None
             :: ((λ p, EvLog Debug ("Deleting asset after upload: " +:+ p))
                   <$> l)
             ++ (EvRm <$> l))) as Hevs.
  { constructor; [split; [by right|done]|].
    apply Forall_app. split; apply Forall_fmap, list.Forall_forall.
    - by intros p _.
    - intros p Hp. split; [|done]. split; [done|]. by exists l. }
  assert (∀ q, files w1 !! q = files w !! q
               ∨ files w1 !! q = None ∧ to_delete env opts q) as Hw1.
  { intros q. rewrite Hfiles.
    destruct (bool_decide (q ∈ l)) eqn:Hq; [|by left].
    apply bool_decide_eq_true in Hq.
    destruct (rm_succeeds env q); [|by left].
    right. split; [done|]. split; [done|]. by exists l. }
  destruct (join_outcomes _); simpl; intros [= <- <- <-];
    by rewrite ?app_nil_r.
Qed.

(** Discovery, preparation, upload and deletion. *)
Lemma body_frame opts buildArtifactPaths folder w r w' ev :
  (stage_and_upload P env opts buildArtifactPaths folder;;
   delete_files_after_upload env opts) w = (r, w', ev) →
  ∃ evs tail evd,
    ev = evs ++ tail ++ evd
    ∧ Forall (stage_event P env opts buildArtifactPaths folder) evs
    ∧ (tail = [] ∨ tail = [upload_event opts folder])
    ∧ Forall (λ ev, run_event P env opts buildArtifactPaths ev
                    ∧ is_work ev = false) evd
    ∧ (tail = [upload_event opts folder] → upload_succeeds env = false →
       evd = [] ∧ r = Throw EUpload)
    ∧ ∀ q, ¬ staged_path P folder q →
           files w' !! q = files w !! q
           ∨ files w' !! q = None ∧ to_delete env opts q.
Proof.
  destruct (stage_and_upload_shape P env opts buildArtifactPaths folder w)
    as (evs & tail & Hev & Hst & Hun & Htail).
  unfold mbind, M_bind.
  destruct (stage_and_upload P env opts buildArtifactPaths folder w)
    as [[rs ws] evss]. simpl in *. subst evss.
  assert (tail = [] ∨ tail = [upload_event opts folder]) as Htail'.
  { destruct Htail as [?|[? _]]; [by left|by right]. }
  destruct rs as [[]|e].
  - destruct (delete_files_after_upload env opts ws) as [[rd wd] evd]
      eqn:Hdel.
    apply (delete_files_frame opts buildArtifactPaths) in Hdel
      as [Hevd Hwd].
    intros [= <- <- <-]. exists evs, tail, evd.
    split; [by rewrite app_assoc|]. repeat split; try done.
    + destruct Htail as [->|[_ Hr]]; [done|]. by rewrite H0 in Hr.
    + destruct Htail as [->|[_ Hr]]; [done|]. by rewrite H0 in Hr.
    + intros q Hq. destruct (Hwd q) as [Heq|?]; [|by right].
      left. rewrite Heq. by apply Hun.
  - intros [= <- <- <-]. exists evs, tail, [].
    split; [by rewrite app_nil_r|]. repeat split; try done.
    + destruct Htail as [->|[_ Hr]]; [done|]. rewrite H0 in Hr. congruence.
    + intros q Hq. left. by apply Hun.
Qed.

Lemma body_frame_dirs opts buildArtifactPaths folder w :
  same_dirs w
    ((stage_and_upload P env opts buildArtifactPaths folder;;
      delete_files_after_upload env opts) w).1.2.
Proof.
  by destruct (body_obeys P env opts buildArtifactPaths folder w) as [? _].
Qed.

(** A run that made its staging directory. *)
Lemma run_frame opts buildArtifactPaths w folder r w' ev :
  mkdtemp_creates env (staging_prefix P) = Some folder →
  createDebugIdUploadFunction P env opts buildArtifactPaths w = (r, w', ev) →
  ∃ evs tail evd evh,
    ev = EvMkdtemp (staging_prefix P)
         :: evs ++ tail ++ evd ++ evh
            ++ (if truthy folder then [EvRmDetached folder] else [])
    ∧ Forall (stage_event P env opts buildArtifactPaths folder) evs
    ∧ (tail = [] ∨ tail = [upload_event opts folder])
    ∧ Forall (λ ev, run_event P env opts buildArtifactPaths ev
                    ∧ is_work ev = false) evd
    ∧ (evh = [] ∧ r = Ok ()
       ∨ ∃ e, evh = (on_error env opts e w).2
              ∧ r = (on_error env opts e w).1.1)
    ∧ (tail = [upload_event opts folder] → upload_succeeds env = false →
       evd = []
       ∧ evh = (on_error env opts EUpload w).2
       ∧ r = (on_error env opts EUpload w).1.1)
    ∧ ∀ q, ¬ staged_path P folder q →
           files w' !! q = files w !! q
           ∨ files w' !! q = None ∧ to_delete env opts q.
Proof.
  intros Hmk. rewrite (createDebugIdUploadFunction_run P env _ _ _ _ Hmk).
  match goal with
  | |- context [@mbind M ?i ?A ?B ?f ?m ?w1] =>
      destruct (@mbind M i A B f m w1) as [[r1 w2] ev1] eqn:Hbody
  end.
  apply body_frame in Hbody
    as (evs & tail & evd & -> & Hst & Htail & Hevd & Hfail & Hfiles).
  simpl in Hfiles.
  assert (∀ w3,
    cleanup (Some folder) w3
    = (Ok (),
       {| files := files w3; dirs := dirs w3;
          detached := detached w3
                      ++ (if truthy folder then [folder] else []) |},
       if truthy folder then [EvRmDetached folder] else [])) as Hclean.
  { intros [f d t]. unfold cleanup, fs_rm_detached.
    destruct (truthy folder); simpl; by rewrite ?app_nil_r. }
  destruct r1 as [[]|e].
  - rewrite Hclean. intros [= <- <- <-]. exists evs, tail, evd, [].
    split; [by rewrite <-!app_assoc|].
    split; [done|]. split; [done|]. split; [done|].
    split; [by left|]. split; [|done].
    intros Ht Hup. by destruct (Hfail Ht Hup).
  - rewrite on_error_run, Hclean. intros [= <- <- <-].
    exists evs, tail, evd, (on_error env opts e w).2.
    rewrite !on_error_run. simpl.
    split; [by rewrite <-!app_assoc|].
    split; [done|]. split; [done|]. split; [done|].
    split; [right; exists e; by rewrite on_error_run|]. split; [|done].
    intros Ht Hup. destruct (Hfail Ht Hup) as [-> [= ->]]. done.
Qed.

End Run.

Section RunEvents.

Context (P : Platform) (env : Env).

Lemma stage_event_run opts buildArtifactPaths folder ev :
  mkdtemp_creates env (staging_prefix P) = Some folder →
  stage_event P env opts buildArtifactPaths folder ev →
  run_event P env opts buildArtifactPaths ev.
Proof.
  intros Hmk. destruct ev; simpl; try done.
  - intros Hs. by exists folder.
  - intros [-> ->]. by left.
Qed.

Lemma on_error_events opts buildArtifactPaths e w :
  Forall (λ ev, run_event P env opts buildArtifactPaths ev
                ∧ is_work ev = false ∧ is_rm ev = false)
    (on_error env opts e w).2.
Proof.
  rewrite on_error_run. simpl.
  destruct (flush_succeeds env); by repeat constructor.
Qed.

End RunEvents.

(** X9. Every effect of a run is accounted for: the only files read are
    script files the discovery glob found and the file next to each with
    [.map] appended, which is also the only file probed; the only files
    written are staged paths inside the directory [mkdtemp] made; the
    uploader is only called with the release name (or ["undefined"]), that
    one directory and the [dist] option; the only files removed are those
    the deletion glob found; the only directory whose removal is started is
    the one [mkdtemp] made; and [glob] is only called for discovery and for
    deletion. *)
Theorem X9_effects_accounted (P : Platform) (env : Env)
    (opts : DebugIdUploadPluginOptions) (buildArtifactPaths : list string)
    (w : World) :
  Forall (run_event P env opts buildArtifactPaths)
    (createDebugIdUploadFunction P env opts buildArtifactPaths w).2.
Proof.
  destruct (mkdtemp_creates env (staging_prefix P)) as [folder|] eqn:Hmk.
  - destruct (createDebugIdUploadFunction P env opts buildArtifactPaths w)
      as [[r w'] ev] eqn:Hrun.
    apply (run_frame P env _ _ _ _ _ _ _ Hmk) in Hrun
      as (evs & tail & evd & evh & -> & Hst & Htail & Hevd & Hevh & _).
    simpl. constructor; [done|].
    repeat (apply Forall_app; split).
    + eapply Forall_impl; [exact Hst|].
      intros ev. by apply stage_event_run.
    + destruct Htail as [-> | ->]; [constructor|].
      constructor; [|constructor]. by exists folder.
    + eapply Forall_impl; [exact Hevd|]. by intros ev [? _].
    + destruct Hevh as [[-> _]|(e & -> & _)]; [constructor|].
      eapply Forall_impl; [apply on_error_events|]. by intros ev [? _].
    + destruct (truthy folder); by repeat constructor.
  - rewrite (createDebugIdUploadFunction_no_staging P env _ _ _ Hmk).
    pose proof (on_error_events P env opts buildArtifactPaths
                  (EMkdtemp (staging_prefix P)) w) as Hevs.
    destruct (on_error env opts _ w) as [[r w'] evs]. simpl in *.
    constructor; [done|].
    eapply Forall_impl; [exact Hevs|]. by intros ev [? _].
Qed.

(** X10. A file that is no staged path of the directory [mkdtemp] makes is,
    after the run, what it was before, or it is gone and the deletion glob
    had found it. *)
Theorem X10_files_left_alone (P : Platform) (env : Env)
    (opts : DebugIdUploadPluginOptions) (buildArtifactPaths : list string)
    (w : World) (q : string) :
  (∀ folder, mkdtemp_creates env (staging_prefix P) = Some folder →
             ¬ staged_path P folder q) →
  let out := createDebugIdUploadFunction P env opts buildArtifactPaths w in
  files out.1.2 !! q = files w !! q
  ∨ files out.1.2 !! q = None ∧ to_delete env opts q.
Proof.
  intros Hq out. subst out.
  destruct (mkdtemp_creates env (staging_prefix P)) as [folder|] eqn:Hmk.
  - destruct (createDebugIdUploadFunction P env opts buildArtifactPaths w)
      as [[r w'] ev] eqn:Hrun.
    apply (run_frame P env _ _ _ _ _ _ _ Hmk) in Hrun
      as (evs & tail & evd & evh & _ & _ & _ & _ & _ & _ & Hfiles).
    apply Hfiles. by apply Hq.
  - rewrite (createDebugIdUploadFunction_no_staging P env _ _ _ Hmk).
    rewrite on_error_run. by left.
Qed.

(** X11. When [mkdtemp] rejects, nothing is globbed, read, written, uploaded
    or removed and no cleanup is started: the error is reported to Sentry,
    the client is flushed and, if the flush resolved, the handler is given
    the [mkdtemp] error; the run settles as the flush and the handler
    do. *)
Theorem X11_no_staging_directory (P : Platform) (env : Env)
    (opts : DebugIdUploadPluginOptions) (buildArtifactPaths : list string)
    (w : World) :
  mkdtemp_creates env (staging_prefix P) = None →
  ∃ msg,
    createDebugIdUploadFunction P env opts buildArtifactPaths w
    = (if flush_succeeds env
       then match handleRecoverableError opts
                    (EMkdtemp (staging_prefix P)) with
            | None => Ok ()
            | Some e' => Throw (ECallback e')
            end
       else Throw EFlush,
       w,
       [EvMkdtemp (staging_prefix P); EvCaptureException msg; EvFlush]
       ++ if flush_succeeds env
          then [EvHandleRecoverableError (EMkdtemp (staging_prefix P))]
          else []).
Proof.
  intros Hmk.
  rewrite (createDebugIdUploadFunction_no_staging P env _ _ _ Hmk).
  rewrite on_error_run. by eexists.
Qed.

Lemma X11_witness :
  ∃ msg,
    createDebugIdUploadFunction Example.P1 Failures.env_no_tmp Example.opts1
      ["/dist/app.js"; "/dist/b.js"] Example.w1
    = (Ok (), Example.w1,
       [EvMkdtemp (staging_prefix Example.P1); EvCaptureException msg;
        EvFlush;
        EvHandleRecoverableError (EMkdtemp (staging_prefix Example.P1))]).
Proof.
  apply (X11_no_staging_directory Example.P1 Failures.env_no_tmp
           Example.opts1 ["/dist/app.js"; "/dist/b.js"] Example.w1).
  reflexivity.
Defined.

(** X12. The run rejects only with a rejection of the flush or with what
    the handler threw; it resolves whenever nothing was reported to
    Sentry. *)
Theorem X12_run_settles (P : Platform) (env : Env)
    (opts : DebugIdUploadPluginOptions) (buildArtifactPaths : list string)
    (w : World) :
  let out := createDebugIdUploadFunction P env opts buildArtifactPaths w in
  (out.1.1 = Ok ()
   ∨ flush_succeeds env = false ∧ out.1.1 = Throw EFlush
   ∨ ∃ e e', handleRecoverableError opts e = Some e'
             ∧ out.1.1 = Throw (ECallback e'))
  ∧ (Forall (λ ev, is_capture ev = false) out.2 → out.1.1 = Ok ()).
Proof.
  intros out. subst out.
  assert (∀ e r evh,
    evh = (on_error env opts e w).2 → r = (on_error env opts e w).1.1 →
    (r = Ok ()
     ∨ flush_succeeds env = false ∧ r = Throw EFlush
     ∨ ∃ e e', handleRecoverableError opts e = Some e'
               ∧ r = Throw (ECallback e'))
    ∧ ∃ msg evh', evh = EvCaptureException msg :: evh') as Hhandler.
  { intros e r evh -> ->. rewrite on_error_run. simpl.
    split; [|by eexists _, _].
    destruct (flush_succeeds env); [|right; by left].
    destruct (handleRecoverableError opts e) as [e'|] eqn:He; [|by left].
    right. right. by exists e, e'. }
  destruct (mkdtemp_creates env (staging_prefix P)) as [folder|] eqn:Hmk.
  - destruct (createDebugIdUploadFunction P env opts buildArtifactPaths w)
      as [[r w'] ev] eqn:Hrun.
    apply (run_frame P env _ _ _ _ _ _ _ Hmk) in Hrun
      as (evs & tail & evd & evh & -> & _ & _ & _ & Hevh & _).
    simpl. destruct Hevh as [[-> ->]|(e & Hevh & Hr)]; [split; [by left|done]|].
    destruct (Hhandler e r evh Hevh Hr) as [Hout (msg & evh' & ->)].
    split; [done|]. intros Hno.
    apply Forall_cons in Hno as [_ Hno].
    do 3 apply Forall_app in Hno as [_ Hno].
    apply Forall_app in Hno as [Hno _].
    by apply Forall_cons in Hno as [? _].
  - rewrite (createDebugIdUploadFunction_no_staging P env _ _ _ Hmk).
    destruct (on_error env opts (EMkdtemp (staging_prefix P)) w)
      as [[r w'] evh] eqn:Hh.
    destruct (Hhandler (EMkdtemp (staging_prefix P)) r evh)
      as [Hout (msg & evh' & ->)]; [by rewrite Hh..|].
    simpl. split; [done|]. intros Hno.
    apply Forall_cons in Hno as [_ Hno].
    by apply Forall_cons in Hno as [? _].
Qed.

Lemma X10_witness :
  let out :=
    createDebugIdUploadFunction Failures.flat Example.env1
      Failures.opts_delete ["/dist/app.js"; "/dist/b.js"] Example.w1 in
  files out.1.2 !! "/dist/app.js" = files Example.w1 !! "/dist/app.js"
  ∨ files out.1.2 !! "/dist/app.js" = None
    ∧ to_delete Example.env1 Failures.opts_delete "/dist/app.js".
Proof.
  apply (X10_files_left_alone Failures.flat Example.env1 Failures.opts_delete
           ["/dist/app.js"; "/dist/b.js"] Example.w1 "/dist/app.js").
  intros folder Hmk. vm_compute in Hmk. injection Hmk as <-.
  intros (debugId & chunkIndex & _ & [H|H]); simpl in H; discriminate H.
Defined.

(** ** The call of the uploader *)

Section Uploads.

Context (P : Platform) (env : Env).

Lemma no_mark {X} (f : X → bool) (l pre post : list X) ev :
  Forall (λ e, f e = false) l → f ev = true → l ≠ pre ++ ev :: post.
Proof.
  intros Hl Hev ->. apply Forall_app in Hl as [_ Hl].
  apply Forall_cons in Hl as [Hl _]. congruence.
Qed.

Lemma split_at_mark {X} (f : X → bool) (A B pre post : list X) u ev :
  Forall (λ e, f e = false) A → Forall (λ e, f e = false) B →
  f ev = true →
  A ++ u :: B = pre ++ ev :: post →
  pre = A ∧ ev = u ∧ post = B.
Proof.
  intros HA HB Hev. revert pre.
  induction A as [|a A IH]; intros [|x pre]; simpl; intros Heq.
  - by simplify_eq.
  - simplify_eq. by destruct (no_mark f _ pre post ev HB Hev).
  - simplify_eq. apply Forall_cons in HA as [? _]. congruence.
  - simplify_eq. apply Forall_cons in HA as [_ HA].
    by destruct (IH HA pre) as (-> & -> & ->).
Qed.

Lemma stage_event_quiet opts buildArtifactPaths folder evs :
  Forall (stage_event P env opts buildArtifactPaths folder) evs →
  Forall (λ e, is_upload e = false ∧ is_rm e = false) evs.
Proof.
  intros Hevs. eapply Forall_impl; [exact Hevs|]. by intros [].
Qed.

Lemma on_error_quiet opts e w :
  Forall (λ ev, is_work ev = false) (on_error env opts e w).2.
Proof.
  rewrite on_error_run. simpl.
  destruct (flush_succeeds env); by repeat constructor.
Qed.

(** What a run does around the call of the uploader. *)
Lemma run_around_upload opts buildArtifactPaths w pre ev post :
  is_upload ev = true →
  (createDebugIdUploadFunction P env opts buildArtifactPaths w).2
  = pre ++ ev :: post →
  ∃ folder evd evh,
    mkdtemp_creates env (staging_prefix P) = Some folder
    ∧ ev = upload_event opts folder
    ∧ Forall (λ e, is_upload e = false ∧ is_rm e = false) pre
    ∧ post = evd ++ evh
             ++ (if truthy folder then [EvRmDetached folder] else [])
    ∧ Forall (λ e, is_work e = false) evd
    ∧ Forall (λ e, is_work e = false) evh
    ∧ (upload_succeeds env = false →
       evd = []
       ∧ evh = (on_error env opts EUpload w).2
       ∧ (createDebugIdUploadFunction P env opts buildArtifactPaths w).1.1
         = (on_error env opts EUpload w).1.1).
Proof.
  intros Hev.
  destruct (mkdtemp_creates env (staging_prefix P)) as [folder|] eqn:Hmk.
  2: { rewrite (createDebugIdUploadFunction_no_staging P env _ _ _ Hmk).
       pose proof (on_error_quiet opts (EMkdtemp (staging_prefix P)) w) as Hq.
       destruct (on_error env opts _ w) as [[r w'] evs]. simpl in *.
       intros Heq. exfalso. revert Heq.
       apply (no_mark is_upload); [|done].
       constructor; [done|].
       eapply Forall_impl; [exact Hq|]. by intros []. }
  destruct (createDebugIdUploadFunction P env opts buildArtifactPaths w)
    as [[r w'] evs0] eqn:Hrun.
  apply (run_frame P env _ _ _ _ _ _ _ Hmk) in Hrun
    as (evs & tail & evd & evh & -> & Hst & Htail & Hevd & Hevh & Hfail & _).
  simpl. apply stage_event_quiet in Hst.
  assert (Forall (λ e, is_work e = false) evd) as Hevd'.
  { eapply Forall_impl; [exact Hevd|]. by intros e [_ ?]. }
  assert (Forall (λ e, is_work e = false) evh) as Hevh'.
  { destruct Hevh as [[-> _]|(e & -> & _)]; [constructor|].
    apply on_error_quiet. }
  assert (Forall (λ e, is_upload e = false)
            (evd ++ evh
             ++ (if truthy folder then [EvRmDetached folder] else [])))
    as Hafter.
  { repeat (apply Forall_app; split).
    - eapply Forall_impl; [exact Hevd'|]. by intros [].
    - eapply Forall_impl; [exact Hevh'|]. by intros [].
    - destruct (truthy folder); by repeat constructor. }
  assert (Forall (λ e, is_upload e = false)
            (EvMkdtemp (staging_prefix P) :: evs)) as Hbefore.
  { constructor; [done|]. eapply Forall_impl; [exact Hst|]. by intros e [? _]. }
  destruct Htail as [-> | ->]; simpl.
  - intros Heq. exfalso. revert Heq. apply (no_mark is_upload); [|done].
    constructor; [done|]. apply Forall_app. split; [|done].
    eapply Forall_impl; [exact Hst|]. by intros e [? _].
  - intros Heq.
    change (EvMkdtemp (staging_prefix P)
            :: evs ++ upload_event opts folder :: evd ++ evh
               ++ (if truthy folder then [EvRmDetached folder] else []))
      with ((EvMkdtemp (staging_prefix P) :: evs)
            ++ upload_event opts folder
               :: (evd ++ evh
                   ++ (if truthy folder then [EvRmDetached folder] else [])))
      in Heq.
    apply (split_at_mark is_upload) in Heq as (-> & -> & ->); try done.
    exists folder, evd, evh. repeat split; try done.
    + constructor; [done|exact Hst].
    + by destruct (Hfail eq_refl H) as [? _].
    + by destruct (Hfail eq_refl H) as (_ & ? & _).
    + by destruct (Hfail eq_refl H) as (_ & _ & ?).
Qed.

End Uploads.

(** X13. The uploader is called at most once in a run, with the release
    name (or ["undefined"]), the directory [mkdtemp] made as the only path
    and the [dist] option.  Before the call nothing is removed; after it
    nothing is read, probed or written. *)
Theorem X13_one_upload_after_staging (P : Platform) (env : Env)
    (opts : DebugIdUploadPluginOptions) (buildArtifactPaths : list string)
    (w : World) (pre post : list Event) (ev : Event) :
  is_upload ev = true →
  (createDebugIdUploadFunction P env opts buildArtifactPaths w).2
  = pre ++ ev :: post →
  (∃ folder, mkdtemp_creates env (staging_prefix P) = Some folder
             ∧ ev = upload_event opts folder)
  ∧ Forall (λ e, is_upload e = false ∧ is_rm e = false) pre
  ∧ Forall (λ e, is_work e = false) post.
Proof.
  intros Hev Heq.
  destruct (run_around_upload P env _ _ _ _ _ _ Hev Heq)
    as (folder & evd & evh & Hmk & -> & Hpre & -> & Hevd & Hevh & _).
  split; [by exists folder|]. split; [done|].
  repeat (apply Forall_app; split); try done.
  destruct (truthy folder); by repeat constructor.
Qed.

Lemma X13_witness :
  let evs :=
    (createDebugIdUploadFunction Example.P1 Example.env1 Failures.opts_delete
       ["/dist/app.js"; "/dist/b.js"] Example.w1).2 in
  (∃ folder,
     mkdtemp_creates Example.env1 (staging_prefix Example.P1) = Some folder
     ∧ upload_event Failures.opts_delete Example.staging
       = upload_event Failures.opts_delete folder)
  ∧ Forall (λ e, is_upload e = false ∧ is_rm e = false) (take 13 evs)
  ∧ Forall (λ e, is_work e = false) (drop 14 evs).
Proof.
  apply (X13_one_upload_after_staging Example.P1 Example.env1
           Failures.opts_delete ["/dist/app.js"; "/dist/b.js"] Example.w1).
  - reflexivity.
  - vm_compute. reflexivity.
Defined.

(** X14. When the uploader rejects, the run goes straight to the error
    path: nothing is removed before or after, the deletion glob is not
    called, the error is reported to Sentry, the client is flushed, the
    handler is given the upload error if the flush resolved, and the
    cleanup of the staging directory is started. *)
Theorem X14_failed_upload (P : Platform) (env : Env)
    (opts : DebugIdUploadPluginOptions) (buildArtifactPaths : list string)
    (w : World) (pre post : list Event) (ev : Event) :
  upload_succeeds env = false →
  is_upload ev = true →
  (createDebugIdUploadFunction P env opts buildArtifactPaths w).2
  = pre ++ ev :: post →
  Forall (λ e, is_rm e = false) pre
  ∧ (∃ msg folder,
       mkdtemp_creates env (staging_prefix P) = Some folder
       ∧ post
         = [EvCaptureException msg; EvFlush]
           ++ (if flush_succeeds env
               then [EvHandleRecoverableError EUpload] else [])
           ++ (if truthy folder then [EvRmDetached folder] else []))
  ∧ (createDebugIdUploadFunction P env opts buildArtifactPaths w).1.1
    = if flush_succeeds env
      then match handleRecoverableError opts EUpload with
           | None => Ok ()
           | Some e' => Throw (ECallback e')
           end
      else Throw EFlush.
Proof.
  intros Hup Hev Heq.
  destruct (run_around_upload P env _ _ _ _ _ _ Hev Heq)
    as (folder & evd & evh & Hmk & _ & Hpre & -> & _ & _ & Hfail).
  destruct (Hfail Hup) as (-> & -> & ->).
  rewrite on_error_run. simpl.
  split; [|split; [by eexists _, folder|done]].
  eapply Forall_impl; [exact Hpre|]. by intros e [_ ?].
Qed.

Lemma X14_witness :
  let out :=
    createDebugIdUploadFunction Example.P1 Failures.env_upload_fails
      Failures.opts_delete ["/dist/app.js"; "/dist/b.js"] Example.w1 in
  Forall (λ e, is_rm e = false) (take 13 out.2)
  ∧ (∃ msg folder,
       mkdtemp_creates Failures.env_upload_fails (staging_prefix Example.P1)
       = Some folder
       ∧ drop 14 out.2
         = [EvCaptureException msg; EvFlush]
           ++ (if flush_succeeds Failures.env_upload_fails
               then [EvHandleRecoverableError EUpload] else [])
           ++ (if truthy folder then [EvRmDetached folder] else []))
  ∧ out.1.1
    = if flush_succeeds Failures.env_upload_fails
      then match handleRecoverableError Failures.opts_delete EUpload with
           | None => Ok ()
           | Some e' => Throw (ECallback e')
           end
      else Throw EFlush.
Proof.
  apply (X14_failed_upload Example.P1 Failures.env_upload_fails
           Failures.opts_delete ["/dist/app.js"; "/dist/b.js"] Example.w1
           _ _ (upload_event Failures.opts_delete Example.staging)).
  - reflexivity.
  - reflexivity.
  - vm_compute. reflexivity.
Defined.

Section Fallback.

Context (P : Platform) (env : Env).

(** Without a truthy include option, discovery logs the fallback and hands
    the build artefacts to [glob]. *)
Lemma stage_falls_back opts buildArtifactPaths folder w :
  patterns_truthy (assets opts) = false →
  ∃ rest,
    (stage_and_upload P env opts buildArtifactPaths folder w).2
    = EvLog Debug
        "No `sourcemaps.assets` option provided, falling back to uploading detected build artifacts."
      :: EvGlob (PatternList buildArtifactPaths) (ignore opts) :: rest.
Proof.
  intros Hfalsy. unfold stage_and_upload. rewrite Hfalsy.
  unfold mbind at 1. unfold M_bind at 1.
  unfold mbind at 1. unfold M_bind at 1. unfold logger, emit, mret, M_ret.
  unfold mbind at 1. unfold M_bind at 1. unfold glob.
  destruct (glob_matches env (PatternList buildArtifactPaths) (ignore opts))
    as [found|]; [|by eexists].
  match goal with
  | |- context [?m w] =>
      lazymatch type of m with M unit => destruct (m w) as [[r2 w2] ev2] end
  end.
  by eexists.
Qed.

End Fallback.

(** X15. An empty string as the include option is falsy: the run is the run
    without the option, and it starts, once the staging directory is made,
    by logging the fallback and handing the build artefacts to [glob]. *)
Theorem X15_empty_include_string (P : Platform) (env : Env)
    (opts : DebugIdUploadPluginOptions) (buildArtifactPaths : list string)
    (w : World) (folder : string) :
  mkdtemp_creates env (staging_prefix P) = Some folder →
  let out :=
    createDebugIdUploadFunction P env (with_assets (Some (Pattern "")) opts)
      buildArtifactPaths w in
  out
  = createDebugIdUploadFunction P env (with_assets None opts)
      buildArtifactPaths w
  ∧ ∃ rest,
      out.2
      = EvMkdtemp (staging_prefix P)
        :: EvLog Debug
             "No `sourcemaps.assets` option provided, falling back to uploading detected build artifacts."
        :: EvGlob (PatternList buildArtifactPaths) (ignore opts) :: rest.
Proof.
  intros Hmk out. split.
  { subst out. unfold createDebugIdUploadFunction, stage_and_upload. simpl.
    reflexivity. }
  subst out. rewrite (createDebugIdUploadFunction_run P env _ _ _ _ Hmk).
  match goal with
  | |- context [stage_and_upload P env ?o ?a ?f;; ?d] =>
      generalize d; intros del
  end.
  match goal with
  | |- context [(stage_and_upload P env ?o ?a ?f;; del) ?w0] =>
      destruct (stage_falls_back P env o a f w0 eq_refl) as [rest Hst];
      unfold mbind, M_bind;
      destruct (stage_and_upload P env o a f w0) as [[rs ws] evs]
  end.
  simpl in Hst. subst evs.
  destruct rs as [[]|e].
  - destruct (del ws) as [[rd wd] evd].
    destruct (match rd with Ok a => _ | Throw e => _ end) as [[r2 w3] ev2].
    destruct (cleanup (Some folder) w3) as [[r3 w4] ev3]. simpl.
    by eexists.
  - destruct (on_error env _ e ws) as [[r2 w3] ev2].
    destruct (cleanup (Some folder) w3) as [[r3 w4] ev3]. simpl.
    by eexists.
Qed.

Lemma X15_witness :
  let out :=
    createDebugIdUploadFunction Example.P1 Example.env1
      (with_assets (Some (Pattern "")) Example.opts1)
      ["/dist/app.js"; "/dist/b.js"] Example.w1 in
  out
  = createDebugIdUploadFunction Example.P1 Example.env1
      (with_assets None Example.opts1) ["/dist/app.js"; "/dist/b.js"]
      Example.w1
  ∧ ∃ rest,
      out.2
      = EvMkdtemp (staging_prefix Example.P1)
        :: EvLog Debug
             "No `sourcemaps.assets` option provided, falling back to uploading detected build artifacts."
        :: EvGlob (PatternList ["/dist/app.js"; "/dist/b.js"])
             (ignore Example.opts1)
        :: rest.
Proof.
  apply (X15_empty_include_string Example.P1 Example.env1 Example.opts1
           ["/dist/app.js"; "/dist/b.js"] Example.w1 Example.staging).
  reflexivity.
Defined.

(** ** The index of a unit *)

Section Indices.

Context (P : Platform) (env : Env).

Lemma all_settled_lookup {A} (I : relation World) `{!PreOrder I}
    (ms : list (M A)) i m w :
  Forall (λ m, ∀ w, I w (m w).1.2) ms →
  ms !! i = Some m →
  ∃ wi, I w wi ∧ ∀ ev, ev ∈ (m wi).2 → ev ∈ (all_settled ms w).2.
Proof.
  intros Hms. revert i w.
  induction Hms as [|m0 ms Hm0 Hms IH]; intros i w Hi; [done|].
  cbn [all_settled]. unfold mbind, M_bind, attempt, mret, M_ret.
  specialize (Hm0 w).
  destruct i as [|i]; simpl in Hi.
  - simplify_eq. exists w. split; [done|]. intros ev Hev.
    destruct (m w) as [[r w1] e1].
    destruct (all_settled ms w1) as [[[rs|e] w2] e2];
      simpl in *; apply elem_of_app; by left.
  - destruct (m0 w) as [[r w1] e1]. simpl in Hm0.
    destruct (IH i w1 Hi) as (wi & Hwi & Hevs).
    exists wi. split; [by transitivity w1|]. intros ev Hev.
    specialize (Hevs ev Hev).
    destruct (all_settled ms w1) as [[[rs|e] w2] e2]; simpl in *;
      apply elem_of_app; right; [|done].
    apply elem_of_app. by left.
Qed.

Lemma prepareBundle_writes_text bundleFilePath folder chunkIndex hook w
    code debugId :
  files w !! bundleFilePath = Some code →
  determineDebugIdFromBundleSource code = Some debugId →
  EvWriteFile
    (path_join P folder (uniqueUploadName debugId chunkIndex +:+ ".js"))
    (stamp code debugId)
  ∈ (prepareBundleForDebugIdUpload P env bundleFilePath folder chunkIndex
       hook w).2.
Proof.
  intros Hfile Hid.
  rewrite (prepareBundle_run P env _ _ _ _ _ _ _ Hfile Hid).
  rewrite Promise_all_pair.
  assert (∃ r1 w1,
    fs_writeFile env
      (path_join P folder (uniqueUploadName debugId chunkIndex +:+ ".js"))
      (stamp code debugId) w
    = (r1, w1,
       [EvWriteFile
          (path_join P folder (uniqueUploadName debugId chunkIndex +:+ ".js"))
          (stamp code debugId)])) as (r1 & w1 & ->).
  { unfold fs_writeFile. destruct (write_succeeds env _); by eexists _, _. }
  match goal with
  | |- context [@mbind M ?i ?A ?B ?f ?m w1] =>
      destruct (@mbind M i A B f m w1) as [[r2 w2] ev2]
  end.
  destruct (join_outcomes _); simpl; apply elem_of_cons; right;
    apply elem_of_cons; by left.
Qed.

Lemma stage_runs_units opts buildArtifactPaths folder w found ev :
  glob_matches env (globAssets_of opts buildArtifactPaths) (ignore opts)
  = Some found →
  assets opts ≠ Some (PatternList []) →
  filter (λ p, is_script p = true) found ≠ [] →
  ev ∈ (Promise_all
          (imap (λ chunkIndex chunkFilePath,
                   prepareBundleForDebugIdUpload P env chunkFilePath folder
                     chunkIndex
                     (default (defaultHook P) (rewriteSourcesHook opts)))
                (filter (λ p, is_script p = true) found)) w).2 →
  ev ∈ (stage_and_upload P env opts buildArtifactPaths folder w).2.
Proof.
  intros Hglob Hassets Hcands Hev. unfold stage_and_upload.
  assert (∀ pre, (if patterns_truthy (assets opts)
           then mret (default (PatternList []) (assets opts))
           else logger Debug pre;; mret (PatternList buildArtifactPaths)) w
          = (Ok (globAssets_of opts buildArtifactPaths), w,
             if patterns_truthy (assets opts) then []
             else [EvLog Debug pre])) as Hfirst.
  { intros pre. unfold globAssets_of.
    by destruct (patterns_truthy (assets opts)). }
  unfold mbind at 1. unfold M_bind at 1. rewrite Hfirst.
  unfold mbind at 1. unfold M_bind at 1. unfold glob. rewrite Hglob.
  assert (∀ evs : list Event,
    ev ∈ (let '(r2, w2, ev2) :=
            (_ ← Promise_all
                   (imap (λ chunkIndex chunkFilePath,
                            prepareBundleForDebugIdUpload P env chunkFilePath
                              folder chunkIndex
                              (default (defaultHook P)
                                 (rewriteSourcesHook opts)))
                         (filter (λ p, is_script p = true) found));
             uploadSourceMaps env (default "undefined" (releaseName opts))
               [folder] (dist opts)) w in
          (r2, w2, evs ++ ev2)).2) as Hwork.
  { intros evs. unfold mbind, M_bind.
    destruct (Promise_all _ w) as [[ru wu] evu]. simpl in Hev.
    destruct ru; simpl.
    - destruct (uploadSourceMaps _ _ _ _ wu) as [[r3 w3] ev3]. simpl.
      apply elem_of_app. right. apply elem_of_app. by left.
    - apply elem_of_app. by right. }
  clear Hev Hfirst.
  destruct (assets opts) as [[?|[|??]]|];
    destruct (filter _ found) eqn:Heq; try done;
    match goal with
    | |- context [@mbind M ?i ?A ?B ?f ?m w] =>
        specialize (Hwork [EvGlob (globAssets_of opts buildArtifactPaths)
                             (ignore opts)]);
        destruct (@mbind M i A B f m w) as [[r2 w2] ev2]
    end; simpl in *;
    first [exact Hwork|apply elem_of_app; by right|by apply elem_of_cons; right].
Qed.

Lemma cleanup_some_run folder w :
  cleanup (Some folder) w
  = (Ok (),
     {| files := files w; dirs := dirs w;
        detached := detached w ++ (if truthy folder then [folder] else []) |},
     if truthy folder then [EvRmDetached folder] else []).
Proof.
  destruct w as [f d t]. unfold cleanup, fs_rm_detached.
  destruct (truthy folder); simpl; by rewrite ?app_nil_r.
Qed.

End Indices.

(** X16. The chunk index of a unit is the position of its bundle among the
    script files the discovery glob found, in the order of the glob: a
    bundle at position [i] that is readable and carries an identifier has
    its stamped text written under [<identifier>-<i>.js] in the staging
    directory, also when other units failed. *)
Theorem X16_index_is_position (P : Platform) (env : Env)
    (opts : DebugIdUploadPluginOptions) (buildArtifactPaths : list string)
    (w : World) (folder : string) (found : list string) (i : nat)
    (p code debugId : string) :
  mkdtemp_creates env (staging_prefix P) = Some folder →
  glob_matches env (globAssets_of opts buildArtifactPaths) (ignore opts)
  = Some found →
  assets opts ≠ Some (PatternList []) →
  filter (λ p, is_script p = true) found !! i = Some p →
  files w !! p = Some code →
  determineDebugIdFromBundleSource code = Some debugId →
  ¬ staged_path P folder p →
  EvWriteFile (path_join P folder (uniqueUploadName debugId i +:+ ".js"))
    (stamp code debugId)
  ∈ (createDebugIdUploadFunction P env opts buildArtifactPaths w).2.
Proof.
  intros Hmk Hglob Hassets Hi Hfile Hid Hp.
  rewrite (createDebugIdUploadFunction_run P env _ _ _ _ Hmk).
  set (w0 := {| files := files w; dirs := {[folder]} ∪ dirs w;
                detached := detached w |}).
  set (hook := default (defaultHook P) (rewriteSourcesHook opts)).
  set (units := imap (λ chunkIndex chunkFilePath,
                        prepareBundleForDebugIdUpload P env chunkFilePath
                          folder chunkIndex hook)
                     (filter (λ p, is_script p = true) found)).
  destruct (all_settled_lookup (untouched_outside P folder) units i
              (prepareBundleForDebugIdUpload P env p folder i hook) w0)
    as (wi & Hwi & Hevs).
  { apply list.Forall_forall. intros m Hm.
    apply elem_of_lookup_imap in Hm as (j & q & -> & _). intros w1.
    by destruct (prepareBundle_unit P env q folder j hook w1). }
  { unfold units. by rewrite list_lookup_imap, Hi. }
  assert (files wi !! p = Some code) as Hfile'.
  { by rewrite (Hwi p Hp). }
  pose proof (Hevs _ (prepareBundle_writes_text P env p folder i hook wi
                        code debugId Hfile' Hid)) as Hin.
  assert (EvWriteFile
            (path_join P folder (uniqueUploadName debugId i +:+ ".js"))
            (stamp code debugId)
          ∈ (stage_and_upload P env opts buildArtifactPaths folder w0).2)
    as Hstage.
  { apply (stage_runs_units P env _ _ _ _ found); try done.
    - intros Hnil. by rewrite Hnil in Hi.
    - fold hook. fold units. unfold Promise_all, mbind, M_bind.
      destruct (all_settled units w0) as [[[rs|e] w2] ev2]; simpl in *;
        [|done].
      destruct (lift_outcome (join_outcomes rs) w2) as [[r3 w3] ev3]. simpl.
      apply elem_of_app. by left. }
  unfold mbind, M_bind.
  destruct (stage_and_upload P env opts buildArtifactPaths folder w0)
    as [[rs ws] evs]. simpl in Hstage.
  destruct rs as [[]|e].
  - destruct (delete_files_after_upload env opts ws) as [[rd wd] evd].
    destruct rd; rewrite ?on_error_run, cleanup_some_run; simpl;
      apply elem_of_cons; right; apply elem_of_app; left;
      apply elem_of_app; by left.
  - rewrite on_error_run, cleanup_some_run. simpl.
    apply elem_of_cons. right. apply elem_of_app. by left.
Qed.

Lemma X16_witness :
  EvWriteFile
    (path_join Failures.flat Example.staging
       (uniqueUploadName Example.id2 1 +:+ ".js"))
    (stamp Example.bundle2 Example.id2)
  ∈ (createDebugIdUploadFunction Failures.flat Example.env1 Example.opts1
       ["/dist/app.js"; "/dist/b.js"] Example.w1).2.
Proof.
  apply (X16_index_is_position Failures.flat Example.env1 Example.opts1
           ["/dist/app.js"; "/dist/b.js"] Example.w1 Example.staging
           ["/dist/app.js"; "/dist/b.js"] 1 "/dist/b.js" Example.bundle2
           Example.id2).
  - reflexivity.
  - reflexivity.
  - discriminate.
  - vm_compute. reflexivity.
  - vm_compute. reflexivity.
  - vm_compute. reflexivity.
  - intros (debugId & chunkIndex & _ & [H|H]); simpl in H; discriminate H.
Defined.

(** ** The names of the staged files *)

Section StagedNames.

Context (P : Platform) (env : Env).

Lemma truthy_map_suffix (bundlePath : string) :
  truthy (bundlePath +:+ ".map") = true.
Proof. by destruct bundlePath. Qed.

(** What the transformer writes is a serialised document, at its
    destination. *)
Lemma prepareSourceMap_writes sourceMapPath targetPath debugId hook w
    path text :
  EvWriteFile path text
  ∈ (prepareSourceMapForDebugIdUpload P env sourceMapPath targetPath debugId
       hook w).2 →
  path = targetPath ∧ ∃ map, text = JSON_stringify P map.
Proof.
  unfold prepareSourceMapForDebugIdUpload.
  unfold mbind, M_bind, attempt, fs_readFile, lift_outcome, logger, emit,
    mret, M_ret, fs_writeFile.
  destruct (files w !! sourceMapPath) as [content|]; simpl.
  2: { intros Hin. rewrite !elem_of_cons, elem_of_nil in Hin.
       decompose [or] Hin; done. }
  destruct (parse_and_inject P content debugId) as [map|]; simpl.
  2: { intros Hin. rewrite !elem_of_cons, elem_of_nil in Hin.
       decompose [or] Hin; done. }
  destruct (get_prop "sources" map) as [[| | | |sources|]|]; simpl;
    try destruct (array_map hook map sources); simpl;
    destruct (write_succeeds env targetPath); simpl;
    intros Hin; rewrite !elem_of_cons, elem_of_nil in Hin;
    decompose [or] Hin; try done; simplify_eq; by eauto.
Qed.

(** The map pipeline of a unit (lines 184-198), on the stamped text. *)
Lemma map_pipeline_run bundleFilePath code targetPath debugId hook w :
  (sourceMapPath ←
     determineSourceMapPathFromBundle P bundleFilePath (stamp code debugId);
   match sourceMapPath with
   | Some sourceMapPath =>
       if truthy sourceMapPath then
         prepareSourceMapForDebugIdUpload P env sourceMapPath targetPath
           debugId hook
       else mret ()
   | None => mret ()
   end) w
  = if bool_decide (is_Some (files w !! (bundleFilePath +:+ ".map")))
       || bool_decide (bundleFilePath +:+ ".map" ∈ dirs w)
    then
      let '(r, w', evs) :=
        prepareSourceMapForDebugIdUpload P env (bundleFilePath +:+ ".map")
          targetPath debugId hook w in
      (r, w', EvAccess (bundleFilePath +:+ ".map") :: evs)
    else
      (Ok (), w,
       [EvAccess (bundleFilePath +:+ ".map");
        EvLog Debug
          ("Could not determine source map path for bundle: "
           +:+ bundleFilePath
           +:+ " - Did you turn on source map generation in your bundler?")]).
Proof.
  unfold mbind, M_bind. rewrite locator_on_stamped.
  destruct (_ || _); [|done].
  rewrite truthy_map_suffix.
  by destruct (prepareSourceMapForDebugIdUpload _ _ _ _ _ _ w) as [[r w'] evs].
Qed.

(** The events of a unit whose bundle carries an identifier. *)
Lemma prepareBundle_events bundleFilePath uploadFolder chunkIndex hook w
    code debugId :
  files w !! bundleFilePath = Some code →
  determineDebugIdFromBundleSource code = Some debugId →
  let js :=
    path_join P uploadFolder (uniqueUploadName debugId chunkIndex +:+ ".js") in
  let jsmap :=
    path_join P uploadFolder
      (uniqueUploadName debugId chunkIndex +:+ ".js.map") in
  ∃ w1,
    (∀ q, q ≠ js → files w1 !! q = files w !! q)
    ∧ dirs w1 = dirs w
    ∧ (prepareBundleForDebugIdUpload P env bundleFilePath uploadFolder
         chunkIndex hook w).2
      = EvReadFile bundleFilePath
        :: EvWriteFile js (stamp code debugId)
        :: ((sourceMapPath ←
               determineSourceMapPathFromBundle P bundleFilePath
                 (stamp code debugId);
             match sourceMapPath with
             | Some sourceMapPath =>
                 if truthy sourceMapPath then
                   prepareSourceMapForDebugIdUpload P env sourceMapPath jsmap
                     debugId hook
                 else mret ()
             | None => mret ()
             end) w1).2.
Proof.
  intros Hfile Hid js jsmap.
  rewrite (prepareBundle_run P env _ _ _ _ _ _ _ Hfile Hid).
  rewrite Promise_all_pair. fold js. fold jsmap.
  assert (∃ r1 w1,
    fs_writeFile env js (stamp code debugId) w
    = (r1, w1, [EvWriteFile js (stamp code debugId)])
    ∧ (∀ q, q ≠ js → files w1 !! q = files w !! q)
    ∧ dirs w1 = dirs w) as (r1 & w1 & -> & Hw1 & Hd1).
  { unfold fs_writeFile. destruct (write_succeeds env js);
      eexists _, _; (split; [done|]); (split; [|done]); [|done].
    intros q Hq. simpl. by rewrite lookup_insert_ne. }
  exists w1. split; [done|]. split; [done|].
  match goal with
  | |- context [@mbind M ?i ?A ?B ?f ?m w1] =>
      destruct (@mbind M i A B f m w1) as [[r2 w2] ev2]
  end.
  by destruct (join_outcomes _).
Qed.

End StagedNames.

(** C6.  A unit whose bundle carries an identifier writes the stamped text
    to [<identifier>-<chunkIndex>.js] in the staging folder.  Whatever else
    it writes is a serialised map, written to
    [<identifier>-<chunkIndex>.js.map] in the same folder, and the map next
    to the bundle, when it is read, parsed and taken by the hook, is
    written there with the identifier fields set.  The names of two chunk
    indices differ, and for indices 0 and 1 they are [<id>-0.js] and
    [<id>-1.js]. *)
Theorem C6_staged_names (P : Platform) (env : Env)
    (bundleFilePath uploadFolder : string) (chunkIndex : nat)
    (hook : RewriteSourcesHook) (w : World) (code debugId : string) :
  files w !! bundleFilePath = Some code →
  determineDebugIdFromBundleSource code = Some debugId →
  let out :=
    prepareBundleForDebugIdUpload P env bundleFilePath uploadFolder chunkIndex
      hook w in
  let base := debugId +:+ "-" +:+ pretty chunkIndex in
  let js := path_join P uploadFolder (base +:+ ".js") in
  let jsmap := path_join P uploadFolder (base +:+ ".js.map") in
  EvWriteFile js (stamp code debugId) ∈ out.2
  ∧ (∀ path text, EvWriteFile path text ∈ out.2 →
       path = js ∧ text = stamp code debugId
       ∨ path = jsmap ∧ ∃ map, text = JSON_stringify P map)
  ∧ (∀ content fs,
       bundleFilePath +:+ ".map" ≠ js →
       files w !! (bundleFilePath +:+ ".map") = Some content →
       JSON_parse P content = Some (JObject fs) →
       (∀ sources, fields_get "sources" fs = Some (JArray sources) →
          ∃ rewritten,
            array_map hook (JObject (injected debugId fs)) sources
            = Ok rewritten) →
       EvWriteFile jsmap (JSON_stringify P (JObject (injected debugId fs)))
       ∈ out.2)
  ∧ (∀ i j : nat, i ≠ j →
       debugId +:+ "-" +:+ pretty i +:+ ".js"
       ≠ debugId +:+ "-" +:+ pretty j +:+ ".js")
  ∧ debugId +:+ "-" +:+ pretty 0 +:+ ".js" = debugId +:+ "-0.js"
  ∧ debugId +:+ "-" +:+ pretty 1 +:+ ".js" = debugId +:+ "-1.js".
Proof.
  intros Hfile Hid out base js jsmap. subst out.
  destruct (prepareBundle_events P env bundleFilePath uploadFolder chunkIndex
              hook w code debugId Hfile Hid) as (w1 & Hw1 & Hd1 & ->).
  fold (uniqueUploadName debugId chunkIndex) in base.
  fold base. fold js. fold jsmap.
  rewrite map_pipeline_run. split_and!.
  - apply elem_of_cons. right. apply elem_of_cons. by left.
  - intros path text Hin.
    rewrite !elem_of_cons in Hin. destruct Hin as [?|[Heq|Hin]]; [done| |].
    { simplify_eq. by left. }
    right. destruct (_ || _).
    + pose proof (prepareSourceMap_writes P env (bundleFilePath +:+ ".map")
                    jsmap debugId hook w1 path text) as Hwrites.
      destruct (prepareSourceMapForDebugIdUpload _ _ _ _ _ _ w1)
        as [[r2 w2] ev2]. simpl in *.
      apply elem_of_cons in Hin as [?|Hin]; [done|]. by apply Hwrites.
    + simpl in Hin. rewrite !elem_of_cons, elem_of_nil in Hin.
      decompose [or] Hin; done.
  - intros content fs Hne Hmap Hparse Hhook.
    assert (files w1 !! (bundleFilePath +:+ ".map") = Some content) as Hmap1
      by by rewrite Hw1.
    rewrite Hmap1, bool_decide_eq_true_2 by done. simpl.
    rewrite (prepareSourceMap_run P env _ _ _ _ _ _ _ Hmap1 Hparse).
    assert (match fields_get "sources" fs with
            | Some (JArray sources) =>
                match array_map hook (JObject (injected debugId fs)) sources
                with
                | Ok _ => None
                | Throw e => Some e
                end
            | _ => None
            end = None) as ->.
    { destruct (fields_get "sources" fs) as [[| | | |sources|]|]; try done.
      by destruct (Hhook sources eq_refl) as [rewritten ->]. }
    destruct (write_succeeds env jsmap); simpl;
      do 4 (apply elem_of_cons; right); apply elem_of_cons; by left.
  - intros i j Hne Heq. apply Hne.
    apply (inj (String.app debugId)), (inj (String.app "-")) in Heq.
    apply sapp_inv_r in Heq. by apply (inj pretty).
  - by vm_compute.
  - by vm_compute.
Qed.

Lemma C6_witness :
  let out :=
    prepareBundleForDebugIdUpload Example.P1 Example.env1 "/dist/b.js"
      Example.staging 1 (defaultHook Example.P1) Example.w1 in
  let base := Example.id2 +:+ "-" +:+ pretty 1 in
  let js := path_join Example.P1 Example.staging (base +:+ ".js") in
  let jsmap := path_join Example.P1 Example.staging (base +:+ ".js.map") in
  EvWriteFile js (stamp Example.bundle2 Example.id2) ∈ out.2
  ∧ (∀ path text, EvWriteFile path text ∈ out.2 →
       path = js ∧ text = stamp Example.bundle2 Example.id2
       ∨ path = jsmap ∧ ∃ map, text = JSON_stringify Example.P1 map)
  ∧ EvWriteFile jsmap
      (JSON_stringify Example.P1
         (JObject
            (injected Example.id2
               [("version", JNumber "3");
                ("sources", JArray [JString "/home/u/proj/src/b.ts"])])))
    ∈ out.2
  ∧ (∀ i j : nat, i ≠ j →
       Example.id2 +:+ "-" +:+ pretty i +:+ ".js"
       ≠ Example.id2 +:+ "-" +:+ pretty j +:+ ".js")
  ∧ Example.id2 +:+ "-" +:+ pretty 0 +:+ ".js" = Example.id2 +:+ "-0.js"
  ∧ Example.id2 +:+ "-" +:+ pretty 1 +:+ ".js" = Example.id2 +:+ "-1.js".
Proof.
  destruct (C6_staged_names Example.P1 Example.env1 "/dist/b.js"
              Example.staging 1 (defaultHook Example.P1) Example.w1
              Example.bundle2 Example.id2)
    as (Hjs & Honly & Hmap & Hnames & H0 & H1).
  - vm_compute. reflexivity.
  - vm_compute. reflexivity.
  - split; [exact Hjs|]. split; [exact Honly|].
    split; [|split; [exact Hnames|split; [exact H0|exact H1]]].
    apply (Hmap (Fixture.stringify Example.doc2)).
    + intros Heq. vm_compute in Heq. discriminate Heq.
    + vm_compute. reflexivity.
    + vm_compute. reflexivity.
    + intros sources [= <-]. eexists. vm_compute. reflexivity.
Defined.
